(** * weatherbot: the travel-weather pipeline and its sidecar record

    A shallow embedding of [app/weather_agent.py], [app/chatbot.py],
    [app/stt_helpers.py] and the response entry point of [app/main.py].

    - Python values are the JSON-shaped values the program passes around
      ([json]); a [dict] is a finite map from strings to values.
    - Exceptions are values of [exn]; [str(e)] is [exn_msg].
    - Everything outside the repository (cloud services, the clock, the file
      system, third-party libraries) is a field of [env]; the functions of the
      program are state transformers over [world] that may raise. *)

From stdpp Require Import gmap strings list fin_maps pretty.
From Stdlib Require Import ZArith Floats Ascii.

Set Warnings "-register-all".
Local Open Scope Z_scope.

(* ===================================================================== *)
(** ** Python values *)
(* ===================================================================== *)

Module Py.

Inductive json : Type :=
| JNull
| JBool (b : bool)
| JInt (n : Z)
| JFloat (f : float)
| JStr (s : string)
| JList (l : list json)
| JDict (d : gmap string json).

(** [bool(v)]: [None], [False], zeros and empty containers are falsy. *)
Definition truthy (v : json) : bool :=
  match v with
  | JNull => false
  | JBool b => b
  | JInt n => negb (n =? 0)
  | JFloat f => negb (PrimFloat.eqb f 0%float)
  | JStr s => negb (String.eqb s "")
  | JList l => match l with [] => false | _ => true end
  | JDict d => match map_to_list d with [] => false | _ => true end
  end.

(** [a or b] when [b] has no effect. *)
Definition py_or (a b : json) : json := if truthy a then a else b.

Definition of_opt_str (o : option string) : json :=
  match o with Some s => JStr s | None => JNull end.

(** Exceptions: the class and the text [str(e)] gives. *)
Inductive exn_class : Type :=
| FileNotFoundError | RuntimeError | ValueError | AttributeError
| TypeError | KeyError | IndexError | OSError | RequestError
| HTTPException (status_code : Z).

Record exn : Type := Exn { exn_cls : exn_class; exn_msg : string }.

Inductive pyres (A : Type) : Type :=
| Return (a : A)
| Raise (e : exn).
Arguments Return {A} a.
Arguments Raise {A} e.

Definition is_raise {A} (r : pyres A) : bool :=
  match r with Raise _ => true | Return _ => false end.

Definition pbind {A B} (r : pyres A) (k : A -> pyres B) : pyres B :=
  match r with Return a => k a | Raise e => Raise e end.

(** [v.get(k, dflt)]: only a dict has [get]. *)
Definition get_default (v : json) (k : string) (dflt : json) : pyres json :=
  match v with
  | JDict d => Return (default dflt (d !! k))
  | _ => Raise (Exn AttributeError "object has no attribute 'get'")
  end.

(** [v.get(k)] *)
Definition get (v : json) (k : string) : pyres json := get_default v k JNull.

(** ** Strings *)

(** A string holds the UTF-8 encoding of a Python [str]. [code_points] are
    the characters of the [str]: a byte below 128 is a character, a byte
    from 192 starts a character of two, three (from 224) or four (from 240)
    bytes, of which it holds the high bits, and each byte that follows holds
    six more. *)
Fixpoint code_points_from (more : nat) (high : N) (s : string) : list N :=
  match s with
  | EmptyString => []
  | String b s' =>
      let n := N_of_ascii b in
      match more with
      | O =>
          if (n <? 128)%N then n :: code_points_from 0 0 s'
          else if (n <? 224)%N then code_points_from 1 (n mod 32) s'
          else if (n <? 240)%N then code_points_from 2 (n mod 16) s'
          else code_points_from 3 (n mod 8) s'
      | S O => (64 * high + n mod 64)%N :: code_points_from 0 0 s'
      | S more' => code_points_from more' (64 * high + n mod 64)%N s'
      end
  end.

Definition code_points (s : string) : list N := code_points_from 0 0 s.

(** The encoding of a character. *)
Definition utf8_char (n : N) : string :=
  let low k := ascii_of_N (128 + k mod 64) in
  if (n <? 128)%N then String (ascii_of_N n) EmptyString
  else if (n <? 2048)%N then
    String (ascii_of_N (192 + n / 64)) (String (low n) EmptyString)
  else if (n <? 65536)%N then
    String (ascii_of_N (224 + n / 4096))
      (String (low (n / 64)%N) (String (low n) EmptyString))
  else
    String (ascii_of_N (240 + n / 262144))
      (String (low (n / 4096)%N) (String (low (n / 64)%N) (String (low n) EmptyString))).

Definition utf8 (l : list N) : string :=
  foldr (fun n s => utf8_char n +:+ s) EmptyString l.

(** The white space of Unicode: the characters [str.isspace] holds of,
    [str.strip()] removes and [\s] matches in a [str] pattern. *)
Definition is_space (n : N) : bool :=
  ((9 <=? n) && (n <=? 13) || (28 <=? n) && (n <=? 32) ||
   (n =? 133) || (n =? 160) || (n =? 5760) ||
   (8192 <=? n) && (n <=? 8202) ||
   (n =? 8232) || (n =? 8233) || (n =? 8239) || (n =? 8287) || (n =? 12288))%N.

(** Whether the bytes [a], [a b] or [a b c] encode a character of white
    space; none has four bytes. *)
Definition space1 (a : ascii) : bool :=
  let n := N_of_ascii a in (n <? 128)%N && is_space n.

Definition continues (b : ascii) : bool :=
  let n := N_of_ascii b in (128 <=? n)%N && (n <? 192)%N.

Definition space2 (a b : ascii) : bool :=
  let n := N_of_ascii a in
  (192 <=? n)%N && (n <? 224)%N && continues b &&
  is_space (64 * (n mod 32) + N_of_ascii b mod 64)%N.

Definition space3 (a b c : ascii) : bool :=
  let n := N_of_ascii a in
  (224 <=? n)%N && (n <? 240)%N && continues b && continues c &&
  is_space (4096 * (n mod 16) + 64 * (N_of_ascii b mod 64) + N_of_ascii c mod 64)%N.

(** [s.lstrip()] *)
Fixpoint lstrip (s : string) : string :=
  match s with
  | EmptyString => s
  | String a s1 =>
      if space1 a then lstrip s1
      else match s1 with
           | EmptyString => s
           | String b s2 =>
               if space2 a b then lstrip s2
               else match s2 with
                    | EmptyString => s
                    | String c s3 => if space3 a b c then lstrip s3 else s
                    end
           end
  end.

(** A string of white space only. *)
Definition all_space (s : string) : bool :=
  match lstrip s with EmptyString => true | _ => false end.

(** [s.rstrip()]: what is left of [s] before its longest end of white space. *)
Fixpoint rstrip (s : string) : string :=
  match s with
  | EmptyString => s
  | String a s' => if all_space s then EmptyString else String a (rstrip s')
  end.

(** [s.strip()] *)
Definition strip (s : string) : string := rstrip (lstrip s).

Definition is_upper (c : ascii) : bool :=
  let n := nat_of_ascii c in ((65 <=? n) && (n <=? 90))%nat.

Definition lower_ascii (c : ascii) : ascii :=
  if is_upper c then ascii_of_nat (nat_of_ascii c + 32) else c.

(** [s.lower()] on the letters A to Z. The program looks a lower-cased
    string up for "ja" at its start and for "today" and "tomorrow" inside;
    the only other characters that lower-case into ASCII, U+0130 and U+212A,
    give i and k. *)
Fixpoint lower (s : string) : string :=
  match s with
  | EmptyString => EmptyString
  | String c s' => String (lower_ascii c) (lower s')
  end.

Fixpoint lstrip_by (p : ascii -> bool) (s : string) : string :=
  match s with
  | EmptyString => EmptyString
  | String c s' => if p c then lstrip_by p s' else s
  end.

Fixpoint rstrip_by (p : ascii -> bool) (s : string) : string :=
  match s with
  | EmptyString => EmptyString
  | String c s' =>
      match rstrip_by p s' with
      | EmptyString => if p c then EmptyString else String c EmptyString
      | r => String c r
      end
  end.

Definition strip_by (p : ascii -> bool) (s : string) : string :=
  rstrip_by p (lstrip_by p s).

Fixpoint mem_char (c : ascii) (chars : string) : bool :=
  match chars with
  | EmptyString => false
  | String d chars' => Ascii.eqb c d || mem_char c chars'
  end.

(** [s.strip(chars)] *)
Definition strip_chars (chars : string) (s : string) : string :=
  strip_by (fun c => mem_char c chars) s.

(** [s.split(",")[0]]: what comes before the first comma. *)
Fixpoint before_comma (s : string) : string :=
  match s with
  | EmptyString => EmptyString
  | String c s' => if Ascii.eqb c "," then EmptyString else String c (before_comma s')
  end.

(** [s.startswith(p)] *)
Definition startswith (p s : string) : bool := String.prefix p s.

(** [sub in s] *)
Definition contains (sub s : string) : bool :=
  match String.index 0 sub s with Some _ => true | None => false end.

(** Methods of [str] called on a value that may not be one. *)
Definition str_strip (v : json) : pyres string :=
  match v with
  | JStr s => Return (strip s)
  | _ => Raise (Exn AttributeError "object has no attribute 'strip'")
  end.

Definition str_lower (v : json) : pyres string :=
  match v with
  | JStr s => Return (lower s)
  | _ => Raise (Exn AttributeError "object has no attribute 'lower'")
  end.

Definition str_split_comma_0 (v : json) : pyres string :=
  match v with
  | JStr s => Return (before_comma s)
  | _ => Raise (Exn AttributeError "object has no attribute 'split'")
  end.

(** [os.path.join(a, b)] on POSIX. *)
Definition ends_with_slash (a : string) : bool :=
  match String.rev a with String "/" _ => true | _ => false end.

Definition path_join (a b : string) : string :=
  if String.prefix "/" b then b
  else if String.eqb a "" || ends_with_slash a then a +:+ b
  else a +:+ "/" +:+ b.

(** ** Dates (proleptic Gregorian calendar, UTC) *)

Record date : Type := Date { year : Z; month : Z; day : Z }.

(** The civil date of the day [z] days after 1970-01-01. *)
Definition civil_from_days (z : Z) : date :=
  let z := z + 719468 in
  let era := z / 146097 in
  let doe := z - era * 146097 in
  let yoe := (doe - doe / 1460 + doe / 36524 - doe / 146096) / 365 in
  let y := yoe + era * 400 in
  let doy := doe - (365 * yoe + yoe / 4 - yoe / 100) in
  let mp := (5 * doy + 2) / 153 in
  let d := doy - (153 * mp + 2) / 5 + 1 in
  let m := if mp <? 10 then mp + 3 else mp - 9 in
  Date (if m <=? 2 then y + 1 else y) m d.

Definition zero_pad (width : nat) (n : Z) : string :=
  let s := pretty n in
  String.concat "" (replicate (width - String.length s) "0") +:+ s.

(** [d.strftime("%Y-%m-%d")] *)
Definition strftime_ymd (d : date) : string :=
  zero_pad 4 (year d) +:+ "-" +:+ zero_pad 2 (month d) +:+ "-" +:+ zero_pad 2 (day d).

Definition micros_per_second : Z := 1000000.
Definition micros_per_day : Z := 86400 * micros_per_second.

(** A [datetime] in UTC is its number of microseconds since the epoch. *)
Definition date_of (t : Z) : date := civil_from_days (t / micros_per_day).

(** [timedelta(days=n)] *)
Definition timedelta_days (n : Z) : Z := n * micros_per_day.

Definition hms (t : Z) : string :=
  let s := (t mod micros_per_day) / micros_per_second in
  zero_pad 2 (s / 3600) +:+ ":" +:+ zero_pad 2 (s mod 3600 / 60) +:+ ":" +:+ zero_pad 2 (s mod 60).

(** [t.isoformat()] of a naive datetime: the fraction shows when it is not zero. *)
Definition isoformat_naive (t : Z) : string :=
  let us := t mod micros_per_second in
  strftime_ymd (date_of t) +:+ "T" +:+ hms t +:+
  (if us =? 0 then "" else "." +:+ zero_pad 6 us).

(** [t.isoformat()] of a datetime whose [tzinfo] is UTC. *)
Definition isoformat_utc (t : Z) : string := isoformat_naive t +:+ "+00:00".

End Py.
Export Py.

(* ===================================================================== *)
(** ** The environment and the state of a run *)
(* ===================================================================== *)

(** An entity of spaCy's [doc.ents]: [label_] and [text]. *)
Record entity : Type := Entity { ent_label : string; ent_text : string }.

(** [speechsdk.ResultReason], as far as [transcribe_with_azure] tells the
    values apart. *)
Inductive result_reason : Type := RecognizedSpeech | NoMatch | Canceled.

(** What [recognizer.recognize_once()] returns: [rec_json] is
    [json.loads(result.json)]. *)
Record recognition : Type := Recognition {
  reason : result_reason;
  rec_text : string;
  rec_json : pyres json;
  error_details : option string
}.

(** The response object of [model.generate_content]: its [text] attribute
    and [str(resp)]. *)
Record llm_response : Type := LlmResponse {
  resp_text : option string;
  resp_str : string
}.

Record env : Type := Env {
  (* module-level configuration, read from the process environment *)
  UPLOAD_DIR : string;
  AZURE_KEY : option string;
  AZURE_REGION : option string;
  TRANSLATOR_KEY : option string;
  TRANSLATOR_REGION : option string;
  OPENWEATHER_API_KEY : option string;
  OPENAI_API_KEY : option string;
  GOOGLE_API_KEY : option string;
  (* libraries *)
  nlp : option (string -> list entity);
  dateparser_parse : string -> option date;
  fuzz_score : string -> string -> float;
  (* [chr(n).isalnum()] of a character outside ASCII, as the interpreter's
     Unicode database has it *)
  str_isalnum : N -> bool;
  py_repr : json -> string;
  json_dumps : json -> string;
  utc_iso_of_timestamp : json -> pyres string;
  (* services: [requests.get(url, params).json()], the translator's POST with
     [raise_for_status] and [.json()], the speech recognizer, the LLM *)
  requests_get_json : string -> list (string * json) -> pyres json;
  requests_post_json : string -> list (string * json) -> json -> pyres json;
  recognize_once : string -> list string -> pyres recognition;
  generate_content : string -> string -> string -> string -> pyres llm_response;
  (* the clock, in microseconds since the epoch, at its n-th reading *)
  clock : nat -> Z;
  (* whether the n-th [open(path, "w")] of the run raises *)
  open_w : nat -> option exn
}.

Inductive file : Type :=
| FJson (v : json)
| FText (s : string)
| FAudio.

(** What a run does that can be seen from outside, and the entries into the
    components the specification names ([EvCall]). *)
Inductive event : Type :=
| EvGet (url : string) (params : list (string * json))
| EvPost (url : string) (params : list (string * json)) (body : json)
| EvRecognize (wav_path : string) (languages : list string)
| EvGenerate (api_key model_name system_prompt user_prompt : string)
| EvWrite (path : string) (content : file)
| EvCall (fname : string) (arg : json).

(** [result] is the dict that the pipeline's local variable [result] is
    bound to: it is changed in place, and a handler sees it as it was left. *)
Record world : Type := World {
  fs : gmap string file;
  opens : nat;
  ticks : nat;
  events : list event;
  result : gmap string json
}.

(** A computation: it reads and changes the world, and returns or raises. *)
Definition M (A : Type) : Type := world -> pyres A * world.

Definition ret {A} (a : A) : M A := fun w => (Return a, w).

Definition raise {A} (e : exn) : M A := fun w => (Raise e, w).

Definition bind {A B} (m : M A) (k : A -> M B) : M B :=
  fun w => match m w with
           | (Return a, w') => k a w'
           | (Raise e, w') => (Raise e, w')
           end.

Notation "x <- m ;; k" := (bind m (fun x => k))
  (at level 100, m at next level, right associativity).
Notation "m ;;; k" := (bind m (fun _ => k))
  (at level 100, right associativity).

(** [try: m  except Exception as e: h e] *)
Definition try_except {A} (m : M A) (h : exn -> M A) : M A :=
  fun w => match m w with
           | (Return a, w') => (Return a, w')
           | (Raise e, w') => h e w'
           end.

Definition lift {A} (r : pyres A) : M A := fun w => (r, w).

Definition emit (e : event) : M unit :=
  fun w => (Return tt, World (fs w) (opens w) (ticks w) (events w ++ [e]) (result w)).

Definition pmap {A B} (f : A -> pyres B) : list A -> pyres (list B) :=
  fix go l :=
    match l with
    | [] => Return []
    | a :: l' => pbind (f a) (fun b => pbind (go l') (fun bs => Return (b :: bs)))
    end.

(** [v[i]] for an integer [i], here always 0. *)
Definition index0 (v : json) : pyres json :=
  match v with
  | JList (x :: _) => Return x
  | JList [] => Raise (Exn IndexError "list index out of range")
  | JStr (String c _) => Return (JStr (String c EmptyString))
  | JStr EmptyString => Raise (Exn IndexError "string index out of range")
  | JDict _ => Raise (Exn KeyError "0")
  | _ => Raise (Exn TypeError "object is not subscriptable")
  end.

(** [v[k]] for a string [k]. *)
Definition item (v : json) (k : string) : pyres json :=
  match v with
  | JDict d => match d !! k with
               | Some x => Return x
               | None => Raise (Exn KeyError ("'" +:+ k +:+ "'"))
               end
  | JList _ => Raise (Exn TypeError "list indices must be integers or slices, not str")
  | JStr _ => Raise (Exn TypeError "string indices must be integers")
  | _ => Raise (Exn TypeError "object is not subscriptable")
  end.

(** [for g in v]: the elements a comprehension ranges over. *)
Fixpoint chars (s : string) : list json :=
  match s with
  | EmptyString => []
  | String c s' => JStr (String c EmptyString) :: chars s'
  end.

Definition iterate (v : json) : pyres (list json) :=
  match v with
  | JList l => Return l
  | JDict d => Return ((fun kv => JStr kv.1) <$> map_to_list d)
  | JStr s => Return (chars s)
  | _ => Raise (Exn TypeError "object is not iterable")
  end.

(** [v.get(k1, {}).get(k2)] *)
Definition get2 (v : json) (k1 k2 : string) : pyres json :=
  pbind (get_default v k1 (JDict ∅)) (fun inner => get inner k2).

(** A dict literal. *)
Definition dict (items : list (string * json)) : json :=
  JDict (foldr (fun kv d => <[kv.1 := kv.2]> d) ∅ items).

Definition env_set (o : option string) : bool := truthy (of_opt_str o).

Section Runtime.
Context (E : env).

(** [str(v)], as an f-string formats a value. *)
Definition py_str (v : json) : string :=
  match v with
  | JStr s => s
  | JNull => "None"
  | _ => py_repr E v
  end.

(** [datetime.now(timezone.utc)], [datetime.utcnow()], [time.time()] *)
Definition now : M Z :=
  fun w => (Return (clock E (ticks w)),
            World (fs w) (opens w) (S (ticks w)) (events w) (result w)).

(** [os.path.exists(path)] *)
Definition path_exists (path : string) : M bool :=
  fun w => (Return (bool_decide (is_Some (fs w !! path))), w).

(** [with open(path, "w") as fh: <write content>]. When [open] raises the
    file is left as it was. *)
Definition write_file (path : string) (content : file) : M unit :=
  fun w =>
    match open_w E (opens w) with
    | Some e => (Raise e, World (fs w) (S (opens w)) (ticks w) (events w) (result w))
    | None => (Return tt,
               World (<[path := content]> (fs w)) (S (opens w)) (ticks w)
                     (events w ++ [EvWrite path content]) (result w))
    end.

(** [json.dump(v, fh, ensure_ascii=False, indent=2)] into a fresh file; the
    file is kept as the value [json.load] gives back. *)
Definition dump_json (path : string) (v : json) : M unit :=
  write_file path (FJson v).

(** [load_json(path)] *)
Definition load_json (path : string) : M json :=
  fun w =>
    match fs w !! path with
    | Some (FJson v) => (Return v, w)
    | Some _ => (Raise (Exn ValueError "Expecting value"), w)
    | None => (Raise (Exn FileNotFoundError ("No such file or directory: '" +:+ path +:+ "'")), w)
    end.

(** The dict [result]: [result[k] = v], [result.get(k)], and the dict itself. *)
Definition set_result (k : string) (v : json) : M unit :=
  fun w => (Return tt, World (fs w) (opens w) (ticks w) (events w) (<[k := v]> (result w))).

Definition new_result (d : gmap string json) : M unit :=
  fun w => (Return tt, World (fs w) (opens w) (ticks w) (events w) d).

Definition the_result : M (gmap string json) := fun w => (Return (result w), w).

Definition result_get (k : string) : M json :=
  fun w => (Return (default JNull (result w !! k)), w).

(** [result.setdefault("warnings", []).append(note)] *)
Definition append_warning (note : string) : M unit :=
  fun w =>
    match result w !! "warnings" with
    | None => set_result "warnings" (JList [JStr note]) w
    | Some (JList l) => set_result "warnings" (JList (l ++ [JStr note])) w
    | Some _ => (Raise (Exn AttributeError "object has no attribute 'append'"), w)
    end.

Definition requests_get (url : string) (params : list (string * json)) : M json :=
  emit (EvGet url params) ;;; lift (requests_get_json E url params).

Definition requests_post (url : string) (params : list (string * json)) (body : json) : M json :=
  emit (EvPost url params body) ;;; lift (requests_post_json E url params body).

End Runtime.

(* ===================================================================== *)
(** ** app/weather_agent.py *)
(* ===================================================================== *)

Module weather_agent.
Section Defs.
Context (E : env).

Definition geo_url : string := "http://api.openweathermap.org/geo/1.0/direct".
Definition weather_url : string := "https://api.openweathermap.org/data/2.5/weather".

Definition error_dict (msg : string) : json := JDict {[ "error" := JStr msg ]}.

(** [f"{g.get('name','')}, {g.get('country','')}"] *)
Definition format_candidate (g : json) : pyres string :=
  pbind (get_default g "name" (JStr "")) (fun name =>
  pbind (get_default g "country" (JStr "")) (fun country =>
  Return (py_str E name +:+ ", " +:+ py_str E country))).

Definition geocode_params (location : string) : list (string * json) :=
  [("q", JStr location); ("limit", JInt 5);
   ("appid", of_opt_str (OPENWEATHER_API_KEY E))].

Definition get_candidate_locations (location : string) : M (list string) :=
  try_except
    (resp <- requests_get E geo_url (geocode_params location) ;;
     lift (pbind (iterate resp) (pmap format_candidate)))
    (fun _ => ret []).

(** [process.extractOne(query, choices, score_cutoff=c)]: the first of the
    best-scoring choices, when its score reaches the cutoff. *)
Definition extractOne (query : string) (choices : list string) (score_cutoff : float)
  : option (string * float) :=
  foldl (fun best c =>
           let s := fuzz_score E query c in
           if PrimFloat.leb score_cutoff s &&
              match best with None => true | Some (_, b) => PrimFloat.ltb b s end
           then Some (c, s) else best)
        None choices.

(** The first entity labelled GPE or LOC, stripped. *)
Definition first_place (ents : list entity) : option string :=
  match List.find (fun e => String.eqb (ent_label e) "GPE" || String.eqb (ent_label e) "LOC") ents with
  | Some e => Some (strip (ent_text e))
  | None => None
  end.

(** The pattern is a [str] and is matched ignoring case, so its classes are
    those of Unicode. A character matches a lower-case letter of the pattern
    when it is the letter or its capital; i, s and k are also matched by the
    characters that Unicode lower-cases or folds to them (U+0130, U+0131,
    U+017F, U+212A). *)
Definition same_letter (letter n : N) : bool :=
  ((n =? letter) || (n =? letter - 32) ||
   (letter =? 105) && ((n =? 304) || (n =? 305)) ||
   (letter =? 115) && (n =? 383) ||
   (letter =? 107) && (n =? 8490))%N.

(** [[A-Za-z]], ignoring case. *)
Definition is_letter (n : N) : bool :=
  ((65 <=? n) && (n <=? 90) || (97 <=? n) && (n <=? 122) ||
   (n =? 304) || (n =? 305) || (n =? 383) || (n =? 8490))%N.

(** [\w]: an alphanumeric character of Unicode, or the underscore. *)
Definition is_word (n : N) : bool :=
  if (n <? 128)%N
  then ((48 <=? n) && (n <=? 57) || (65 <=? n) && (n <=? 90) ||
        (97 <=? n) && (n <=? 122) || (n =? 95))%N
  else str_isalnum E n.

(** [(?:in|to|at)], ignoring case. *)
Definition keyword (a b : N) : bool :=
  same_letter 105 a && same_letter 110 b ||
  same_letter 116 a && same_letter 111 b ||
  same_letter 97 a && same_letter 116 b.

(** The group of the pattern, letters followed by any number of
    (one white space, letters), read greedily from characters that start
    with a letter; [pending] is a white space seen after a word. *)
Fixpoint scan_group (pending : option N) (s : list N) : list N :=
  match s with
  | [] => []
  | c :: s' =>
      if is_letter c then
        match pending with
        | Some p => p :: c :: scan_group None s'
        | None => c :: scan_group None s'
        end
      else if is_space c then
        match pending with
        | None => scan_group (Some c) s'
        | Some _ => []
        end
      else []
  end.

Fixpoint skip_spaces (s : list N) : list N :=
  match s with
  | [] => []
  | c :: s' => if is_space c then skip_spaces s' else s
  end.

(** The pattern without its word boundary, matched at the start of [s]:
    in, to or at, white space, then the group. *)
Definition match_here (s : list N) : option (list N) :=
  match s with
  | a :: b :: rest =>
      if keyword a b then
        match rest with
        | c :: _ =>
            if is_space c then
              match skip_spaces rest with
              | (l :: _) as tail =>
                  if is_letter l then Some (scan_group None tail) else None
              | [] => None
              end
            else None
        | [] => None
        end
      else None
  | _ => None
  end.

(** The leftmost match after a word boundary; [prev_word] tells whether the
    character before is a word character. *)
Fixpoint search_from (prev_word : bool) (s : list N) : option (list N) :=
  match s with
  | [] => None
  | c :: s' =>
      match (if prev_word then None else match_here s) with
      | Some g => Some g
      | None => search_from (is_word c) s'
      end
  end.

(** [re.search(pattern, query, flags=re.IGNORECASE).group(1)] *)
Definition re_search_place (query : string) : option string :=
  utf8 <$> search_from false (code_points query).

Definition nonempty (o : option string) : bool := truthy (of_opt_str o).

(** Steps 1 and 2 of [extract_location]: the entity recognizer, then the
    regular expression when the recognizer gave nothing. *)
Definition raw_location (query : string) : option string :=
  (* Step 1: NER via spaCy *)
  let location := match nlp E with
                  | Some run => first_place (run query)
                  | None => None
                  end in
  (* Step 2: fallback regex *)
  if nonempty location then location
  else match re_search_place query with
       | Some g => Some (strip g)
       | None => location
       end.

Definition extract_location (query : string) : M (option string) :=
  let location := raw_location query in
  match location with
  | Some loc =>
      if nonempty location then
        (* Step 3: validate with the geocoding service *)
        candidates <- get_candidate_locations loc ;;
        match candidates with
        | _ :: _ =>
            match extractOne loc candidates 70%float with
            | Some best_match => ret (Some (before_comma best_match.1))
            | None => ret (Some loc)
            end
        | [] => ret (Some loc)
        end
      else ret None
  | None => ret None
  end.

Definition nlu_parser_travel (query : string) : M json :=
  emit (EvCall "nlu_parser_travel" (JStr query)) ;;;
  location <- extract_location query ;;
  let parsed_date_iso := strftime_ymd <$> dateparser_parse E query in
  let ql := lower query in
  parsed_date_iso <-
    (if contains "today" ql && negb (nonempty parsed_date_iso) then
       t <- now E ;; ret (Some (strftime_ymd (date_of t)))
     else if contains "tomorrow" ql && negb (nonempty parsed_date_iso) then
       t <- now E ;; ret (Some (strftime_ymd (date_of (t + timedelta_days 1))))
     else ret parsed_date_iso) ;;
  t <- now E ;;
  ret (JDict {[
    "intent" := JStr "get_weather_travel_advice";
    "entities" := JDict {[ "location" := of_opt_str location;
                           "date" := of_opt_str parsed_date_iso ]};
    "slots" := JDict {[ "theme" := JStr "travel" ]};
    "dialog_metadata" := JDict {[ "original_query" := JStr query;
                                  "language" := JStr "en";
                                  "timestamp" := JStr (isoformat_utc t) ]}
  ]}).

(** [(resp.get("weather") or [{}])[0].get(k)] *)
Definition weather0 (resp : json) (k : string) : pyres json :=
  pbind (get resp "weather") (fun ws =>
  pbind (index0 (py_or ws (JList [JDict ∅]))) (fun first => get first k)).

(** The structured result [fetch_weather] returns from the provider's payload. *)
Definition weather_report (resp : json) : pyres json :=
  pbind (get resp "name") (fun name =>
  pbind (get2 resp "sys" "country") (fun country =>
  pbind (weather0 resp "main") (fun weather_main =>
  pbind (weather0 resp "description") (fun weather_description =>
  pbind (get2 resp "main" "temp") (fun temperature_c =>
  pbind (get2 resp "main" "feels_like") (fun feels_like_c =>
  pbind (get2 resp "main" "temp_min") (fun temp_min_c =>
  pbind (get2 resp "main" "temp_max") (fun temp_max_c =>
  pbind (get2 resp "main" "humidity") (fun humidity =>
  pbind (get2 resp "wind" "speed") (fun wind_speed =>
  pbind (pbind (get resp "rain") (fun rain =>
           if truthy rain
           then pbind (get_default resp "rain" (JDict ∅)) (fun r => get_default r "1h" (JInt 0))
           else Return (JInt 0))) (fun rain_1h =>
  pbind (get2 resp "clouds" "all") (fun cloudiness =>
  pbind (pbind (get resp "dt") (fun dt =>
           if truthy dt
           then pbind (get resp "dt") (fun dt' =>
                pbind (utc_iso_of_timestamp E dt') (fun s => Return (JStr s)))
           else Return JNull)) (fun timestamp =>
  Return (dict [
    ("location", name);
    ("country", country);
    ("weather_main", weather_main);
    ("weather_description", weather_description);
    ("temperature_c", temperature_c);
    ("feels_like_c", feels_like_c);
    ("temp_min_c", temp_min_c);
    ("temp_max_c", temp_max_c);
    ("humidity", humidity);
    ("wind_speed", wind_speed);
    ("rain_1h", rain_1h);
    ("cloudiness", cloudiness);
    ("timestamp", timestamp);
    ("raw", resp)
  ])))))))))))))).

Definition fetch_weather (location : json) : M json :=
  emit (EvCall "fetch_weather" location) ;;;
  if negb (truthy location) then ret (error_dict "No location provided")
  else if negb (env_set (OPENWEATHER_API_KEY E)) then ret (error_dict "OPENWEATHER_API_KEY not set")
  else
    (* Step 1: geocode the location; [inl] is a result returned from inside the [try] *)
    geo <- try_except
             (geo_resp <- requests_get E geo_url
                            [("q", location); ("limit", JInt 1);
                             ("appid", of_opt_str (OPENWEATHER_API_KEY E))] ;;
              if negb (truthy geo_resp)
              then ret (inl (error_dict ("Location '" +:+ py_str E location +:+ "' not found")))
              else
                first <- lift (index0 geo_resp) ;;
                lat <- lift (item first "lat") ;;
                lon <- lift (item first "lon") ;;
                ret (inr (lat, lon)))
             (fun e => ret (inl (error_dict ("geocoding_failed: " +:+ exn_msg e)))) ;;
    match geo with
    | inl result => ret result
    | inr (lat, lon) =>
        (* Step 2: current weather *)
        got <- try_except
                 (resp <- requests_get E weather_url
                            [("lat", lat); ("lon", lon);
                             ("appid", of_opt_str (OPENWEATHER_API_KEY E));
                             ("units", JStr "metric")] ;;
                  ret (inr resp))
                 (fun e => ret (inl (error_dict ("weather_fetch_failed: " +:+ exn_msg e)))) ;;
        match got with
        | inl result => ret result
        | inr resp => lift (weather_report resp)
        end
    end.

Definition travel_weather_agent (query : string) : M json :=
  nlu <- nlu_parser_travel query ;;
  entities <- lift (get_default nlu "entities" (JDict ∅)) ;;
  location <- lift (get entities "location") ;;
  weather <- (if truthy location then fetch_weather location
              else ret (error_dict "no_location_extracted")) ;;
  ret (JDict {[ "nlu" := nlu; "weather" := weather ]}).

End Defs.
End weather_agent.

(* ===================================================================== *)
(** ** app/chatbot.py *)
(* ===================================================================== *)

Module chatbot.
Section Defs.
Context (E : env).

(** [root.get(k) or root.get("agent_raw", {}).get(k)] *)
Definition own_or_agent_raw (root : json) (k : string) : pyres json :=
  pbind (get root k) (fun own =>
  if truthy own then Return own
  else pbind (get_default root "agent_raw" (JDict ∅)) (fun agent_raw => get agent_raw k)).

Definition extract_nlu_weather (root : json) : pyres (json * json) :=
  pbind (own_or_agent_raw root "nlu") (fun nlu =>
  pbind (own_or_agent_raw root "weather") (fun weather =>
  if negb (truthy nlu) then Raise (Exn ValueError "No NLU found in JSON")
  else if negb (truthy weather) then Raise (Exn ValueError "No weather found in JSON")
  else Return (nlu, weather))).

(** [nlu.get(k, {}) or {}] *)
Definition section_of (nlu : json) (k : string) : pyres json :=
  pbind (get_default nlu k (JDict ∅)) (fun v => Return (py_or v (JDict ∅))).

(** [f"{loc}, {country}".strip(", ").strip()] *)
Definition format_location (loc country : string) : string :=
  strip (strip_chars ", " (loc +:+ ", " +:+ country)).

Definition build_merged_context (nlu weather : json) : pyres json :=
  pbind (section_of nlu "dialog_metadata") (fun dialog_md =>
  pbind (section_of nlu "entities") (fun entities =>
  pbind (section_of nlu "slots") (fun slots =>
  pbind (get dialog_md "original_query") (fun oq =>
  let original_query := py_or oq (JStr "") in
  pbind (get entities "date") (fun date_val =>
  pbind (get slots "theme") (fun theme_val =>
  pbind (get weather "location") (fun wloc =>
  pbind (if truthy wloc then Return wloc
         else pbind (get entities "location") (fun eloc => Return (py_or eloc (JStr ""))))
        (fun loc_raw =>
  pbind (str_strip loc_raw) (fun loc =>
  pbind (get weather "country") (fun wcountry =>
  pbind (str_strip (py_or wcountry (JStr ""))) (fun country =>
  let location_str := format_location loc country in
  pbind (get nlu "intent") (fun intent =>
  Return (JDict {[
    "user_query" := original_query;
    "intent" := intent;
    "location" := JStr location_str;
    "date" := date_val;
    "theme" := theme_val;
    "weather_data" := weather
  ]}))))))))))))).

Definition or_str (a b : option string) : option string :=
  if env_set a then a else b.

Definition call_model_generate (api_key system_prompt user_prompt model_name : string)
  : M string :=
  emit (EvGenerate api_key model_name system_prompt user_prompt) ;;;
  resp <- lift (generate_content E api_key model_name system_prompt user_prompt) ;;
  (* getattr(resp, "text", None) or str(resp) *)
  ret (match resp_text resp with
       | Some t => if String.eqb t "" then resp_str resp else t
       | None => resp_str resp
       end).

Definition nl : string := String (ascii_of_nat 10) EmptyString.

Definition system_prompt : string :=
  "You are a friendly travel assistant and weather guide. " +:+
  "Always start with a concise weather summary for the location and date, " +:+
  "then add 1–2 short travel tips if relevant.".

(** [(weather.get("location") or (nlu.get("entities") or {}).get("location")
      or "unknown").split(",")[0].strip()] *)
Definition city_of (nlu weather : json) : pyres string :=
  pbind (get weather "location") (fun wloc =>
  pbind (if truthy wloc then Return wloc
         else pbind (get nlu "entities") (fun ents =>
              pbind (get (py_or ents (JDict ∅)) "location") (fun eloc =>
              Return (py_or eloc (JStr "unknown")))))
        (fun v =>
  pbind (str_split_comma_0 v) (fun first => Return (strip first)))).

(** The user instruction: the original query and the serialized context. *)
Definition user_prompt_of (merged_context : json) : pyres string :=
  pbind (get merged_context "user_query") (fun user_query =>
  Return ("Original query: '" +:+ py_str E user_query +:+ "'" +:+ nl +:+
          "Context: " +:+ json_dumps E merged_context +:+ nl +:+ nl +:+
          "Produce 1–3 sentences for the weather + 1 short travel tip.")).

Definition generate_travel_response (trace_id : string) (sidecar_path : string)
    (api_key : option string) : M json :=
  let api_key := or_str api_key (or_str (OPENAI_API_KEY E) (GOOGLE_API_KEY E)) in
  if negb (env_set api_key) then raise (Exn RuntimeError "No API key provided for chatbot")
  else
    root <- load_json sidecar_path ;;
    nw <- lift (extract_nlu_weather root) ;;
    let '(nlu, weather) := nw in
    merged_context <- lift (build_merged_context nlu weather) ;;
    city <- lift (city_of nlu weather) ;;
    user_prompt <- lift (user_prompt_of merged_context) ;;
    generated <- try_except
      (response_text <- call_model_generate (default "" api_key) system_prompt
                          user_prompt "gemini-2.5-pro" ;;
       ret (JStr response_text, JNull))
      (fun e => ret (JStr "", JStr ("chatbot_failed: " +:+ exn_msg e))) ;;
    let '(response_text, error_note) := generated in
    t <- now E ;;
    ret (JDict {[
      "trace_id" := JStr trace_id;
      "city" := JStr city;
      "response_text" := response_text;
      "merged_context" := merged_context;
      "generated_at" := JStr (isoformat_naive (t - t mod micros_per_second) +:+ "Z");
      "response_language" := JStr "en";
      "tts" := JNull;
      "error" := error_note
    ]}).

End Defs.
End chatbot.

(* ===================================================================== *)
(** ** app/stt_helpers.py *)
(* ===================================================================== *)

Module stt_helpers.
Section Defs.
Context (E : env).

Definition TRANSLATOR_ENDPOINT : string :=
  "https://api.cognitive.microsofttranslator.com/translate".

Definition stt_sidecar_path (trace_id : string) : string :=
  path_join (UPLOAD_DIR E) (trace_id +:+ ".json").

Definition transcribe_with_azure (wav_path : string) (languages : list string) : M json :=
  if negb (env_set (AZURE_KEY E)) || negb (env_set (AZURE_REGION E)) then
    raise (Exn RuntimeError
             "Azure credentials not set in AZURE_SPEECH_KEY / AZURE_SPEECH_REGION")
  else
    emit (EvRecognize wav_path languages) ;;;
    res <- lift (recognize_once E wav_path languages) ;;
    match reason res with
    | RecognizedSpeech =>
        let detected :=
          match pbind (rec_json res)
                      (fun payload => get2 payload "PrimaryLanguage" "Language") with
          | Return d => d
          | Raise _ => JNull
          end in
        ret (JDict {[ "text" := JStr (rec_text res);
                      "confidence" := JNull;
                      "provider" := JStr "azure-speech";
                      "detected_language" := detected ]})
    | NoMatch =>
        ret (JDict {[ "text" := JStr "";
                      "confidence" := JFloat 0%float;
                      "provider" := JStr "azure-speech";
                      "detected_language" := JNull ]})
    | Canceled =>
        raise (Exn RuntimeError
                 ("Azure STT failed: " +:+ py_str E (of_opt_str (error_details res))))
    end.

(** The request headers carry the translator's key and region and are left
    out of the request as it is logged. *)
Definition translate_to_english (text : json) (from_lang : option string) : M json :=
  if negb (env_set (TRANSLATOR_KEY E)) || negb (env_set (TRANSLATOR_REGION E)) then
    raise (Exn RuntimeError
             "Azure Translator credentials not set (AZURE_TRANSLATOR_KEY / AZURE_TRANSLATOR_REGION)")
  else
    let params :=
      [("api-version", JStr "3.0"); ("to", JStr "en")] ++
      (if env_set from_lang then [("from", of_opt_str from_lang)] else []) in
    let body := JList [JDict {[ "text" := text ]}] in
    data <- requests_post E TRANSLATOR_ENDPOINT params body ;;
    (* data[0]["translations"][0]["text"] *)
    d0 <- lift (index0 data) ;;
    translations <- lift (item d0 "translations") ;;
    t0 <- lift (index0 translations) ;;
    lift (item t0 "text").

(** [tf.write(v)] into a file just opened for writing: only a [str] can be
    written, and the file exists, empty, when the write raises. *)
Definition write_text (path : string) (v : json) : M unit :=
  match v with
  | JStr s => write_file E path (FText s)
  | _ => write_file E path (FText "") ;;;
         raise (Exn TypeError "write() argument must be str")
  end.

(** The agent is called with whatever [text_for_agent] is; a value that is
    not a [str] makes the entity extractor raise. *)
Definition call_agent (text_for_agent : json) : M json :=
  match text_for_agent with
  | JStr query => weather_agent.travel_weather_agent E query
  | _ => raise (Exn TypeError "expected string or bytes-like object")
  end.

(** The value stored under [nlu] (or [weather]) for an agent output that is
    a dict: the upper-case key when present, else the lower-case one. *)
Definition pick (d : gmap string json) (upper lower : string) : json :=
  match d !! upper with
  | Some v => v
  | None => default JNull (d !! lower)
  end.

Definition attach_agent_output (agent_output : json) : M unit :=
  set_result "agent_raw" agent_output ;;;
  match agent_output with
  | JDict d =>
      set_result "nlu" (pick d "NLU" "nlu") ;;;
      set_result "weather" (pick d "Weather" "weather")
  | _ =>
      set_result "nlu" (JDict {[ "error" := JStr "agent_returned_non_dict" ]}) ;;;
      set_result "weather" (JDict {[ "error" := JStr "agent_returned_non_dict" ]})
  end.

(** Lines 177 to 184 of [process_trace]: the dict [result] is created from
    the recognizer's result. *)
Definition start_result (trace_id : string) (stt_result : json) : M unit :=
  text <- lift (get stt_result "text") ;;
  confidence <- lift (get stt_result "confidence") ;;
  provider <- lift (get stt_result "provider") ;;
  detected_language <- lift (get stt_result "detected_language") ;;
  t <- now E ;;
  new_result {[ "trace_id" := JStr trace_id;
                "text" := text;
                "confidence" := confidence;
                "provider" := provider;
                "detected_language" := detected_language;
                "processed_at" := JInt (Z.quot t micros_per_second) ]}.

(** Lines 186 to 197: the translation of a Japanese transcript. The step
    returns [english_text]. *)
Definition translate_step : M json :=
  english_text <- result_get "text" ;;
  det <- result_get "detected_language" ;;
  let det := py_or det (JStr "") in
  japanese <- (if truthy english_text
               then l <- lift (str_lower det) ;; ret (startswith "ja" l)
               else ret false) ;;
  if japanese : bool then
    try_except
      (translated <- translate_to_english english_text (Some "ja") ;;
       set_result "text_en" translated ;;;
       ret translated)
      (fun e =>
         set_result "text_en" JNull ;;;
         append_warning ("translation_failed:" +:+ exn_msg e) ;;;
         ret english_text)
  else
    set_result "text_en" english_text ;;;
    ret english_text.

(** Lines 210 to 246: the agent, whose failure is a warning. *)
Definition agent_step : M unit :=
  text_en <- result_get "text_en" ;;
  text <- result_get "text" ;;
  let text_for_agent := py_or text_en (py_or text (JStr "")) in
  try_except
    (agent_output <- call_agent text_for_agent ;;
     attach_agent_output agent_output)
    (fun e =>
       let err_text := exn_msg e in
       append_warning ("agent_failed:" +:+ err_text) ;;;
       set_result "agent_raw" (JDict {[ "error" := JStr err_text ]}) ;;;
       set_result "nlu" (JDict {[ "error" := JStr ("agent_failed:" +:+ err_text) ]}) ;;;
       set_result "weather" (JDict {[ "error" := JStr ("agent_failed:" +:+ err_text) ]})).

Definition text_path (trace_id : string) : string :=
  path_join (UPLOAD_DIR E) (trace_id +:+ ".txt").

(** Lines 199 to 252: the two checkpoints, with the text file and the agent
    between them; the dict [result] is returned. *)
Definition checkpoints (trace_id : string) (english_text : json) : M (gmap string json) :=
  (* write partial sidecar early *)
  r <- the_result ;;
  dump_json E (stt_sidecar_path trace_id) (JDict r) ;;;
  (* write plain text file for downstream use *)
  write_text (text_path trace_id)
             (if truthy english_text then english_text else JStr "") ;;;
  set_result "text_file" (JStr (text_path trace_id)) ;;;
  (* Agent: NLU + Weather (non-fatal) *)
  agent_step ;;;
  (* finalize sidecar *)
  r <- the_result ;;
  dump_json E (stt_sidecar_path trace_id) (JDict r) ;;;
  the_result.

Definition process_trace (trace_id : string) (languages : list string)
  : M (gmap string json) :=
  let orig_wav := path_join (UPLOAD_DIR E) (trace_id +:+ ".wav") in
  found <- path_exists orig_wav ;;
  if negb found then raise (Exn FileNotFoundError "trace_id audio not found")
  else
    stt_result <- transcribe_with_azure orig_wav languages ;;
    start_result trace_id stt_result ;;;
    english_text <- translate_step ;;
    checkpoints trace_id english_text.

(** [result.setdefault("response", {})] *)
Definition setdefault_response : M unit :=
  fun w =>
    match result w !! "response" with
    | None => set_result "response" (JDict ∅) w
    | Some _ => (Return tt, w)
    end.

(** [result["response"].update(fields)] *)
Definition update_response (fields : list (string * json)) : M unit :=
  fun w =>
    match result w !! "response" with
    | Some (JDict d) =>
        set_result "response" (JDict (foldr (fun kv m => <[kv.1 := kv.2]> m) d fields)) w
    | Some _ => (Raise (Exn AttributeError "object has no attribute 'update'"), w)
    | None => (Raise (Exn KeyError "'response'"), w)
    end.

(** The record written when the pipeline itself raises. *)
Definition failed_record (trace_id : string) (e : exn) (t : Z) : gmap string json :=
  {[ "trace_id" := JStr trace_id;
     "status" := JStr "failed";
     "error" := JStr (exn_msg e);
     "processed_at" := JInt (Z.quot t micros_per_second) ]}.

(** Lines 269 to 293 of [background_process_trace]: the response is
    generated from the sidecar and merged into [result]. *)
Definition respond (trace_id : string) : M unit :=
  let api_key := chatbot.or_str (OPENAI_API_KEY E) (GOOGLE_API_KEY E) in
  bot_out <- chatbot.generate_travel_response E trace_id
               (stt_sidecar_path trace_id) api_key ;;
  setdefault_response ;;;
  text <- lift (get bot_out "response_text") ;;
  generated_at <- lift (get bot_out "generated_at") ;;
  response_language <- lift (get bot_out "response_language") ;;
  tts <- lift (get bot_out "tts") ;;
  error <- lift (get bot_out "error") ;;
  update_response [("text", text); ("generated_at", generated_at);
                   ("response_language", response_language);
                   ("tts", tts); ("error", error)] ;;;
  set_result "status" (JStr "done") ;;;
  r <- the_result ;;
  dump_json E (stt_sidecar_path trace_id) (JDict r).

(** Lines 295 to 303: the handler of a failed response generation. *)
Definition chatbot_failed (trace_id : string) (bot_exc : exn) : M unit :=
  append_warning ("chatbot_failed:" +:+ exn_msg bot_exc) ;;;
  set_result "status" (JStr "agent_done_chatbot_failed") ;;;
  r <- the_result ;;
  dump_json E (stt_sidecar_path trace_id) (JDict r).

(** Lines 305 to 314: the handler of a failed pipeline. *)
Definition pipeline_failed (trace_id : string) (e : exn) : M unit :=
  t <- now E ;;
  dump_json E (stt_sidecar_path trace_id) (JDict (failed_record trace_id e t)).

Definition background_process_trace (trace_id : string) (languages : list string) : M unit :=
  try_except
    ((* 1) run the normal pipeline (stt -> translate -> agent) *)
     process_trace trace_id languages ;;;
     (* 2) try to generate chatbot response and merge into sidecar (non-fatal) *)
     try_except (respond trace_id) (chatbot_failed trace_id))
    (pipeline_failed trace_id).

End Defs.
End stt_helpers.

(* ===================================================================== *)
(** ** app/main.py: the response entry point *)
(* ===================================================================== *)

Module main.
Section Defs.
Context (E : env).

(** [GET /api/stt/{trace_id}/response]; [raise HTTPException(500, detail)] is
    an exception whose text is the detail. *)
Definition get_chatbot_response (trace_id : string) : M json :=
  let sidecar := stt_helpers.stt_sidecar_path E trace_id in
  found <- path_exists sidecar ;;
  if negb found then
    ret (JDict {[ "trace_id" := JStr trace_id; "status" := JStr "pending" ]})
  else
    try_except
      (chatbot.generate_travel_response E trace_id sidecar None)
      (fun e => raise (Exn (HTTPException 500) ("chatbot_failed: " +:+ exn_msg e))).

End Defs.
End main.

(* ===================================================================== *)
(** ** Concrete environments *)
(* ===================================================================== *)

Module scenario.

(** The geocoding answer for Paris. *)
Definition paris_geo : json :=
  JList [JDict {[ "name" := JStr "Paris"; "country" := JStr "FR";
                  "lat" := JInt 48; "lon" := JInt 2 ]}].

(** A current-conditions payload. *)
Definition paris_weather : json :=
  JDict {[ "name" := JStr "Paris";
           "sys" := JDict {[ "country" := JStr "FR" ]};
           "weather" := JList [JDict {[ "main" := JStr "Clouds";
                                        "description" := JStr "overcast clouds" ]}];
           "main" := JDict {[ "temp" := JInt 11; "humidity" := JInt 80 ]};
           "dt" := JInt 1793786187 ]}.

Definition english_speech : recognition :=
  Recognition RecognizedSpeech "weather in Paris today"
    (Return (JDict {[ "PrimaryLanguage" := JDict {[ "Language" := JStr "en-US" ]} ]}))
    None.

Definition sunny : llm_response := LlmResponse (Some "Cloudy in Paris; take a coat.") "response".

Definition always_ok : nat -> option exn := fun _ => None.

(** [chr(n).isalnum()] for the characters from U+0080 to U+024F, beyond
    which no text of the scenarios goes: the letters and digits of Latin-1
    and the Latin Extended blocks. *)
Definition latin_alnum (n : N) : bool :=
  ((n =? 170) || (n =? 178) || (n =? 179) || (n =? 181) || (n =? 185) || (n =? 186) ||
   (188 <=? n) && (n <=? 190) || (192 <=? n) && (n <=? 214) ||
   (216 <=? n) && (n <=? 246) || (248 <=? n) && (n <=? 591))%N.

(** An environment whose services answer as given: [geo] is the answer of
    the geocoding URL, the weather URL answers [paris_weather]; the scorer
    gives 90 to a choice the query is a prefix of and to a choice that ends
    with the query, and 0 to the others. *)
Definition make (llm_key weather_key : option string) (recognized : pyres recognition)
    (translated : pyres json) (geo : pyres json) (llm : pyres llm_response)
    (opening : nat -> option exn) : env :=
  {| UPLOAD_DIR := "uploads";
     AZURE_KEY := Some "azure-key";
     AZURE_REGION := Some "westeurope";
     TRANSLATOR_KEY := Some "translator-key";
     TRANSLATOR_REGION := Some "westeurope";
     OPENWEATHER_API_KEY := weather_key;
     OPENAI_API_KEY := None;
     GOOGLE_API_KEY := llm_key;
     nlp := None;
     dateparser_parse := fun _ => None;
     fuzz_score := fun q c =>
       if String.prefix q c || String.prefix (String.rev q) (String.rev c)
       then 90%float else 0%float;
     str_isalnum := latin_alnum;
     py_repr := fun _ => "?";
     json_dumps := fun _ => "{}";
     utc_iso_of_timestamp := fun _ => Return "2026-11-04T09:56:27+00:00";
     requests_get_json := fun url _ =>
       if String.eqb url weather_agent.geo_url then geo else Return paris_weather;
     requests_post_json := fun _ _ _ => translated;
     recognize_once := fun _ _ => recognized;
     generate_content := fun _ _ _ _ => llm;
     clock := fun n => 1793786187000000 + Z.of_nat n;
     open_w := opening |}.

(** A geocoding answer whose only place has a country code and no name. *)
Definition nameless_geo : json :=
  JList [JDict {[ "country" := JStr "US"; "lat" := JInt 38; "lon" := JInt (-97) ]}].

Definition happy : env :=
  make (Some "llm-key") (Some "weather-key") (Return english_speech)
       (Return JNull) (Return paris_geo) (Return sunny) always_ok.

(** The geocoding service answers with a place that has no name. *)
Definition nameless : env :=
  make (Some "llm-key") (Some "weather-key") (Return english_speech)
       (Return JNull) (Return nameless_geo) (Return sunny) always_ok.

(** No key for the LLM is set. *)
Definition no_llm_key : env :=
  make None (Some "weather-key") (Return english_speech)
       (Return JNull) (Return paris_geo) (Return sunny) always_ok.

(** The LLM call fails. *)
Definition llm_down : env :=
  make (Some "llm-key") (Some "weather-key") (Return english_speech)
       (Return JNull) (Return paris_geo)
       (Raise (Exn RequestError "503 Service Unavailable")) always_ok.

(** The second file opened for writing, the plain-text file, cannot be
    opened. *)
Definition text_write_fails : env :=
  make (Some "llm-key") (Some "weather-key") (Return english_speech)
       (Return JNull) (Return paris_geo) (Return sunny)
       (fun n => if (n =? 1)%nat then Some (Exn OSError "[Errno 28] No space left on device")
                 else None).

(** Speech recognized as Japanese with an empty transcript. *)
Definition empty_japanese_speech : recognition :=
  Recognition RecognizedSpeech ""
    (Return (JDict {[ "PrimaryLanguage" := JDict {[ "Language" := JStr "ja-JP" ]} ]}))
    None.

(** Speech recognized as Japanese. *)
Definition japanese_speech : recognition :=
  Recognition RecognizedSpeech "pari no tenki"
    (Return (JDict {[ "PrimaryLanguage" := JDict {[ "Language" := JStr "ja-JP" ]} ]}))
    None.

Definition unauthorized : exn := Exn RequestError "401 Client Error: Unauthorized".

(** The translator refuses every request; the transcript is empty. *)
Definition silent_japanese : env :=
  make (Some "llm-key") (Some "weather-key") (Return empty_japanese_speech)
       (Raise unauthorized) (Return paris_geo) (Return sunny) always_ok.

(** The translator refuses every request; the transcript is Japanese. *)
Definition translator_down : env :=
  make (Some "llm-key") (Some "weather-key") (Return japanese_speech)
       (Raise unauthorized) (Return paris_geo) (Return sunny) always_ok.

(** The weather provider's key is not set. *)
Definition no_weather_key : env :=
  make (Some "llm-key") None (Return english_speech)
       (Return JNull) (Return paris_geo) (Return sunny) always_ok.

(** A sidecar with the output of the agent. *)
Definition agent_sidecar : json :=
  JDict {[ "trace_id" := JStr "t1";
           "text" := JStr "weather in Paris";
           "nlu" := JDict {[ "intent" := JStr "get_weather_travel_advice";
                             "entities" := JDict {[ "location" := JStr "Paris";
                                                    "date" := JNull ]};
                             "slots" := JDict {[ "theme" := JStr "travel" ]};
                             "dialog_metadata" :=
                               JDict {[ "original_query" := JStr "weather in Paris" ]} ]};
           "weather" := JDict {[ "location" := JStr "Paris"; "country" := JStr "FR";
                                 "temperature_c" := JInt 11 ]} ]}.

(** The upload directory after the pipeline has written [agent_sidecar]. *)
Definition processed : world :=
  {| fs := {[ "uploads/t1.wav" := FAudio; "uploads/t1.json" := FJson agent_sidecar ]};
     opens := 0; ticks := 0; events := []; result := ∅ |}.

(** The upload directory after a pipeline that failed. *)
Definition failed : world :=
  {| fs := {[ "uploads/t1.wav" := FAudio;
              "uploads/t1.json" :=
                FJson (JDict (stt_helpers.failed_record "t1"
                                (Exn RuntimeError "Azure STT failed: None")
                                1793786187000000)) ]};
     opens := 0; ticks := 0; events := []; result := ∅ |}.

(** The upload directory holds the converted audio of trace [t1]. *)
Definition uploaded : world :=
  {| fs := {[ "uploads/t1.wav" := FAudio ]}; opens := 0; ticks := 0;
     events := []; result := ∅ |}.

End scenario.

(* ===================================================================== *)
(** ** Observations on a run *)
(* ===================================================================== *)

(** The events a run added to the log. *)
Definition new_events (w w' : world) : list event :=
  drop (length (events w)) (events w').

(** A request sent to a service outside the program. *)
Definition is_request (e : event) : bool :=
  match e with
  | EvGet _ _ | EvPost _ _ _ | EvRecognize _ _ | EvGenerate _ _ _ _ => true
  | EvWrite _ _ | EvCall _ _ => false
  end.

Definition is_write (e : event) : bool :=
  match e with EvWrite _ _ => true | _ => false end.

(** Whether the component [fname] was entered. *)
Definition calls_to (fname : string) (evs : list event) : list json :=
  omap (fun e => match e with
                 | EvCall f arg => if String.eqb f fname then Some arg else None
                 | _ => None
                 end) evs.

(** The world after the entry of a component was logged. *)
Definition entered (fname : string) (arg : json) (w : world) : world :=
  World (fs w) (opens w) (ticks w) (events w ++ [EvCall fname arg]) (result w).

(** The value at a path of keys, in nested dicts. *)
Fixpoint dig (v : json) (path : list string) : option json :=
  match path with
  | [] => Some v
  | k :: path' =>
      match v with
      | JDict d => match d !! k with Some x => dig x path' | None => None end
      | _ => None
      end
  end.

Definition dig_result (r : pyres json) (path : list string) : option json :=
  match r with Return v => dig v path | Raise _ => None end.

(** The JSON documents written to [path], oldest first. *)
Definition documents_written (path : string) (evs : list event) : list (gmap string json) :=
  omap (fun e => match e with
                 | EvWrite p (FJson (JDict d)) => if String.eqb p path then Some d else None
                 | _ => None
                 end) evs.

(** *** Shapes of the Context Builder's inputs *)

Definition is_dict (v : json) : bool :=
  match v with JDict _ => true | _ => false end.

(** The section [k] of an NLU dict is well formed when it is absent, falsy
    or a dict: [nlu.get(k, {}) or {}] is then a dict. *)
Definition section_ok (nlu : gmap string json) (k : string) : bool :=
  match nlu !! k with
  | None => true
  | Some v => negb (truthy v) || is_dict v
  end.

Definition sect (nlu : gmap string json) (k : string) : gmap string json :=
  match nlu !! k with
  | Some (JDict d) => d
  | _ => ∅
  end.

(** [weather.location or nlu.entities.location or ""] and
    [weather.country or ""], as values. *)
Definition location_source (nlu weather : gmap string json) : json :=
  py_or (default JNull (weather !! "location"))
        (py_or (default JNull (sect nlu "entities" !! "location")) (JStr "")).

Definition country_source (weather : gmap string json) : json :=
  py_or (default JNull (weather !! "country")) (JStr "").

(** *** The geocoding step of the Entity Extractor *)

(** The candidates [get_candidate_locations] gets from the answer of the
    geocoding service. *)
Definition candidates (E : env) (location : string) : list string :=
  match requests_get_json E weather_agent.geo_url (weather_agent.geocode_params E location) with
  | Return resp =>
      match pbind (iterate resp) (pmap (weather_agent.format_candidate E)) with
      | Return l => l
      | Raise _ => []
      end
  | Raise _ => []
  end.

(** A place of the geocoding answer with its name and country code. *)
Definition place (g : json) (name country : string) : Prop :=
  exists d, g = JDict d /\ d !! "name" = Some (JStr name) /\
            d !! "country" = Some (JStr country).

(** The world after one request was logged. *)
Definition requested (e : event) (w : world) : world :=
  World (fs w) (opens w) (ticks w) (events w ++ [e]) (result w).

(** *** Sidecars the Response Generator cannot use *)

(** The field [k] is absent or empty in the record, and absent or empty in
    its [agent_raw] (an [agent_raw] that is not a dict has no field). *)
Definition field_missing (r : gmap string json) (k : string) : bool :=
  negb (truthy (default JNull (r !! k))) &&
  match r !! "agent_raw" with
  | Some (JDict a) => negb (truthy (default JNull (a !! k)))
  | _ => true
  end.

(** What [process.extractOne] promises about its result. *)
Definition best_ok (E : env) (loc : string) (cands : list string)
    (best : option (string * float)) : Prop :=
  match best with
  | Some (c, s) => c ∈ cands /\ s = fuzz_score E loc c /\ PrimFloat.leb 70 s = true
  | None => True
  end.

(** *** Runs that only add events *)

(** [w'] is [w] with some events satisfying [P] added; the files, the count
    of opened files and the dict [result] are the same. *)
Definition adds (P : event -> Prop) (w w' : world) : Prop :=
  fs w' = fs w /\ opens w' = opens w /\ result w' = result w /\
  exists evs, events w' = events w ++ evs /\ Forall P evs.

Definition only_adds {A} (P : event -> Prop) (m : M A) : Prop :=
  forall w, adds P w (m w).2.

(** A request to the geocoding or the weather service. *)
Definition fetcher_event (e : event) : Prop :=
  match e with EvGet _ _ => True | _ => False end.

(** *** The sidecar record along a run *)

(** A request to a service, or the entry into the Weather Fetcher: what the
    collaborators of the pipeline add to the log. None is a write. *)
Definition service_event (e : event) : Prop :=
  match e with
  | EvWrite _ _ => False
  | EvCall f _ => f = "fetch_weather"
  | _ => True
  end.

(** The texts written to plain-text files, with their paths. *)
Definition texts_written (evs : list event) : list (string * string) :=
  omap (fun e => match e with
                 | EvWrite p (FText s) => Some (p, s)
                 | _ => None
                 end) evs.

(** [d2] keeps every field of [d1] with its value; the list of warnings may
    have grown at its end. *)
Definition preserved (d1 d2 : gmap string json) : Prop :=
  forall k v, d1 !! k = Some v ->
    if String.eqb k "warnings"
    then forall l, v = JList l -> exists l', d2 !! k = Some (JList (l ++ l'))
    else d2 !! k = Some v.

(** The records of a list keep the fields of the records before them. *)
Definition chain (docs : list (gmap string json)) : Prop :=
  forall i j d1 d2, (i < j)%nat -> docs !! i = Some d1 -> docs !! j = Some d2 ->
    preserved d1 d2.

Definition agree_outside (K : list string) (r r' : gmap string json) : Prop :=
  forall k, k ∉ K -> r' !! k = r !! k.

Definition warnings_grow (r r' : gmap string json) : Prop :=
  forall l, r !! "warnings" = Some (JList l) ->
    exists l', r' !! "warnings" = Some (JList (l ++ l')).

Definition warnings_ok (r : gmap string json) : Prop :=
  r !! "warnings" = None \/ exists l, r !! "warnings" = Some (JList l).

(** A record no response step has touched. *)
Definition unfinished (r : gmap string json) : Prop :=
  r !! "status" = None /\ r !! "response" = None.

(** Whether the detected language counts as Japanese. *)
Definition is_ja (det : json) : bool :=
  match det with
  | JStr s => startswith "ja" (lower s)
  | _ => false
  end.

(** What the translator gives for [text]; it does not depend on the world. *)
Definition translation (E : env) (text : json) : pyres json :=
  (stt_helpers.translate_to_english E text (Some "ja") (World ∅ 0 0 [] ∅)).1.

(** The record [process_trace] starts from. *)
Definition first_record (trace_id : string) (text confidence provider detected_language : json)
    (t : Z) : gmap string json :=
  {[ "trace_id" := JStr trace_id;
     "text" := text;
     "confidence" := confidence;
     "provider" := provider;
     "detected_language" := detected_language;
     "processed_at" := JInt (Z.quot t micros_per_second) ]}.

(** The warnings of a record, none when the field is absent. *)
Definition warnings_of (r : gmap string json) : list json :=
  match r !! "warnings" with
  | Some (JList l) => l
  | _ => []
  end.

(** The query the agent is run on. *)
Definition text_for_agent (r : gmap string json) : json :=
  py_or (default JNull (r !! "text_en")) (py_or (default JNull (r !! "text")) (JStr "")).

(** [r'] is [r] after the response step or one of the handlers: only
    [response], [status] and the end of [warnings] differ. *)
Definition grown (r r' : gmap string json) : Prop :=
  agree_outside ["response"; "status"; "warnings"] r r' /\ warnings_grow r r'.

(** The record the handler of a failed response generation leaves. *)
Definition chatbot_failed_record (r : gmap string json) (e : exn) : gmap string json :=
  <["status" := JStr "agent_done_chatbot_failed"]>
    (<["warnings" := JList (warnings_of r ++ [JStr ("chatbot_failed:" +:+ exn_msg e)])]> r).

(** The value a computation returned, [dflt] when it raised. *)
Definition returned {A} (dflt : A) (r : pyres A) : A :=
  match r with Return a => a | Raise _ => dflt end.

(* ===================================================================== *)
(** ** app/chatbot.py: the trace id of a sidecar path *)
(* ===================================================================== *)

Module chatbot_paths.

(** [os.path.basename(path)] on POSIX: what follows the last slash. *)
Fixpoint basename (path : string) : string :=
  match path with
  | EmptyString => EmptyString
  | String _ rest => if mem_char "/" path then basename rest else path
  end.

(** The class of the hexadecimal digits of [UUID_RE]. *)
Definition is_hex (c : ascii) : bool :=
  let n := nat_of_ascii c in
  ((48 <=? n) && (n <=? 57) || (97 <=? n) && (n <=? 102) || (65 <=? n) && (n <=? 70))%nat.

(** [n] hexadecimal digits at the start of [s]: what follows them. *)
Fixpoint hex_digits (n : nat) (s : string) : option string :=
  match n with
  | O => Some s
  | S n' =>
      match s with
      | String c s' => if is_hex c then hex_digits n' s' else None
      | EmptyString => None
      end
  end.

Definition hyphen (s : string) : option string :=
  match s with
  | String c s' => if Ascii.eqb c "-" then Some s' else None
  | EmptyString => None
  end.

(** Groups of hexadecimal digits of the given lengths at the start of [s],
    with a hyphen between two groups: what follows them. *)
Fixpoint hex_groups (lengths : list nat) (s : string) : option string :=
  match lengths with
  | [] => Some s
  | n :: lengths' =>
      match hex_digits n s with
      | Some s' =>
          match lengths' with
          | [] => Some s'
          | _ :: _ =>
              match hyphen s' with
              | Some s'' => hex_groups lengths' s''
              | None => None
              end
          end
      | None => None
      end
  end.

(** [UUID_RE.match(s)]: groups of 8, 4, 4, 4 and 12 hexadecimal digits. *)
Definition UUID_RE_match (s : string) : bool :=
  match hex_groups [8; 4; 4; 4; 12]%nat s with
  | Some _ => true
  | None => false
  end.

(** [UUID_RE.search(s)], and [group(0)] of the match: the leftmost place
    where the pattern matches, and the 36 characters it covers. *)
Fixpoint UUID_RE_search (s : string) : option string :=
  if UUID_RE_match s then Some (String.substring 0 36 s)
  else match s with
       | EmptyString => None
       | String _ s' => UUID_RE_search s'
       end.

Definition extract_trace_id_from_path (path : string) : option string :=
  UUID_RE_search (basename path).

End chatbot_paths.

(* ===================================================================== *)
(** ** app/main.py: the text endpoint and the status endpoints *)
(* ===================================================================== *)

Module api.
Section Defs.
Context (E : env).
(** [json.dumps(v, indent=2)], which escapes the characters outside ASCII. *)
Context (json_dumps_ascii : json -> string).
(** What rendering the body of a [JSONResponse] raises, if anything: the
    response class refuses the floats that JSON cannot write. *)
Context (render_error : json -> option exn).

(** [GET /health] *)
Definition health : json := JDict {[ "status" := JStr "ok" ]}.

(** [v == s] for a string literal [s] *)
Definition eq_str (v : json) (s : string) : bool :=
  match v with
  | JStr t => String.eqb t s
  | _ => false
  end.

(** [JSONResponse(content)], whose body is rendered when it is created. *)
Definition JSONResponse (content : json) : M json :=
  match render_error content with
  | Some e => raise e
  | None => ret content
  end.

Definition text_system_prompt : string :=
  "You are a friendly travel assistant and weather guide...".

Definition text_user_prompt (query : string) (merged_context : json) : string :=
  "Original query: '" +:+ query +:+ "'" +:+ chatbot.nl +:+
  "Context: " +:+ json_dumps_ascii merged_context +:+ chatbot.nl +:+ chatbot.nl +:+
  "Produce 1â€“3 sentences for the weather + 1 short travel tip.".

(** [POST /api/text] *)
Definition process_text_query (query : string) : M json :=
  (* 1. Run the NLU/Weather Agent *)
  agent_output <-
    try_except (weather_agent.travel_weather_agent E query)
      (fun e => raise (Exn (HTTPException 500) ("agent_failed: " +:+ exn_msg e))) ;;
  nlu <- lift (get agent_output "nlu") ;;
  weather <- lift (get agent_output "weather") ;;
  (* Check for immediate NLU or Location failure *)
  no_location <-
    (if negb (truthy nlu) then ret true
     else error <- lift (get weather "error") ;;
          ret (eq_str error "no_location_extracted")) ;;
  if no_location : bool then
    (* a body of three strings, which always renders *)
    ret (JDict {[
      "status" := JStr "failed";
      "response_text" :=
        JStr "I couldn't identify the location in your query. Please be specific.";
      "error" := JStr "NLU failed to extract location"
    ]})
  else
    (* 2. Build the LLM Context and Prompts *)
    built <-
      try_except
        (merged_context <- lift (chatbot.build_merged_context nlu weather) ;;
         let api_key := chatbot.or_str (OPENAI_API_KEY E) (GOOGLE_API_KEY E) in
         if negb (env_set api_key)
         then raise (Exn RuntimeError "No API key provided for chatbot")
         else ret (default "" api_key, text_user_prompt query merged_context))
        (fun e => raise (Exn (HTTPException 500) ("context_error: " +:+ exn_msg e))) ;;
    let '(api_key, user_prompt) := built in
    (* 3. Generate Chatbot Response *)
    try_except
      (response_text <- chatbot.call_model_generate E api_key text_system_prompt
                          user_prompt "gemini-2.5-pro" ;;
       t <- now E ;;
       JSONResponse (JDict {[
         "status" := JStr "done";
         "response_text" := JStr response_text;
         "generated_at" := JStr (isoformat_naive (t - t mod micros_per_second) +:+ "Z");
         "nlu" := nlu;
         "weather" := weather
       ]}))
      (fun e => raise (Exn (HTTPException 500) ("chatbot_failed: " +:+ exn_msg e))).

(** [POST /api/stt/{trace_id}/process] *)
Definition stt_process_endpoint (trace_id : string) : M json :=
  try_except
    (result <- stt_helpers.process_trace E trace_id ["en-US"; "ja-JP"] ;;
     ret (JDict result))
    (fun e =>
       match exn_cls e with
       | FileNotFoundError =>
           raise (Exn (HTTPException 404) "trace_id audio not found")
       | _ => raise (Exn (HTTPException 500) ("processing_failed: " +:+ exn_msg e))
       end).

(** [GET /api/stt/{trace_id}] *)
Definition get_stt_result (trace_id : string) : M json :=
  let sidecar := stt_helpers.stt_sidecar_path E trace_id in
  found <- path_exists sidecar ;;
  if negb found then
    (* a body of two strings, which always renders *)
    ret (JDict {[ "trace_id" := JStr trace_id; "status" := JStr "pending" ]})
  else load_json sidecar.

(** [GET /api/stt/{trace_id}/agent] *)
Definition get_agent_result (trace_id : string) : M json :=
  let sidecar := stt_helpers.stt_sidecar_path E trace_id in
  found <- path_exists sidecar ;;
  if negb found then
    ret (JDict {[ "trace_id" := JStr trace_id; "status" := JStr "pending" ]})
  else
    data <- load_json sidecar ;;
    nlu <- lift (get data "nlu") ;;
    weather <- lift (get data "weather") ;;
    status <- lift (get_default data "status" (JStr "done")) ;;
    ret (JDict {[
      "trace_id" := JStr trace_id;
      "nlu" := nlu;
      "weather" := weather;
      "status" := status
    ]}).

End Defs.
End api.

(* ===================================================================== *)
(** ** More concrete environments *)
(* ===================================================================== *)

Module cases.

(** The geocoding service cannot be reached. *)
Definition geo_down : env :=
  scenario.make (Some "llm-key") (Some "weather-key") (Return scenario.english_speech)
    (Return JNull) (Raise (Exn RequestError "Read timed out.")) (Return scenario.sunny)
    scenario.always_ok.

(** The recognizer hears nothing. *)
Definition no_match : recognition := Recognition NoMatch "" (Return JNull) None.

Definition silence : env :=
  scenario.make (Some "llm-key") (Some "weather-key") (Return no_match)
    (Return JNull) (Return scenario.paris_geo) (Return scenario.sunny) scenario.always_ok.

(** The recognizer gives up. *)
Definition canceled : recognition :=
  Recognition Canceled "" (Return JNull) (Some "Connection was closed by the remote host.").

Definition speech_canceled : env :=
  scenario.make (Some "llm-key") (Some "weather-key") (Return canceled)
    (Return JNull) (Return scenario.paris_geo) (Return scenario.sunny) scenario.always_ok.

(** The translator answers with one translation. *)
Definition translated_reply : json :=
  JList [JDict {[ "translations" :=
                    JList [JDict {[ "text" := JStr "weather in Paris"; "to" := JStr "en" ]}] ]}].

Definition translating : env :=
  scenario.make (Some "llm-key") (Some "weather-key") (Return scenario.japanese_speech)
    (Return translated_reply) (Return scenario.paris_geo) (Return scenario.sunny)
    scenario.always_ok.

(** A trace id as [uuid.uuid4()] gives them, and the path of its sidecar. *)
Definition trace : string := "123e4567-e89b-42d3-a456-426614174000".

Definition trace_sidecar : string := "uploads/123e4567-e89b-42d3-a456-426614174000.json".

(** The record of a pipeline at the agent step, with the text of a query. *)
Definition transcribed : world :=
  {| fs := {[ "uploads/t1.wav" := FAudio ]}; opens := 2; ticks := 1; events := [];
     result := {[ "trace_id" := JStr "t1"; "text" := JStr "weather in Paris";
                  "text_en" := JStr "weather in Paris" ]} |}.


End cases.

(* ===================================================================== *)
(** ** Observations on the other functions *)
(* ===================================================================== *)

(** *** The stages of the Weather Fetcher *)

(** The parameters of the two requests of [fetch_weather]. *)
Definition geo_params (E : env) (location : json) : list (string * json) :=
  [("q", location); ("limit", JInt 1); ("appid", of_opt_str (OPENWEATHER_API_KEY E))].

Definition weather_params (E : env) (lat lon : json) : list (string * json) :=
  [("lat", lat); ("lon", lon); ("appid", of_opt_str (OPENWEATHER_API_KEY E));
   ("units", JStr "metric")].

(** The fields of a weather report that are read from a section of the
    provider's payload, and all the fields of a report. *)
Definition section_fields : list string :=
  ["country"; "weather_main"; "weather_description"; "temperature_c"; "feels_like_c";
   "temp_min_c"; "temp_max_c"; "humidity"; "wind_speed"; "cloudiness"].

Definition report_fields : list string :=
  "location" :: "rain_1h" :: "timestamp" :: "raw" :: section_fields.

(** The sections of the payload that [fetch_weather] reads with
    [resp.get(k, {}).get(...)]. *)
Definition payload_sections : list string := ["sys"; "main"; "wind"; "clouds"].

(** *** What the Response Generator reads from a sidecar *)

(** The value [extract_nlu_weather] takes for the field [k]: the record's
    own when it is truthy, else the one of its [agent_raw]. *)
Definition field_of (r : gmap string json) (k : string) : json :=
  py_or (default JNull (r !! k))
        (match r !! "agent_raw" with
         | Some (JDict a) => default JNull (a !! k)
         | _ => JNull
         end).

(** The record's [agent_raw] is absent or a dict. *)
Definition agent_raw_ok (r : gmap string json) : bool :=
  match r !! "agent_raw" with
  | None => true
  | Some v => is_dict v
  end.

(** *** Strings *)

(** The rest of [s] after the character of white space it starts with. *)
Definition space_prefix (s : string) : option string :=
  match s with
  | EmptyString => None
  | String a s1 =>
      if space1 a then Some s1
      else match s1 with
           | EmptyString => None
           | String b s2 =>
               if space2 a b then Some s2
               else match s2 with
                    | EmptyString => None
                    | String c s3 => if space3 a b c then Some s3 else None
                    end
           end
  end.


(** *** Trace ids *)

(** A string that is a UUID, as [str(uuid.uuid4())] gives them. *)
Definition is_uuid (s : string) : bool :=
  chatbot_paths.UUID_RE_match s && (String.length s =? 36)%nat.

(** The length of the text the groups cover. *)
Fixpoint groups_length (lengths : list nat) : nat :=
  match lengths with
  | [] => 0
  | n :: lengths' =>
      match lengths' with
      | [] => n
      | _ :: _ => n + 1 + groups_length lengths'
      end
  end.

(** *** The record of a finished run *)




(** *** Answers of the endpoints *)

(** The answer of a status endpoint for a trace that has no sidecar. *)
Definition pending (trace_id : string) : json :=
  JDict {[ "trace_id" := JStr trace_id; "status" := JStr "pending" ]}.

(** The answer of the text endpoint to a query without a location. *)
Definition no_location_answer : json :=
  JDict {[ "status" := JStr "failed";
           "response_text" :=
             JStr "I couldn't identify the location in your query. Please be specific.";
           "error" := JStr "NLU failed to extract location" ]}.

(** The HTTP error the manual processing endpoint maps an exception of the
    pipeline to. *)
Definition processing_error (e : exn) : exn :=
  match exn_cls e with
  | FileNotFoundError => Exn (HTTPException 404) "trace_id audio not found"
  | _ => Exn (HTTPException 500) ("processing_failed: " +:+ exn_msg e)
  end.

(** An HTTP error 500 whose detail starts with [stage]. *)
Definition server_error (stage : string) (e : exn) : Prop :=
  exn_cls e = HTTPException 500 /\ exists detail, exn_msg e = stage +:+ detail.

(** *** Requests to the translator *)

(** A request sent with POST: the translator is the only service the program
    posts to. *)
Definition is_post (e : event) : bool :=
  match e with EvPost _ _ _ => true | _ => false end.

(** A computation that adds to the log only events that satisfy [P]; unlike
    [only_adds], it may write files and change the record. *)
Definition only_logs {A} (P : event -> Prop) (m : M A) : Prop :=
  forall w, exists evs, events (m w).2 = events w ++ evs /\ Forall P evs.

(** An event that is no request to the translator. *)
Definition no_post (e : event) : Prop := is_post e = false.


(* ===================================================================== *)
(** * Properties *)
(* ===================================================================== *)

(** ** Runs that only add events *)

Section frames.
Context (E : env).

Lemma adds_refl P w : adds P w w.
Proof. repeat split. exists []. by rewrite app_nil_r. Qed.

Lemma adds_trans P w1 w2 w3 : adds P w1 w2 -> adds P w2 w3 -> adds P w1 w3.
Proof.
  intros (Hf & Ho & Hr & evs & He & HP) (Hf' & Ho' & Hr' & evs' & He' & HP').
  repeat split; try congruence.
  exists (evs ++ evs'). split; [by rewrite He', He, app_assoc | by apply Forall_app].
Qed.

Lemma adds_weaken (P Q : event -> Prop) w w' :
  (forall e, P e -> Q e) -> adds P w w' -> adds Q w w'.
Proof.
  intros HPQ (Hf & Ho & Hr & evs & He & HP). repeat split; try assumption.
  exists evs. split; [assumption | by eapply Forall_impl].
Qed.

Lemma only_adds_weaken {A} (P Q : event -> Prop) (m : M A) :
  (forall e, P e -> Q e) -> only_adds P m -> only_adds Q m.
Proof. intros HPQ Hm w. eapply adds_weaken; [exact HPQ | apply Hm]. Qed.

Lemma only_adds_ret {A} P (a : A) : only_adds P (ret a).
Proof. intros w. apply adds_refl. Qed.

Lemma only_adds_raise {A} P e : only_adds P (@raise A e).
Proof. intros w. apply adds_refl. Qed.

Lemma only_adds_lift {A} P (r : pyres A) : only_adds P (lift r).
Proof. intros w. apply adds_refl. Qed.

Lemma only_adds_emit (P : event -> Prop) e : P e -> only_adds P (emit e).
Proof. intros HP w. repeat split. exists [e]. split; [reflexivity | by constructor]. Qed.

Lemma only_adds_now P : only_adds P (now E).
Proof. intros w. repeat split. exists []. by rewrite app_nil_r. Qed.

Lemma only_adds_load_json P path : only_adds P (load_json path).
Proof.
  intros w. unfold load_json. destruct (fs w !! path) as [[]|]; apply adds_refl.
Qed.

Lemma only_adds_path_exists P path : only_adds P (path_exists path).
Proof. intros w. apply adds_refl. Qed.

Lemma only_adds_bind {A B} P (m : M A) (k : A -> M B) :
  only_adds P m -> (forall a, only_adds P (k a)) -> only_adds P (bind m k).
Proof.
  intros Hm Hk w. unfold bind. specialize (Hm w).
  destruct (m w) as [[a|e] w1]; [|exact Hm].
  eapply adds_trans; [exact Hm | apply Hk].
Qed.

Lemma only_adds_try {A} P (m : M A) (h : exn -> M A) :
  only_adds P m -> (forall e, only_adds P (h e)) -> only_adds P (try_except m h).
Proof.
  intros Hm Hh w. unfold try_except. specialize (Hm w).
  destruct (m w) as [[a|e] w1]; [exact Hm|].
  eapply adds_trans; [exact Hm | apply Hh].
Qed.

Lemma only_adds_if {A} P (b : bool) (m1 m2 : M A) :
  only_adds P m1 -> only_adds P m2 -> only_adds P (if b then m1 else m2).
Proof. by destruct b. Qed.

Lemma only_adds_requests_get (P : event -> Prop) url params :
  P (EvGet url params) -> only_adds P (requests_get E url params).
Proof.
  intros HP. apply only_adds_bind; [by apply only_adds_emit | intros; apply only_adds_lift].
Qed.

Lemma only_adds_requests_post (P : event -> Prop) url params body :
  P (EvPost url params body) -> only_adds P (requests_post E url params body).
Proof.
  intros HP. apply only_adds_bind; [by apply only_adds_emit | intros; apply only_adds_lift].
Qed.

(** A computation that logs [e] and then only adds events. *)
Lemma emit_then_run {A} (P : event -> Prop) (e : event) (k : M A) (w : world) :
  only_adds P k ->
  let w' := (bind (emit e) (fun _ => k) w).2 in
  fs w' = fs w /\ opens w' = opens w /\ result w' = result w /\
  exists evs, events w' = events w ++ e :: evs /\ Forall P evs.
Proof.
  intros Hk. unfold bind, emit.
  destruct (Hk (World (fs w) (opens w) (ticks w) (events w ++ [e]) (result w)))
    as (Hf & Ho & Hr & evs & He & HP).
  cbn in *. destruct (k _) as [[a|x] w1]; cbn in *;
    (repeat split; [assumption..|]); exists evs;
    (split; [by rewrite He, <- app_assoc | assumption]).
Qed.

Lemma new_events_app (w w' : world) (evs : list event) :
  events w' = events w ++ evs -> new_events w w' = evs.
Proof. intros H. unfold new_events. rewrite H. by rewrite drop_app_length. Qed.

End frames.

Ltac frame_step :=
  first
    [ apply only_adds_bind; [| intros ]
    | apply only_adds_try; [| intros ]
    | apply only_adds_if
    | apply only_adds_ret | apply only_adds_raise | apply only_adds_lift
    | apply only_adds_now | apply only_adds_load_json | apply only_adds_path_exists
    | apply only_adds_emit
    | apply only_adds_requests_get
    | apply only_adds_requests_post ].

Ltac frame :=
  repeat first
    [ frame_step
    | match goal with
      | |- only_adds _ (match ?x with _ => _ end) => destruct x
      | |- only_adds _ (let ' (_, _) := ?x in _) => destruct x
      end
    | exact I
    | reflexivity
    | progress cbn ].

(** ** The Weather Fetcher *)

Section weather_fetcher.
Import weather_agent.
Context (E : env).

(** C5. Called with a null or empty location, the Weather Fetcher returns
    exactly the error "No location provided"; called with a non-empty
    location while the provider's key is absent, it returns exactly the error
    "OPENWEATHER_API_KEY not set". In both cases it returns (nothing is
    raised) and the world is the one it was called in with the entry into
    [fetch_weather] logged: no request was sent. *)
Theorem fetch_weather_terminal_errors (location : json) (w : world) :
  (location = JNull \/ location = JStr "" ->
   fetch_weather E location w =
     (Return (JDict {[ "error" := JStr "No location provided" ]}),
      entered "fetch_weather" location w)) /\
  (forall s, location = JStr s -> s <> "" -> OPENWEATHER_API_KEY E = None ->
   fetch_weather E location w =
     (Return (JDict {[ "error" := JStr "OPENWEATHER_API_KEY not set" ]}),
      entered "fetch_weather" location w)) /\
  List.filter is_request (events (entered "fetch_weather" location w)) =
    List.filter is_request (events w).
Proof.
  split; [|split].
  - intros [-> | ->]; reflexivity.
  - intros s -> Hs Hkey. unfold fetch_weather, bind, emit. simpl.
    destruct (String.eqb_spec s ""); [contradiction|]. simpl.
    rewrite Hkey. reflexivity.
  - simpl. rewrite List.filter_app. apply app_nil_r.
Qed.

Lemma fetch_weather_run (location : json) (w : world) :
  let w' := (fetch_weather E location w).2 in
  fs w' = fs w /\ opens w' = opens w /\ result w' = result w /\
  exists evs, events w' = events w ++ EvCall "fetch_weather" location :: evs /\
              Forall fetcher_event evs.
Proof.
  unfold fetch_weather. apply emit_then_run. frame.
Qed.

End weather_fetcher.

(** ** The Context Builder *)

Section context_builder.
Import chatbot.

Lemma truthy_dict_false (d : gmap string json) : truthy (JDict d) = false -> d = ∅.
Proof.
  simpl. destruct (map_to_list d) eqn:Hl; [|discriminate].
  intros _. by apply map_to_list_empty_iff.
Qed.

Lemma section_of_ok (n : gmap string json) (k : string) :
  section_ok n k = true -> section_of (JDict n) k = Return (JDict (sect n k)).
Proof.
  unfold section_ok, section_of, sect, py_or. simpl.
  destruct (n !! k) as [v|]; simpl; [|reflexivity].
  destruct (truthy v) eqn:Ht; simpl.
  - destruct v; try discriminate. reflexivity.
  - intros _. destruct v; try reflexivity. by rewrite (truthy_dict_false _ Ht).
Qed.

(** C9. The Context Builder is a function of (nlu, weather) alone. For an
    NLU dict whose sections are well formed, with [l] the string
    [weather.location or nlu.entities.location or ""] and [c] the string
    [weather.country or ""], it returns a context whose location is
    "<l>, <c>" (each part stripped) with leading and trailing commas and white
    space trimmed: "Paris" and "FR" give "Paris, FR", "Paris" and "" give
    "Paris". *)
Theorem build_merged_context_location (nlu weather : gmap string json) (l c : string) :
  section_ok nlu "dialog_metadata" = true ->
  section_ok nlu "entities" = true ->
  section_ok nlu "slots" = true ->
  location_source nlu weather = JStr l ->
  country_source weather = JStr c ->
  exists ctx,
    build_merged_context (JDict nlu) (JDict weather) = Return (JDict ctx) /\
    ctx !! "location" =
      Some (JStr (strip (strip_chars ", " (strip l +:+ ", " +:+ strip c)))) /\
    (l = "Paris" -> c = "FR" -> ctx !! "location" = Some (JStr "Paris, FR")) /\
    (l = "Paris" -> c = "" -> ctx !! "location" = Some (JStr "Paris")).
Proof.
  intros Hd He Hs Hl Hc.
  unfold build_merged_context.
  rewrite !section_of_ok by assumption.
  unfold location_source in Hl. unfold country_source in Hc.
  unfold get, get_default.
  set (wl := default JNull (weather !! "location")) in *.
  set (wc := default JNull (weather !! "country")) in *.
  cbn [pbind]. unfold py_or at 1 in Hl.
  destruct (truthy wl).
  - rewrite Hl. cbn [pbind str_strip]. rewrite Hc. cbn [pbind str_strip].
    eexists. split; [reflexivity|].
    split; [reflexivity|]. split; intros -> ->; reflexivity.
  - simpl in Hl |- *. rewrite Hl.
    cbn [pbind str_strip]. rewrite Hc. cbn [pbind str_strip].
    eexists. split; [reflexivity|].
    split; [reflexivity|]. split; intros -> ->; reflexivity.
Qed.

End context_builder.

(** ** The Entity Extractor *)

Section entity_extractor.
Import weather_agent.
Context (E : env).

Lemma get_candidate_locations_run (loc : string) (w : world) :
  get_candidate_locations E loc w =
    (Return (candidates E loc), requested (EvGet geo_url (geocode_params E loc)) w).
Proof.
  unfold get_candidate_locations, candidates, try_except, bind, requests_get, emit, lift, ret.
  simpl. destruct (requests_get_json E geo_url (geocode_params E loc)) as [resp|e]; [|reflexivity].
  destruct (pbind (iterate resp) (pmap (format_candidate E))); reflexivity.
Qed.

Lemma extract_location_run (q : string) (w : world) :
  exists r evs, extract_location E q w =
    (Return r, World (fs w) (opens w) (ticks w) (events w ++ evs) (result w)) /\
    Forall fetcher_event evs.
Proof.
  unfold extract_location.
  destruct (raw_location E q) as [loc|].
  2:{ exists None, []. rewrite app_nil_r. split; [by destruct w | constructor]. }
  destruct (nonempty (Some loc)).
  2:{ exists None, []. rewrite app_nil_r. split; [by destruct w | constructor]. }
  unfold bind. rewrite get_candidate_locations_run.
  destruct (candidates E loc) as [|c cs] eqn:Hc.
  - exists (Some loc), [EvGet geo_url (geocode_params E loc)]. split; [reflexivity|].
    by repeat constructor.
  - destruct (extractOne E loc (c :: cs) 70) as [best|]; eexists _, [_];
      (split; [reflexivity|]); by repeat constructor.
Qed.

End entity_extractor.

Section date_parsing.
Import weather_agent.
Context (E : env).

Lemma strftime_ymd_nonempty (d : date) : nonempty (Some (strftime_ymd d)) = true.
Proof.
  unfold nonempty, strftime_ymd. simpl.
  destruct (zero_pad 4 (year d)); reflexivity.
Qed.

Lemma date_of_next_day (t : Z) :
  date_of (t + timedelta_days 1) = civil_from_days (t / micros_per_day + 1).
Proof.
  unfold date_of, timedelta_days. f_equal.
  rewrite Z.div_add; [reflexivity | discriminate].
Qed.

(** C8. The date of the NLU result: the parser's date when it resolves one,
    else the literal fallback on "today" and "tomorrow" at the current UTC
    date, else null. *)
Theorem nlu_parser_travel_date (query : string) (w : world) :
  let t := clock E (ticks w) in
  exists nlu entities w',
    nlu_parser_travel E query w = (Return (JDict nlu), w') /\
    nlu !! "entities" = Some (JDict entities) /\
    entities !! "date" = Some (of_opt_str
      match dateparser_parse E query with
      | Some d => Some (strftime_ymd d)
      | None =>
          if contains "today" (lower query) then Some (strftime_ymd (date_of t))
          else if contains "tomorrow" (lower query)
               then Some (strftime_ymd (civil_from_days (t / micros_per_day + 1)))
               else None
      end).
Proof.
  intros t. unfold nlu_parser_travel.
  unfold bind at 1. unfold emit at 1. unfold bind at 1.
  destruct (extract_location_run E query
              (World (fs w) (opens w) (ticks w)
                 (events w ++ [EvCall "nlu_parser_travel" (JStr query)]) (result w)))
    as (loc & evs & -> & _).
  destruct (dateparser_parse E query) as [d|] eqn:Hd; cbn [fmap option_fmap option_map].
  - rewrite (strftime_ymd_nonempty d), !andb_false_r.
    eexists _, _, _. split; [reflexivity|]. split; reflexivity.
  - change (nonempty None) with false. rewrite !andb_true_r.
    destruct (contains "today" (lower query)).
    + eexists _, _, _. split; [reflexivity|]. split; reflexivity.
    + destruct (contains "tomorrow" (lower query)).
      * eexists _, _, _. split; [reflexivity|]. split; [reflexivity|].
        cbn -[date_of civil_from_days strftime_ymd timedelta_days Z.div].
        rewrite date_of_next_day. reflexivity.
      * eexists _, _, _. split; [reflexivity|]. split; reflexivity.
Qed.

End date_parsing.

Section location_validation.
Import weather_agent.
Context (E : env).


Lemma extractOne_sound (loc : string) (cands : list string) :
  best_ok E loc cands (extractOne E loc cands 70).
Proof.
  unfold extractOne.
  assert (H : forall done todo best,
             best_ok E loc done best ->
             best_ok E loc (done ++ todo)
               (foldl (fun best c =>
                  let s := fuzz_score E loc c in
                  if PrimFloat.leb 70 s &&
                     match best with None => true | Some (_, b) => PrimFloat.ltb b s end
                  then Some (c, s) else best) best todo)).
  { intros done todo. revert done.
    induction todo as [|c todo IH]; intros done best Hb.
    - rewrite app_nil_r. exact Hb.
    - cbn [foldl]. replace (done ++ c :: todo) with ((done ++ [c]) ++ todo)
        by (rewrite <- app_assoc; reflexivity).
      apply IH.
      destruct (PrimFloat.leb 70 (fuzz_score E loc c)) eqn:Hle; cbn [andb].
      + destruct best as [[c0 s0]|].
        * destruct (PrimFloat.ltb s0 (fuzz_score E loc c)).
          -- cbn. split; [apply elem_of_app; right; apply list_elem_of_singleton; reflexivity|]. split; [reflexivity | exact Hle].
          -- destruct Hb as (? & ? & ?). cbn. split; [apply elem_of_app; by left|]. split; assumption.
        * cbn. split; [apply elem_of_app; right; apply list_elem_of_singleton; reflexivity|]. split; [reflexivity | exact Hle].
      + destruct best as [[c0 s0]|]; [|exact I].
        destruct Hb as (? & ? & ?). cbn. split; [apply elem_of_app; by left|]. split; assumption. }
  apply (H [] cands None). exact I.
Qed.

Lemma extractOne_none (loc : string) (cands : list string) :
  extractOne E loc cands 70 = None <->
  Forall (fun c => PrimFloat.leb 70 (fuzz_score E loc c) = false) cands.
Proof.
  unfold extractOne.
  assert (Hsome : forall todo b,
            foldl (fun best c =>
                  let s := fuzz_score E loc c in
                  if PrimFloat.leb 70 s &&
                     match best with None => true | Some (_, b) => PrimFloat.ltb b s end
                  then Some (c, s) else best) (Some b) todo <> None).
  { induction todo as [|c todo IH]; intros b; cbn [foldl]; [discriminate|].
    destruct (_ && _); apply IH. }
  induction cands as [|c cands IH]; cbn [foldl].
  - split; [constructor | reflexivity].
  - cbn [andb]. rewrite andb_true_r.
    destruct (PrimFloat.leb 70 (fuzz_score E loc c)) eqn:Hle.
    + split; [intros H; by apply Hsome in H | intros H; inversion H; congruence].
    + rewrite IH. split; [by constructor | intros H; by inversion H].
Qed.

Lemma before_comma_city (name rest : string) :
  mem_char "," name = false -> before_comma (name +:+ ", " +:+ rest) = name.
Proof.
  induction name as [|a name IH]; [reflexivity|].
  cbn -[Ascii.eqb]. intros H.
  apply orb_false_elim in H as [H1 H2].
  rewrite Ascii.eqb_sym in H1.
  change (String a name +:+ ", " +:+ rest) with (String a (name +:+ ", " +:+ rest)).
  cbn [before_comma]. rewrite H1. by rewrite IH.
Qed.

Lemma candidates_of_places (loc : string) (gs : list json) (places : list (string * string)) :
  requests_get_json E geo_url (geocode_params E loc) = Return (JList gs) ->
  Forall2 (fun g p => place g p.1 p.2) gs places ->
  candidates E loc = (fun p => p.1 +:+ ", " +:+ p.2) <$> places.
Proof.
  intros Hget Hall. unfold candidates. rewrite Hget. cbn [iterate pbind].
  clear Hget.
  assert (Hmap : pmap (format_candidate E) gs =
                 Return ((fun p => p.1 +:+ ", " +:+ p.2) <$> places)).
  { induction Hall as [|g p gs places (d & -> & Hn & Hc) _ IH]; [reflexivity|].
    cbn [pmap]. rewrite IH. unfold format_candidate. cbn [get_default pbind].
    rewrite Hn, Hc. reflexivity. }
  by rewrite Hmap.
Qed.

(** C7. Validation of a candidate location against the geocoding service. *)
Theorem extract_location_validates (query loc : string) (w : world) :
  raw_location E query = Some loc -> loc <> "" ->
  exists r,
    extract_location E query w =
      (Return (Some r),
       requested (EvGet geo_url [("q", JStr loc); ("limit", JInt 5);
                                 ("appid", of_opt_str (OPENWEATHER_API_KEY E))]) w) /\
    (* the fuzzy match with cutoff 70 decides the result *)
    match extractOne E loc (candidates E loc) 70 with
    | Some (c, s) =>
        c ∈ candidates E loc /\ s = fuzz_score E loc c /\ PrimFloat.leb 70 s = true /\
        r = before_comma c
    | None =>
        Forall (fun c => PrimFloat.leb 70 (fuzz_score E loc c) = false) (candidates E loc) /\
        r = loc
    end /\
    (* no candidates, also on a transport failure *)
    (candidates E loc = [] -> r = loc) /\
    (is_raise (requests_get_json E geo_url (geocode_params E loc)) = true ->
     candidates E loc = []) /\
    (* the candidates are formatted "City, CountryCode", and the part before
       the comma is the city *)
    (forall gs places,
       requests_get_json E geo_url (geocode_params E loc) = Return (JList gs) ->
       Forall2 (fun g p => place g p.1 p.2) gs places ->
       candidates E loc = (fun p => p.1 +:+ ", " +:+ p.2) <$> places) /\
    (forall name country,
       mem_char "," name = false -> before_comma (name +:+ ", " +:+ country) = name).
Proof.
  intros Hraw Hne. unfold extract_location. rewrite Hraw.
  assert (Hnon : nonempty (Some loc) = true).
  { unfold nonempty. simpl. by destruct (String.eqb_spec loc ""). }
  rewrite Hnon. unfold bind. rewrite get_candidate_locations_run.
  pose proof (extractOne_sound loc (candidates E loc)) as Hsound.
  pose proof (extractOne_none loc (candidates E loc)) as Hnone.
  assert (Hrest :
    (is_raise (requests_get_json E geo_url (geocode_params E loc)) = true ->
     candidates E loc = []) /\
    (forall gs places,
       requests_get_json E geo_url (geocode_params E loc) = Return (JList gs) ->
       Forall2 (fun g p => place g p.1 p.2) gs places ->
       candidates E loc = (fun p => p.1 +:+ ", " +:+ p.2) <$> places) /\
    (forall name country,
       mem_char "," name = false -> before_comma (name +:+ ", " +:+ country) = name)).
  { split; [|split].
    - unfold candidates. by destruct (requests_get_json E geo_url (geocode_params E loc)).
    - apply candidates_of_places.
    - apply before_comma_city. }
  destruct (candidates E loc) as [|c0 cs] eqn:Hc.
  - exists loc. split; [reflexivity|]. cbn [extractOne foldl].
    split; [split; [constructor | reflexivity]|]. split; [reflexivity | exact Hrest].
  - destruct (extractOne E loc (c0 :: cs) 70) as [[c s]|] eqn:Hbest.
    + exists (before_comma c). split; [reflexivity|].
      destruct Hsound as (Hin & Hs & Hle).
      split; [by repeat split|]. split; [discriminate | exact Hrest].
    + exists loc. split; [reflexivity|].
      split; [split; [by apply Hnone | reflexivity]|].
      split; [discriminate | exact Hrest].
Qed.

End location_validation.

(** ** The Travel Agent *)

Section travel_agent.
Import weather_agent.
Context (E : env).

Lemma calls_to_app (f : string) (evs1 evs2 : list event) :
  calls_to f (evs1 ++ evs2) = calls_to f evs1 ++ calls_to f evs2.
Proof. apply omap_app. Qed.

Lemma calls_to_fetcher_events (f : string) (evs : list event) :
  Forall fetcher_event evs -> calls_to f evs = [].
Proof.
  induction 1 as [|e evs He _ IH]; [reflexivity|].
  unfold calls_to in *. cbn [omap list_omap]. rewrite IH.
  by destruct e.
Qed.

Lemma nlu_parser_travel_run (query : string) (w : world) :
  exists nlu entities location w1 evs,
    nlu_parser_travel E query w = (Return (JDict nlu), w1) /\
    nlu !! "entities" = Some (JDict entities) /\
    entities !! "location" = Some location /\
    (location = JNull \/ exists s, location = JStr s) /\
    fs w1 = fs w /\ opens w1 = opens w /\ result w1 = result w /\
    events w1 = events w ++ EvCall "nlu_parser_travel" (JStr query) :: evs /\
    Forall fetcher_event evs.
Proof.
  unfold nlu_parser_travel.
  unfold bind at 1. unfold emit at 1. unfold bind at 1.
  destruct (extract_location_run E query
              (World (fs w) (opens w) (ticks w)
                 (events w ++ [EvCall "nlu_parser_travel" (JStr query)]) (result w)))
    as (loc & evs & -> & Hevs).
  assert (Hloc : of_opt_str loc = JNull \/ exists s, of_opt_str loc = JStr s).
  { destruct loc; [right; eauto | by left]. }
  destruct (_ && _); [|destruct (_ && _)];
    (eexists _, _, _, _, evs; split; [reflexivity|];
     split; [reflexivity|]; split; [reflexivity|]; split; [exact Hloc|];
     cbn; repeat split; try assumption; by rewrite <- app_assoc).
Qed.

(** C4. The Travel Agent always runs the Entity Extractor, once and before
    anything else. It calls the Weather Fetcher, once and with the extracted
    location, exactly when [nlu.entities.location] is neither null nor the
    empty string; otherwise it returns the weather
    [{error: "no_location_extracted"}] and the Weather Fetcher is not
    entered. *)
Theorem travel_weather_agent_routes (query : string) (w : world) :
  exists nlu entities location w1,
    nlu_parser_travel E query w = (Return (JDict nlu), w1) /\
    calls_to "nlu_parser_travel" (new_events w w1) = [JStr query] /\
    calls_to "fetch_weather" (new_events w w1) = [] /\
    nlu !! "entities" = Some (JDict entities) /\
    entities !! "location" = Some location /\
    (truthy location = true <-> location <> JNull /\ location <> JStr "") /\
    (truthy location = true ->
     travel_weather_agent E query w =
       (let '(r, w2) := fetch_weather E location w1 in
        (pbind r (fun weather =>
           Return (JDict {[ "nlu" := JDict nlu; "weather" := weather ]})), w2)) /\
     calls_to "fetch_weather"
       (new_events w (travel_weather_agent E query w).2) = [location]) /\
    (truthy location = false ->
     travel_weather_agent E query w =
       (Return (JDict {[ "nlu" := JDict nlu;
                         "weather" := JDict {[ "error" := JStr "no_location_extracted" ]} ]}),
        w1)).
Proof.
  destruct (nlu_parser_travel_run query w)
    as (nlu & entities & location & w1 & evs & Hrun & Hents & Hloc & Hshape &
        _ & _ & _ & Hev & Hevs).
  exists nlu, entities, location, w1.
  split; [exact Hrun|].
  rewrite (new_events_app _ _ _ Hev).
  change (EvCall "nlu_parser_travel" (JStr query) :: evs)
    with ([EvCall "nlu_parser_travel" (JStr query)] ++ evs).
  rewrite !calls_to_app, (calls_to_fetcher_events "nlu_parser_travel" evs Hevs),
    (calls_to_fetcher_events "fetch_weather" evs Hevs).
  split; [reflexivity|]. split; [reflexivity|].
  split; [exact Hents|]. split; [exact Hloc|].
  split.
  { destruct Hshape as [-> | [s ->]]; cbn.
    - split; [discriminate | intros [? _]; congruence].
    - destruct (String.eqb_spec s ""); cbn.
      + subst. split; [discriminate | intros [_ ?]; congruence].
      + split; [intros _; split; congruence | reflexivity]. }
  assert (Hagent : travel_weather_agent E query w =
            bind (if truthy location then fetch_weather E location
                  else ret (error_dict "no_location_extracted"))
                 (fun weather => ret (JDict {[ "nlu" := JDict nlu; "weather" := weather ]}))
                 w1).
  { unfold travel_weather_agent. unfold bind at 1. rewrite Hrun.
    unfold bind at 1. cbn [lift get_default]. rewrite Hents. cbn [default from_option id].
    unfold bind at 1. cbn [lift get get_default]. rewrite Hloc. reflexivity. }
  split.
  - intros Ht. rewrite Hagent, Ht. unfold bind.
    pose proof (fetch_weather_run E location w1) as (_ & _ & _ & evs2 & Hev2 & Hevs2).
    destruct (fetch_weather E location w1) as [[weather|e] w2]; cbn in Hev2 |- *;
      (split; [reflexivity|]);
      rewrite Hev, <- app_assoc in Hev2;
      rewrite (new_events_app _ _ _ Hev2);
      change (EvCall "nlu_parser_travel" (JStr query) :: evs)
        with ([EvCall "nlu_parser_travel" (JStr query)] ++ evs);
      change (EvCall "fetch_weather" location :: evs2)
        with ([EvCall "fetch_weather" location] ++ evs2);
      rewrite !calls_to_app, (calls_to_fetcher_events "fetch_weather" evs Hevs),
        (calls_to_fetcher_events "fetch_weather" evs2 Hevs2); reflexivity.
  - intros Ht. rewrite Hagent, Ht. reflexivity.
Qed.

End travel_agent.

(** C4, as the claim has it, fails on a location that is the empty string:
    the geocoding service answers with a place that has no name, the fuzzy
    match accepts ", US" for "US", the city kept is what comes before the
    comma. The extracted location is then not null, and the Weather Fetcher
    is not called. *)
Lemma travel_weather_agent_empty_location :
  let run := weather_agent.travel_weather_agent scenario.nameless "weather in US" scenario.uploaded in
  dig_result run.1 ["nlu"; "entities"; "location"] = Some (JStr "") /\
  JStr "" <> JNull /\
  calls_to "fetch_weather" (new_events scenario.uploaded run.2) = [] /\
  dig_result run.1 ["weather"] = Some (JDict {[ "error" := JStr "no_location_extracted" ]}).
Proof.
  cbv zeta. split; [vm_compute; reflexivity|]. split; [discriminate|].
  split; vm_compute; reflexivity.
Qed.

(** A run in which a location is extracted and the Weather Fetcher is
    called with it. *)
Lemma travel_weather_agent_routes_witness :
  calls_to "fetch_weather"
    (new_events scenario.uploaded
       (weather_agent.travel_weather_agent scenario.happy "weather in Paris today" scenario.uploaded).2)
  = [JStr "Paris today"].
Proof.
  destruct (travel_weather_agent_routes scenario.happy "weather in Paris today"
              scenario.uploaded)
    as (nlu & entities & location & w1 & H1 & _ & _ & H2 & H3 & _ & H4 & _).
  assert (Hdig : dig_result
            (weather_agent.nlu_parser_travel scenario.happy "weather in Paris today"
               scenario.uploaded).1 ["entities"; "location"] = Some location).
  { rewrite H1. cbn [fst dig_result dig]. by rewrite H2, H3. }
  vm_compute in Hdig. injection Hdig as <-.
  exact (proj2 (H4 eq_refl)).
Defined.

(** ** The Response Generator *)

Section response_generator.
Import chatbot.
Context (E : env).

Lemma own_or_agent_raw_missing (r : gmap string json) (k : string) :
  field_missing r k = true ->
  match own_or_agent_raw (JDict r) k with
  | Return v => truthy v = false
  | Raise _ => True
  end.
Proof.
  unfold field_missing, own_or_agent_raw. cbn [get get_default pbind].
  intros [Hown Hraw]%andb_true_iff. apply negb_true_iff in Hown. rewrite Hown.
  destruct (r !! "agent_raw") as [[]|]; cbn; try exact I.
  - by apply negb_true_iff in Hraw.
  - rewrite lookup_empty. reflexivity.
Qed.

Lemma extract_nlu_weather_missing (r : gmap string json) :
  field_missing r "nlu" = true \/ field_missing r "weather" = true ->
  exists e, extract_nlu_weather (JDict r) = Raise e.
Proof.
  intros H. unfold extract_nlu_weather.
  destruct (own_or_agent_raw (JDict r) "nlu") as [nlu|e] eqn:Hn; cbn [pbind]; [|eauto].
  destruct (own_or_agent_raw (JDict r) "weather") as [weather|e] eqn:Hw; cbn [pbind]; [|eauto].
  destruct H as [H|H].
  - pose proof (own_or_agent_raw_missing r "nlu" H) as Hm. rewrite Hn in Hm.
    rewrite Hm. cbn. eauto.
  - pose proof (own_or_agent_raw_missing r "weather" H) as Hm. rewrite Hw in Hm.
    rewrite Hm. cbn. destruct (truthy nlu); cbn; eauto.
Qed.

Lemma failed_record_missing (trace_id : string) (e : exn) (t : Z) :
  field_missing (stt_helpers.failed_record trace_id e t) "nlu" = true.
Proof. reflexivity. Qed.

Lemma generate_raises_early (trace_id path : string) (key : option string) (w : world) :
  env_set (or_str key (or_str (OPENAI_API_KEY E) (GOOGLE_API_KEY E))) = false \/
  (exists r, fs w !! path = Some (FJson (JDict r)) /\
             (field_missing r "nlu" = true \/ field_missing r "weather" = true)) ->
  exists e, generate_travel_response E trace_id path key w = (Raise e, w).
Proof.
  intros H. unfold generate_travel_response.
  destruct (env_set (or_str key _)) eqn:Hkey; cbn [negb].
  - destruct H as [H | (r & Hfile & Hmiss)]; [discriminate|].
    unfold bind at 1. unfold load_json. rewrite Hfile.
    destruct (extract_nlu_weather_missing r Hmiss) as [e He].
    unfold bind, lift. rewrite He. eauto.
  - unfold raise. eauto.
Qed.

(** C10. [generate_travel_response] raises, and leaves the world as it was
    (so no LLM call was made), when no API key is available, and when the
    sidecar record has no usable [nlu] or no usable [weather], neither of its
    own nor under [agent_raw]. A sidecar in the failed state is such a
    record: polled through the response entry point, it gives a raised
    HTTP 500 error and no response payload. *)
Theorem generate_travel_response_raises_early
    (trace_id sidecar_path : string) (api_key : option string) (w : world) :
  (env_set (or_str api_key (or_str (OPENAI_API_KEY E) (GOOGLE_API_KEY E))) = false \/
   (exists r, fs w !! sidecar_path = Some (FJson (JDict r)) /\
              (field_missing r "nlu" = true \/ field_missing r "weather" = true)) ->
   exists e, generate_travel_response E trace_id sidecar_path api_key w = (Raise e, w)) /\
  (forall e t,
     fs w !! stt_helpers.stt_sidecar_path E trace_id =
       Some (FJson (JDict (stt_helpers.failed_record trace_id e t))) ->
     exists detail,
       main.get_chatbot_response E trace_id w =
         (Raise (Exn (HTTPException 500) detail), w)).
Proof.
  split; [apply generate_raises_early|].
  intros e t Hfile. unfold main.get_chatbot_response.
  unfold bind, path_exists. rewrite Hfile.
  rewrite bool_decide_eq_true_2 by eauto. cbn [negb].
  unfold try_except.
  destruct (generate_raises_early trace_id (stt_helpers.stt_sidecar_path E trace_id) None w)
    as [e' ->].
  { right. eexists. split; [exact Hfile|]. left. apply failed_record_missing. }
  unfold raise. eauto.
Qed.

Lemma build_merged_context_dict (nlu weather ctx : json) :
  build_merged_context nlu weather = Return ctx -> exists d, ctx = JDict d.
Proof.
  unfold build_merged_context.
  repeat match goal with
         | |- pbind ?x _ = _ -> _ => destruct x; cbn [pbind]; [|discriminate]
         end.
  intros [= <-]. eauto.
Qed.

(** C3, amended. Once an API key is available and the sidecar gives an NLU
    and a weather from which the context and the city can be built,
    [generate_travel_response] returns a result object whatever the LLM call
    does: when the call fails the response text is empty and the error note
    is "chatbot_failed: " followed by the failure's text; when it succeeds
    the error note is null. *)
Theorem generate_travel_response_survives_llm
    (trace_id sidecar_path : string) (api_key : option string) (w : world)
    (root nlu weather ctx : json) (city : string) :
  let key := or_str api_key (or_str (OPENAI_API_KEY E) (GOOGLE_API_KEY E)) in
  env_set key = true ->
  fs w !! sidecar_path = Some (FJson root) ->
  extract_nlu_weather root = Return (nlu, weather) ->
  build_merged_context nlu weather = Return ctx ->
  city_of nlu weather = Return city ->
  exists out w' user_prompt,
    generate_travel_response E trace_id sidecar_path api_key w = (Return (JDict out), w') /\
    user_prompt_of E ctx = Return user_prompt /\
    match generate_content E (default "" key) "gemini-2.5-pro" system_prompt user_prompt with
    | Raise e =>
        out !! "response_text" = Some (JStr "") /\
        out !! "error" = Some (JStr ("chatbot_failed: " +:+ exn_msg e))
    | Return resp =>
        out !! "response_text" =
          Some (JStr match resp_text resp with
                     | Some t => if String.eqb t "" then resp_str resp else t
                     | None => resp_str resp
                     end) /\
        out !! "error" = Some JNull
    end.
Proof.
  intros key Hkey Hfile Hextract Hctx Hcity.
  destruct (build_merged_context_dict _ _ _ Hctx) as [d ->].
  unfold generate_travel_response. fold key. rewrite Hkey. cbn [negb].
  unfold bind at 1. unfold load_json. rewrite Hfile.
  unfold bind at 1. unfold lift at 1. rewrite Hextract.
  unfold bind at 1. unfold lift at 1. rewrite Hctx.
  unfold bind at 1. unfold lift at 1. rewrite Hcity.
  unfold bind at 1. unfold lift at 1.
  unfold user_prompt_of. cbn [get get_default pbind].
  set (up := (_ +:+ _)%string).
  unfold bind at 1. unfold try_except, call_model_generate.
  unfold bind at 1. unfold emit at 1. unfold bind at 1. unfold lift at 1.
  destruct (generate_content E (default "" key) "gemini-2.5-pro" system_prompt up)
    as [resp|e] eqn:Hllm.
  - eexists _, _, up. split; [reflexivity|]. split; [reflexivity|].
    rewrite Hllm. split; reflexivity.
  - eexists _, _, up. split; [reflexivity|]. split; [reflexivity|].
    rewrite Hllm. split; reflexivity.
Qed.

End response_generator.

(** C3, as the claim has it, fails: with no API key in the environment the
    Response Generator raises instead of returning a result object. *)
Lemma generate_travel_response_raises_without_key :
  chatbot.generate_travel_response scenario.no_llm_key "t1" "uploads/t1.json" None
    scenario.uploaded =
  (Raise (Exn RuntimeError "No API key provided for chatbot"), scenario.uploaded).
Proof. reflexivity. Qed.

(** A run in which the LLM call fails and a result object is returned. *)
Lemma generate_travel_response_survives_llm_witness :
  exists out w',
    chatbot.generate_travel_response scenario.llm_down "t1" "uploads/t1.json" None
      scenario.processed = (Return (JDict out), w') /\
    out !! "response_text" = Some (JStr "") /\
    out !! "error" = Some (JStr "chatbot_failed: 503 Service Unavailable").
Proof.
  edestruct (generate_travel_response_survives_llm scenario.llm_down "t1"
               "uploads/t1.json" None scenario.processed)
    as (out & w' & up & Hrun & _ & Hllm);
    [reflexivity | reflexivity | vm_compute; reflexivity | vm_compute; reflexivity
    | vm_compute; reflexivity |].
  exists out, w'. split; [exact Hrun | exact Hllm].
Defined.

(** Runs that raise before any LLM call: no key, and a failed sidecar. *)
Lemma generate_travel_response_raises_early_witness :
  (exists e, chatbot.generate_travel_response scenario.no_llm_key "t1" "uploads/t1.json"
               None scenario.processed = (Raise e, scenario.processed)) /\
  (exists detail, main.get_chatbot_response scenario.happy "t1" scenario.failed =
                    (Raise (Exn (HTTPException 500) detail), scenario.failed)).
Proof.
  split.
  - apply (proj1 (generate_travel_response_raises_early scenario.no_llm_key "t1"
                    "uploads/t1.json" None scenario.processed)).
    left. reflexivity.
  - apply (proj2 (generate_travel_response_raises_early scenario.happy "t1"
                    "uploads/t1.json" None scenario.failed)
             (Exn RuntimeError "Azure STT failed: None") 1793786187000000).
    reflexivity.
Defined.

(** ** The Transcription Pipeline *)

Lemma agree_outside_refl K r : agree_outside K r r.
Proof. by intros k _. Qed.

Lemma agree_outside_insert K r k v : k ∈ K -> agree_outside K r (<[k := v]> r).
Proof.
  intros Hk k' Hk'. apply lookup_insert_ne. intros ->. contradiction.
Qed.

Lemma agree_outside_trans K r1 r2 r3 :
  agree_outside K r1 r2 -> agree_outside K r2 r3 -> agree_outside K r1 r3.
Proof. intros H1 H2 k Hk. by rewrite H2, H1. Qed.

Lemma agree_outside_insert_after K r r' k v :
  k ∈ K -> agree_outside K r r' -> agree_outside K r (<[k := v]> r').
Proof.
  intros Hk H k' Hk'. rewrite lookup_insert_ne; [by apply H|]. intros ->. contradiction.
Qed.

Lemma warnings_grow_refl r : warnings_grow r r.
Proof. intros l Hl. exists []. by rewrite app_nil_r. Qed.

Lemma warnings_grow_trans r1 r2 r3 :
  warnings_grow r1 r2 -> warnings_grow r2 r3 -> warnings_grow r1 r3.
Proof.
  intros H1 H2 l Hl. destruct (H1 l Hl) as [l1 Hl1]. destruct (H2 _ Hl1) as [l2 Hl2].
  exists (l1 ++ l2). by rewrite app_assoc.
Qed.

Lemma warnings_grow_insert r k v :
  k <> "warnings" -> warnings_grow r (<[k := v]> r).
Proof. intros Hk l Hl. exists []. by rewrite app_nil_r, lookup_insert_ne. Qed.

Lemma warnings_grow_append r note :
  warnings_grow r (<["warnings" := JList (warnings_of r ++ [note])]> r).
Proof.
  intros l Hl. exists [note]. unfold warnings_of. rewrite Hl. apply lookup_insert_eq.
Qed.

Lemma warnings_ok_insert r k v :
  k <> "warnings" -> warnings_ok r -> warnings_ok (<[k := v]> r).
Proof. intros Hk [H | [l H]]; [left | right; exists l]; by rewrite lookup_insert_ne. Qed.

Lemma warnings_ok_set r l : warnings_ok (<["warnings" := JList l]> r).
Proof. right. exists l. apply lookup_insert_eq. Qed.

(** A field set by one of the inserts that built the record. *)
Ltac has_field :=
  eexists; rewrite ?lookup_insert_ne by discriminate; apply lookup_insert_eq.

(** Side conditions on records and on lists of events. *)
Ltac record_side :=
  first
    [ reflexivity
    | assumption
    | exact I
    | match goal with |- Forall _ [] => constructor end
    | apply agree_outside_refl
    | by (apply agree_outside_insert; repeat constructor)
    | apply lookup_insert_eq
    | by (rewrite !lookup_insert_ne by discriminate)
    | by (rewrite !lookup_insert_ne by discriminate; apply lookup_insert_eq)
    | by (left; rewrite !lookup_insert_ne by discriminate)
    | by (left; assumption)
    | by (right; eexists; apply lookup_insert_eq)
    | by (right; eexists; rewrite !lookup_insert_ne by discriminate; apply lookup_insert_eq) ].

Section pipeline_blocks.
Import stt_helpers.
Context (E : env).

Lemma adds_world P w w' :
  adds P w w' ->
  exists t evs, w' = World (fs w) (opens w) t (events w ++ evs) (result w) /\ Forall P evs.
Proof.
  intros (Hf & Ho & Hr & evs & He & HP). exists (ticks w'), evs.
  destruct w'; simpl in *; subst; auto.
Qed.

Lemma only_adds_transcribe wav langs :
  only_adds service_event (transcribe_with_azure E wav langs).
Proof. unfold transcribe_with_azure. frame. Qed.

Lemma only_adds_translate text from_lang :
  only_adds service_event (translate_to_english E text from_lang).
Proof. unfold translate_to_english. frame. Qed.

Lemma only_adds_fetch_weather location :
  only_adds service_event (weather_agent.fetch_weather E location).
Proof. unfold weather_agent.fetch_weather. frame. Qed.

Lemma only_adds_generate trace_id path key :
  only_adds service_event (chatbot.generate_travel_response E trace_id path key).
Proof. unfold chatbot.generate_travel_response, chatbot.call_model_generate. frame. Qed.

Lemma fetcher_is_service e : fetcher_event e -> service_event e.
Proof. by destruct e. Qed.

Lemma transcribe_dict wav langs w stt w1 :
  transcribe_with_azure E wav langs w = (Return stt, w1) ->
  exists text conf det,
    stt = JDict {[ "text" := JStr text; "confidence" := conf;
                   "provider" := JStr "azure-speech"; "detected_language" := det ]}.
Proof.
  unfold transcribe_with_azure.
  destruct (_ || _); [discriminate|].
  unfold bind, emit, lift.
  destruct (recognize_once E wav langs) as [res|e]; [|discriminate].
  destruct (reason res); [| |discriminate]; intros [= <- _]; eauto.
Qed.

Lemma start_result_run trace_id text conf det w :
  start_result E trace_id
    (JDict {[ "text" := JStr text; "confidence" := conf;
              "provider" := JStr "azure-speech"; "detected_language" := det ]}) w =
  (Return tt,
   World (fs w) (opens w) (S (ticks w)) (events w)
     (first_record trace_id (JStr text) conf (JStr "azure-speech") det (clock E (ticks w)))).
Proof. reflexivity. Qed.

Lemma translate_fst text from_lang w w0 :
  (translate_to_english E text from_lang w).1 = (translate_to_english E text from_lang w0).1.
Proof.
  unfold translate_to_english.
  destruct (_ || _); [reflexivity|].
  unfold bind, requests_post, emit, lift. cbn.
  destruct (requests_post_json E _ _ _) as [data|]; [|reflexivity]. cbn.
  destruct (index0 data) as [d0|]; [|reflexivity]. cbn.
  destruct (item d0 "translations") as [tr|]; [|reflexivity]. cbn.
  destruct (index0 tr) as [t0|]; [|reflexivity]. cbn.
  destruct (item t0 "text"); reflexivity.
Qed.

Lemma translate_step_spec w :
  result w !! "warnings" = None ->
  let text := default JNull (result w !! "text") in
  let det := py_or (default JNull (result w !! "detected_language")) (JStr "") in
  exists res w' evs,
    translate_step E w = (res, w') /\
    fs w' = fs w /\ opens w' = opens w /\
    events w' = events w ++ evs /\ Forall service_event evs /\
    agree_outside ["text_en"; "warnings"] (result w) (result w') /\
    warnings_ok (result w') /\
    forall english, res = Return english ->
      if truthy text && is_ja det then
        match translation E text with
        | Return tr =>
            english = tr /\ result w' !! "text_en" = Some tr /\
            result w' !! "warnings" = None
        | Raise e =>
            english = text /\ result w' !! "text_en" = Some JNull /\
            result w' !! "warnings" =
              Some (JList [JStr ("translation_failed:" +:+ exn_msg e)])
        end
      else english = text /\ result w' !! "text_en" = Some text /\
           result w' !! "warnings" = None.
Proof.
  intros Hwarn text det. unfold translate_step.
  unfold bind at 1. unfold result_get at 1. fold text.
  unfold bind at 1. unfold result_get at 1. fold det.
  assert (Hplain : exists res w' evs,
    (set_result "text_en" text;;; ret text) w = (res, w') /\
    fs w' = fs w /\ opens w' = opens w /\
    events w' = events w ++ evs /\ Forall service_event evs /\
    agree_outside ["text_en"; "warnings"] (result w) (result w') /\
    warnings_ok (result w') /\
    forall english, res = Return english ->
      english = text /\ result w' !! "text_en" = Some text /\
      result w' !! "warnings" = None).
  { eexists _, _, []. split; [reflexivity|]. cbn.
    rewrite app_nil_r. split_and!; try record_side.
    intros english [= <-]. split_and!; record_side. }
  destruct (truthy text) eqn:Htruthy; cbn [andb].
  2:{ unfold bind at 1. unfold ret at 1. exact Hplain. }
  unfold bind at 1. unfold bind at 1. unfold lift at 1.
  destruct det as [| | | |s| |] eqn:Hdet; cbn [str_lower is_ja];
    try (eexists _, w, []; split; [reflexivity|]; rewrite app_nil_r;
         split_and!; try record_side; discriminate).
  unfold ret at 1.
  destruct (startswith "ja" (lower s)); [|exact Hplain].
  unfold try_except, bind at 1.
  pose proof (only_adds_translate text (Some "ja") w) as Hadds.
  pose proof (translate_fst text (Some "ja") w (World ∅ 0 0 [] ∅)) as Hfst.
  fold (translation E text) in Hfst.
  destruct (translate_to_english E text (Some "ja") w) as [[tr|e] w1]; cbn in Hadds, Hfst;
    rewrite <- Hfst;
    destruct (adds_world _ _ _ Hadds) as (t1 & evs & -> & Hevs).
  - eexists _, _, evs. split; [reflexivity|]. cbn.
    split_and!; try record_side.
    intros english [= <-]. split_and!; record_side.
  - unfold bind at 1. unfold set_result at 1. unfold bind at 1.
    unfold append_warning. cbn [result].
    rewrite lookup_insert_ne by discriminate. rewrite Hwarn.
    eexists _, _, evs. split; [reflexivity|]. cbn.
    split_and!; try record_side.
    + eapply agree_outside_trans; apply agree_outside_insert; repeat constructor.
    + intros english [= <-]. split_and!; record_side.
Qed.

Lemma append_warning_ok note w :
  warnings_ok (result w) ->
  append_warning note w =
    (Return tt,
     World (fs w) (opens w) (ticks w) (events w)
       (<["warnings" := JList (warnings_of (result w) ++ [JStr note])]> (result w))).
Proof.
  unfold append_warning, warnings_of, set_result.
  by intros [-> | [l ->]].
Qed.

Lemma calls_to_service evs :
  Forall service_event evs -> calls_to "nlu_parser_travel" evs = [].
Proof.
  induction 1 as [|e evs He _ IH]; [reflexivity|].
  unfold calls_to in *. cbn [omap list_omap]. rewrite IH.
  destruct e; try reflexivity. cbn in He. by subst.
Qed.

Lemma service_not_write evs :
  Forall service_event evs -> Forall (fun e => is_write e = false) evs.
Proof. intros H. eapply Forall_impl; [exact H|]. by intros []. Qed.

Lemma travel_weather_agent_events q w :
  exists res t evs,
    weather_agent.travel_weather_agent E q w =
      (res, World (fs w) (opens w) t
              (events w ++ EvCall "nlu_parser_travel" (JStr q) :: evs) (result w)) /\
    Forall service_event evs.
Proof.
  unfold weather_agent.travel_weather_agent. unfold bind at 1.
  destruct (nlu_parser_travel_run E q w)
    as (nlu & ents & loc & w1 & evs1 & -> & Hents & Hloc & _ & Hf & Ho & Hr & Hev & Hevs).
  assert (Hrest : only_adds service_event
            (entities <- lift (get_default (JDict nlu) "entities" (JDict ∅));;
             location <- lift (get entities "location");;
             weather <- (if truthy location
                         then weather_agent.fetch_weather E location
                         else ret (weather_agent.error_dict "no_location_extracted"));;
             ret (JDict {["nlu" := JDict nlu; "weather" := weather]}))).
  { frame_step; [frame_step|]. frame_step; [frame_step|].
    frame_step; [|frame_step]. apply only_adds_if; [apply only_adds_fetch_weather | frame_step]. }
  destruct (adds_world _ _ _ (Hrest w1)) as (t & evs2 & Hw & Hevs2).
  destruct ((_ <- _ ;; _) w1) as [res w2]. cbn in Hw. subst w2.
  exists res, t, (evs1 ++ evs2). split.
  - rewrite Hf, Ho, Hr, Hev, <- app_assoc. reflexivity.
  - apply Forall_app. split; [|assumption].
    eapply Forall_impl; [exact Hevs | apply fetcher_is_service].
Qed.

Lemma agent_step_spec w :
  warnings_ok (result w) ->
  exists w' evs,
    agent_step E w = (Return tt, w') /\
    fs w' = fs w /\ opens w' = opens w /\
    events w' = events w ++ evs /\
    Forall (fun e => is_write e = false) evs /\
    (forall q, text_for_agent (result w) = JStr q ->
               calls_to "nlu_parser_travel" evs = [JStr q]) /\
    agree_outside ["warnings"; "agent_raw"; "nlu"; "weather"] (result w) (result w') /\
    warnings_grow (result w) (result w') /\
    warnings_ok (result w') /\
    is_Some (result w' !! "agent_raw") /\
    is_Some (result w' !! "nlu") /\
    is_Some (result w' !! "weather").
Proof.
  intros Hok. unfold agent_step.
  unfold bind at 1. unfold result_get at 1.
  unfold bind at 1. unfold result_get at 1.
  fold (text_for_agent (result w)).
  assert (Hhandler : forall e t evs,
    exists w',
      (append_warning ("agent_failed:" +:+ exn_msg e);;;
       set_result "agent_raw" (JDict {["error" := JStr (exn_msg e)]});;;
       set_result "nlu" (JDict {["error" := JStr ("agent_failed:" +:+ exn_msg e)]});;;
       set_result "weather" (JDict {["error" := JStr ("agent_failed:" +:+ exn_msg e)]}))
        (World (fs w) (opens w) t (events w ++ evs) (result w)) = (Return tt, w') /\
      fs w' = fs w /\ opens w' = opens w /\
      events w' = events w ++ evs /\
      agree_outside ["warnings"; "agent_raw"; "nlu"; "weather"] (result w) (result w') /\
      warnings_grow (result w) (result w') /\
      warnings_ok (result w') /\
      is_Some (result w' !! "agent_raw") /\
      is_Some (result w' !! "nlu") /\
      is_Some (result w' !! "weather")).
  { intros e t evs. unfold bind at 1.
    rewrite append_warning_ok by exact Hok.
    eexists. split; [reflexivity|]. cbn.
    split_and!; try reflexivity.
    - repeat (apply agree_outside_insert_after; [repeat constructor|]).
      apply agree_outside_refl.
    - repeat (eapply warnings_grow_trans; [|by apply warnings_grow_insert]).
      apply warnings_grow_append.
    - repeat (apply warnings_ok_insert; [discriminate|]). apply warnings_ok_set.
    - has_field.
    - has_field.
    - has_field. }
  unfold try_except, bind at 1.
  assert (Hnonstr :
    exists w' (evs : list event),
      (let err_text := exn_msg (Exn TypeError "expected string or bytes-like object") in
       append_warning ("agent_failed:" +:+ err_text);;;
       set_result "agent_raw" (JDict {["error" := JStr err_text]});;;
       set_result "nlu" (JDict {["error" := JStr ("agent_failed:" +:+ err_text)]});;;
       set_result "weather" (JDict {["error" := JStr ("agent_failed:" +:+ err_text)]})) w =
        (Return tt, w') /\
      fs w' = fs w /\ opens w' = opens w /\
      events w' = events w ++ evs /\
      Forall (fun e => is_write e = false) evs /\
      agree_outside ["warnings"; "agent_raw"; "nlu"; "weather"] (result w) (result w') /\
      warnings_grow (result w) (result w') /\
      warnings_ok (result w') /\
      is_Some (result w' !! "agent_raw") /\
      is_Some (result w' !! "nlu") /\
      is_Some (result w' !! "weather")).
  { destruct (Hhandler (Exn TypeError "expected string or bytes-like object")
                (ticks w) []) as (w' & Hrun & Hf & Ho & He & Hrest).
    rewrite app_nil_r in Hrun.
    replace (World (fs w) (opens w) (ticks w) (events w) (result w)) with w in Hrun
      by (by destruct w).
    exists w', []. split; [exact Hrun|].
    split_and!; try assumption; [constructor | apply Hrest..]. }
  unfold try_except, bind at 1.
  destruct (text_for_agent (result w)) as [| | | |q| |] eqn:Htext; cbn [call_agent];
    try (unfold raise;
         destruct Hnonstr as (w' & evs & Hrun & Hf & Ho & He & Hnw & Hrest);
         exists w', evs; split; [exact Hrun|];
         split_and!; try assumption; [discriminate | apply Hrest..]).
  destruct (travel_weather_agent_events q w) as (res & t & evs & -> & Hevs).
  assert (Hcalls : forall q0, JStr q = JStr q0 ->
            calls_to "nlu_parser_travel" (EvCall "nlu_parser_travel" (JStr q) :: evs) =
            [JStr q0]).
  { intros q0 [= <-].
    change (EvCall "nlu_parser_travel" (JStr q) :: evs)
      with ([EvCall "nlu_parser_travel" (JStr q)] ++ evs).
    rewrite calls_to_app, (calls_to_service evs Hevs). reflexivity. }
  assert (Hnw : Forall (fun e => is_write e = false)
                  (EvCall "nlu_parser_travel" (JStr q) :: evs)).
  { constructor; [reflexivity | by apply service_not_write]. }
  destruct res as [out|e].
  - unfold attach_agent_output.
    destruct out; (eexists _, _; split; [reflexivity|]);
      cbn; (split_and!; try reflexivity; try assumption);
      try (repeat (apply agree_outside_insert_after; [repeat constructor|]);
           apply agree_outside_refl);
      try (repeat (eapply warnings_grow_trans; [|by apply warnings_grow_insert]);
           apply warnings_grow_refl);
      try (repeat (apply warnings_ok_insert; [discriminate|]); exact Hok);
      try has_field.
  - destruct (Hhandler e t (EvCall "nlu_parser_travel" (JStr q) :: evs))
      as (w' & Hrun & Hf & Ho & He & Hrest).
    exists w', (EvCall "nlu_parser_travel" (JStr q) :: evs). split; [exact Hrun|].
    split_and!; try assumption; apply Hrest.
Qed.

End pipeline_blocks.

Section process_trace_runs.
Import stt_helpers.
Context (E : env).

Lemma documents_written_app path evs1 evs2 :
  documents_written path (evs1 ++ evs2) =
  documents_written path evs1 ++ documents_written path evs2.
Proof. apply omap_app. Qed.

Lemma texts_written_app evs1 evs2 :
  texts_written (evs1 ++ evs2) = texts_written evs1 ++ texts_written evs2.
Proof. apply omap_app. Qed.

Lemma documents_written_quiet path evs :
  Forall (fun e => is_write e = false) evs -> documents_written path evs = [].
Proof.
  induction 1 as [|e evs He _ IH]; [reflexivity|].
  unfold documents_written in *. cbn [omap list_omap]. rewrite IH.
  by destruct e.
Qed.

Lemma texts_written_quiet evs :
  Forall (fun e => is_write e = false) evs -> texts_written evs = [].
Proof.
  induction 1 as [|e evs He _ IH]; [reflexivity|].
  unfold texts_written in *. cbn [omap list_omap]. rewrite IH.
  by destruct e.
Qed.

Lemma documents_written_doc path d :
  documents_written path [EvWrite path (FJson (JDict d))] = [d].
Proof. unfold documents_written. cbn. by rewrite String.eqb_refl. Qed.

Lemma preserved_refl r : preserved r r.
Proof.
  intros k v Hk. destruct (String.eqb k "warnings"); [|exact Hk].
  intros l ->. exists []. by rewrite app_nil_r.
Qed.

Lemma preserved_from_agree K r r' :
  agree_outside K r r' -> warnings_grow r r' ->
  (forall k, k ∈ K -> k <> "warnings" -> r !! k = None) ->
  preserved r r'.
Proof.
  intros Hag Hgrow Hfresh k v Hk.
  destruct (String.eqb_spec k "warnings") as [-> | Hne].
  - intros l ->. by apply Hgrow.
  - destruct (decide (k ∈ K)) as [Hin | Hout].
    + rewrite (Hfresh k Hin Hne) in Hk. discriminate.
    + by rewrite Hag.
Qed.

Lemma preserved_trans r1 r2 r3 : preserved r1 r2 -> preserved r2 r3 -> preserved r1 r3.
Proof.
  intros H12 H23 k v Hk. specialize (H12 k v Hk).
  destruct (String.eqb k "warnings") eqn:Hw.
  - intros l ->. destruct (H12 l eq_refl) as [l1 H1].
    specialize (H23 k _ H1). rewrite Hw in H23.
    destruct (H23 _ eq_refl) as [l2 H2]. exists (l1 ++ l2). by rewrite app_assoc.
  - specialize (H23 k v H12). by rewrite Hw in H23.
Qed.

Lemma chain_nil : chain [].
Proof. intros i j d1 d2 _ H. by rewrite lookup_nil in H. Qed.

Lemma chain_one d : chain [d].
Proof.
  intros i j d1 d2 Hij _ H. destruct j as [|j]; [lia|]. by rewrite lookup_cons, lookup_nil in H.
Qed.

Lemma chain_two d d' : preserved d d' -> chain [d; d'].
Proof.
  intros Hp i j d1 d2 Hij H1 H2.
  destruct i as [|[|i]], j as [|[|j]]; try lia; cbn in H1, H2; try discriminate.
  by simplify_eq.
Qed.

Lemma chain_snoc docs d :
  chain docs -> Forall (fun d0 => preserved d0 d) docs -> chain (docs ++ [d]).
Proof.
  intros Hc Hall i j d1 d2 Hij H1 H2.
  destruct (decide (j < length docs)%nat) as [Hj | Hj].
  - rewrite lookup_app_l in H1, H2 by lia. exact (Hc i j d1 d2 Hij H1 H2).
  - assert (i < length docs)%nat as Hi.
    { apply lookup_lt_Some in H2. rewrite length_app in H2. cbn in H2. lia. }
    rewrite lookup_app_l in H1 by lia.
    rewrite lookup_app_r in H2 by lia.
    destruct (j - length docs)%nat eqn:Hd; cbn in H2; [|discriminate].
    simplify_eq. rewrite Forall_forall in Hall. apply Hall.
    by eapply list_elem_of_lookup_2.
Qed.

Lemma dump_json_run path v w :
  dump_json E path v w =
    match open_w E (opens w) with
    | Some e => (Raise e, World (fs w) (S (opens w)) (ticks w) (events w) (result w))
    | None => (Return tt,
               World (<[path := FJson v]> (fs w)) (S (opens w)) (ticks w)
                     (events w ++ [EvWrite path (FJson v)]) (result w))
    end.
Proof. reflexivity. Qed.

(** The run of [checkpoints] from a record that has none of the fields the
    later stages add. *)
Lemma checkpoints_spec trace_id english w :
  warnings_ok (result w) -> unfinished (result w) ->
  result w !! "text_file" = None -> result w !! "agent_raw" = None ->
  result w !! "nlu" = None -> result w !! "weather" = None ->
  exists res w' evs,
    checkpoints E trace_id english w = (res, w') /\
    events w' = events w ++ evs /\
    chain (documents_written (stt_sidecar_path E trace_id) evs) /\
    Forall unfinished (documents_written (stt_sidecar_path E trace_id) evs) /\
    forall r, res = Return r ->
      r = result w' /\
      documents_written (stt_sidecar_path E trace_id) evs = [result w; r] /\
      preserved (result w) r /\ unfinished r /\ warnings_ok r /\
      agree_outside ["text_file"; "warnings"; "agent_raw"; "nlu"; "weather"] (result w) r /\
      warnings_grow (result w) r /\
      is_Some (r !! "agent_raw") /\ is_Some (r !! "nlu") /\ is_Some (r !! "weather") /\
      r !! "text_file" = Some (JStr (text_path E trace_id)) /\
      (forall s, (if truthy english then english else JStr "") = JStr s ->
                 texts_written evs = [(text_path E trace_id, s)]) /\
      (forall q, text_for_agent (result w) = JStr q ->
                 calls_to "nlu_parser_travel" evs = [JStr q]).
Proof.
  intros Hok Hunf Htf Har Hnlu Hweather.
  set (path := stt_sidecar_path E trace_id).
  set (content := if truthy english then english else JStr "").
  assert (Hdoc : forall d, documents_written path [EvWrite path (FJson (JDict d))] = [d])
    by apply documents_written_doc.
  (* what a run that raises after the first checkpoint leaves *)
  assert (Hpartial : forall e w' evs,
    events w' = events w ++ EvWrite path (FJson (JDict (result w))) :: evs ->
    documents_written path evs = [] ->
    exists res w'' evs',
      (@Raise (gmap string json) e, w') = (res, w'') /\
      events w'' = events w ++ evs' /\
      chain (documents_written path evs') /\
      Forall unfinished (documents_written path evs') /\
      forall r, res = Return r ->
        r = result w'' /\
        documents_written path evs' = [result w; r] /\
        preserved (result w) r /\ unfinished r /\ warnings_ok r /\
        agree_outside ["text_file"; "warnings"; "agent_raw"; "nlu"; "weather"] (result w) r /\
        warnings_grow (result w) r /\
        is_Some (r !! "agent_raw") /\ is_Some (r !! "nlu") /\ is_Some (r !! "weather") /\
        r !! "text_file" = Some (JStr (text_path E trace_id)) /\
        (forall s, content = JStr s -> texts_written evs' = [(text_path E trace_id, s)]) /\
        (forall q, text_for_agent (result w) = JStr q ->
                   calls_to "nlu_parser_travel" evs' = [JStr q])).
  { intros e w' evs Hev Hnone.
    exists (Raise e), w', (EvWrite path (FJson (JDict (result w))) :: evs).
    split; [reflexivity|]. split; [exact Hev|].
    change (EvWrite path (FJson (JDict (result w))) :: evs)
      with ([EvWrite path (FJson (JDict (result w)))] ++ evs).
    rewrite documents_written_app, Hdoc, Hnone. cbn [app].
    split; [apply chain_one|]. split; [constructor; [exact Hunf | constructor] | discriminate]. }
  unfold checkpoints. fold path. fold content.
  unfold bind at 1. unfold the_result at 1.
  unfold bind at 1. rewrite dump_json_run.
  destruct (open_w E (opens w)) as [e1|] eqn:Hopen1.
  { exists (Raise e1), (World (fs w) (S (opens w)) (ticks w) (events w) (result w)), [].
    split; [reflexivity|]. split; [by rewrite app_nil_r|].
    split; [apply chain_nil|]. split; [constructor | discriminate]. }
  unfold bind at 1. unfold write_text.
  destruct content as [| | | |s| |] eqn:Hcontent;
    try (unfold bind at 1; unfold write_file at 1; cbn [opens];
         destruct (open_w E (S (opens w)));
         [ eapply Hpartial with (evs := []); [reflexivity | reflexivity]
         | unfold raise; eapply Hpartial with (evs := [_]);
           [cbn; by rewrite <- app_assoc | reflexivity] ]).
  unfold write_file at 1. cbn [opens].
  destruct (open_w E (S (opens w))) as [e2|] eqn:Hopen2.
  { eapply Hpartial with (evs := []); [reflexivity | reflexivity]. }
  unfold bind at 1. unfold set_result at 1. unfold bind at 1.
  cbn [fs opens ticks events result].
  set (w3 := World _ _ _ _ _).
  destruct (agent_step_spec E w3) as
    (w4 & evs_a & -> & Hf4 & Ho4 & Hev4 & Hq4 & Hcalls & Hag4 & Hgrow4 & Hok4 & Hs1 & Hs2 & Hs3).
  { apply warnings_ok_insert; [discriminate | exact Hok]. }
  unfold bind at 1. unfold the_result at 1.
  unfold bind at 1. rewrite dump_json_run.
  assert (Hdocs_a : documents_written path evs_a = [])
    by (by apply documents_written_quiet).
  assert (Hev4' : events w4 =
            events w ++ EvWrite path (FJson (JDict (result w))) ::
              (EvWrite (text_path E trace_id) (FText s) :: evs_a)).
  { rewrite Hev4. unfold w3. cbn [events]. by rewrite <- !app_assoc. }
  destruct (open_w E (opens w4)) as [e3|] eqn:Hopen3.
  { eapply Hpartial; [exact Hev4'|].
    change (EvWrite (text_path E trace_id) (FText s) :: evs_a)
      with ([EvWrite (text_path E trace_id) (FText s)] ++ evs_a).
    by rewrite documents_written_app, Hdocs_a. }
  unfold the_result.
  assert (Hagree : agree_outside ["text_file"; "warnings"; "agent_raw"; "nlu"; "weather"]
                     (result w) (result w4)).
  { intros k Hk. rewrite Hag4.
    - unfold w3. cbn [result]. apply lookup_insert_ne. intros <-. apply Hk. repeat constructor.
    - intros Hin. apply Hk. by constructor. }
  assert (Hgrow : warnings_grow (result w) (result w4)).
  { eapply warnings_grow_trans; [|exact Hgrow4].
    unfold w3. cbn [result]. by apply warnings_grow_insert. }
  assert (Hpres : preserved (result w) (result w4)).
  { eapply preserved_from_agree; [exact Hagree | exact Hgrow |].
    intros k Hk Hne.
    repeat (apply elem_of_cons in Hk as [-> | Hk]); try assumption; try congruence.
    by apply elem_of_nil in Hk. }
  assert (Hunf4 : unfinished (result w4)).
  { destruct Hunf as [Hst Hresp]. split.
    - rewrite Hagree; [exact Hst|]. intros Hin.
      repeat (apply elem_of_cons in Hin as [Hin | Hin]; [discriminate|]).
      by apply elem_of_nil in Hin.
    - rewrite Hagree; [exact Hresp|]. intros Hin.
      repeat (apply elem_of_cons in Hin as [Hin | Hin]; [discriminate|]).
      by apply elem_of_nil in Hin. }
  eexists _, _, (EvWrite path (FJson (JDict (result w))) ::
                 EvWrite (text_path E trace_id) (FText s) ::
                 evs_a ++ [EvWrite path (FJson (JDict (result w4)))]).
  split; [reflexivity|]. cbn [events result].
  assert (Hdocs : documents_written path
            (EvWrite path (FJson (JDict (result w))) ::
             EvWrite (text_path E trace_id) (FText s) ::
             evs_a ++ [EvWrite path (FJson (JDict (result w4)))]) =
          [result w; result w4]).
  { change (EvWrite path (FJson (JDict (result w))) ::
            EvWrite (text_path E trace_id) (FText s) ::
            evs_a ++ [EvWrite path (FJson (JDict (result w4)))])
      with ([EvWrite path (FJson (JDict (result w)))] ++
            [EvWrite (text_path E trace_id) (FText s)] ++
            evs_a ++ [EvWrite path (FJson (JDict (result w4)))]).
    rewrite !documents_written_app, !Hdoc, Hdocs_a. reflexivity. }
  rewrite Hdocs.
  split. { rewrite Hev4'. by rewrite <- !app_assoc. }
  split; [by apply chain_two|].
  split; [constructor; [exact Hunf | constructor; [exact Hunf4 | constructor]]|].
  intros r [= <-].
  split_and!; try assumption; try reflexivity.
  - rewrite Hag4.
    + unfold w3. cbn [result]. apply lookup_insert_eq.
    + intros Hin.
      repeat (apply elem_of_cons in Hin as [Hin | Hin]; [discriminate|]).
      by apply elem_of_nil in Hin.
  - intros s0 [= <-].
    change (EvWrite path (FJson (JDict (result w))) ::
            EvWrite (text_path E trace_id) (FText s) ::
            evs_a ++ [EvWrite path (FJson (JDict (result w4)))])
      with ([EvWrite path (FJson (JDict (result w))); EvWrite (text_path E trace_id) (FText s)] ++
            evs_a ++ [EvWrite path (FJson (JDict (result w4)))]).
    rewrite !texts_written_app, (texts_written_quiet evs_a Hq4). reflexivity.
  - intros q Hq.
    change (EvWrite path (FJson (JDict (result w))) ::
            EvWrite (text_path E trace_id) (FText s) ::
            evs_a ++ [EvWrite path (FJson (JDict (result w4)))])
      with ([EvWrite path (FJson (JDict (result w))); EvWrite (text_path E trace_id) (FText s)] ++
            evs_a ++ [EvWrite path (FJson (JDict (result w4)))]).
    rewrite !calls_to_app. rewrite (Hcalls q); [reflexivity|].
    unfold w3, text_for_agent. cbn [result].
    rewrite !lookup_insert_ne by discriminate. exact Hq.
Qed.

Lemma not_in_keys (k : string) (K : list string) :
  forallb (fun k' => negb (String.eqb k k')) K = true -> k ∉ K.
Proof.
  induction K as [|k' K IH]; cbn; [intros _; apply not_elem_of_nil|].
  intros [Hk HK]%andb_true_iff. apply not_elem_of_cons. split; [|by apply IH].
  intros ->. by rewrite String.eqb_refl in Hk.
Qed.

(** The run of [process_trace]: the documents it writes to the sidecar, and
    the record it returns. *)
Lemma process_trace_spec trace_id languages w :
  exists res w' evs,
    process_trace E trace_id languages w = (res, w') /\
    events w' = events w ++ evs /\
    chain (documents_written (stt_sidecar_path E trace_id) evs) /\
    Forall unfinished (documents_written (stt_sidecar_path E trace_id) evs) /\
    forall r, res = Return r ->
      r = result w' /\ unfinished r /\ warnings_ok r /\
      Forall (fun d => preserved d r) (documents_written (stt_sidecar_path E trace_id) evs) /\
      last (documents_written (stt_sidecar_path E trace_id) evs) = Some r /\
      is_Some (r !! "agent_raw") /\ is_Some (r !! "nlu") /\ is_Some (r !! "weather") /\
      is_Some (r !! "text_en") /\
      exists text det,
        r !! "text" = Some (JStr text) /\
        r !! "detected_language" = Some det /\
        if truthy (JStr text) && is_ja (py_or det (JStr "")) then
          match translation E (JStr text) with
          | Return tr => r !! "text_en" = Some tr
          | Raise e =>
              r !! "text_en" = Some JNull /\
              (exists rest, r !! "warnings" =
                 Some (JList (JStr ("translation_failed:" +:+ exn_msg e) :: rest))) /\
              texts_written evs = [(text_path E trace_id, text)] /\
              calls_to "nlu_parser_travel" evs = [JStr text]
          end
        else r !! "text_en" = Some (JStr text).
Proof.
  set (path := stt_sidecar_path E trace_id).
  assert (Hearly : forall (e : exn) w' evs,
    events w' = events w ++ evs -> Forall service_event evs ->
    exists res w'' evs',
      (@Raise (gmap string json) e, w') = (res, w'') /\
      events w'' = events w ++ evs' /\
      chain (documents_written path evs') /\
      Forall unfinished (documents_written path evs') /\
      forall r, res = Return r -> False).
  { intros e w' evs Hev Hevs. exists (Raise e), w', evs.
    split; [reflexivity|]. split; [exact Hev|].
    rewrite (documents_written_quiet path evs) by (by apply service_not_write).
    split; [apply chain_nil|]. split; [constructor | discriminate]. }
  assert (Hearly' : forall (e : exn) w' evs,
    events w' = events w ++ evs -> Forall service_event evs ->
    exists res w'' evs',
      (@Raise (gmap string json) e, w') = (res, w'') /\
      events w'' = events w ++ evs' /\
      chain (documents_written path evs') /\
      Forall unfinished (documents_written path evs') /\
      forall r, res = Return r ->
        r = result w'' /\ unfinished r /\ warnings_ok r /\
        Forall (fun d => preserved d r) (documents_written path evs') /\
        last (documents_written path evs') = Some r /\
        is_Some (r !! "agent_raw") /\ is_Some (r !! "nlu") /\ is_Some (r !! "weather") /\
        is_Some (r !! "text_en") /\
        exists text det,
          r !! "text" = Some (JStr text) /\
          r !! "detected_language" = Some det /\
          if truthy (JStr text) && is_ja (py_or det (JStr "")) then
            match translation E (JStr text) with
            | Return tr => r !! "text_en" = Some tr
            | Raise e =>
                r !! "text_en" = Some JNull /\
                (exists rest, r !! "warnings" =
                   Some (JList (JStr ("translation_failed:" +:+ exn_msg e) :: rest))) /\
                texts_written evs' = [(text_path E trace_id, text)] /\
                calls_to "nlu_parser_travel" evs' = [JStr text]
            end
          else r !! "text_en" = Some (JStr text)).
  { intros e w' evs Hev Hevs.
    destruct (Hearly e w' evs Hev Hevs) as (res & w'' & evs' & H1 & H2 & H3 & H4 & H5).
    exists res, w'', evs'. split_and!; try assumption.
    intros r Hr. destruct (H5 r Hr). }
  unfold process_trace. unfold bind at 1. unfold path_exists at 1.
  destruct (bool_decide _); cbn [negb].
  2:{ unfold raise. apply (Hearly' _ w []); [by rewrite app_nil_r | constructor]. }
  unfold bind at 1.
  pose proof (only_adds_transcribe E
                (path_join (UPLOAD_DIR E) (trace_id +:+ ".wav")) languages w) as Hstt.
  destruct (transcribe_with_azure E _ languages w) as [[stt|e] w1] eqn:Hrun; cbn in Hstt;
    destruct (adds_world _ _ _ Hstt) as (t1 & evs1 & -> & Hevs1).
  2:{ by apply (Hearly' _ _ evs1). }
  destruct (transcribe_dict E _ _ _ _ _ Hrun) as (text & conf & det & ->).
  unfold bind at 1. rewrite start_result_run. cbn [fs opens ticks events result].
  set (r0 := first_record trace_id (JStr text) conf (JStr "azure-speech") det _).
  set (w2 := World _ _ _ _ r0).
  destruct (translate_step_spec E w2 eq_refl)
    as (res3 & w3 & evs3 & Htr & Hf3 & Ho3 & Hev3 & Hevs3 & Hag3 & Hok3 & Hcase).
  unfold bind at 1. rewrite Htr.
  assert (Hev3' : events w3 = events w ++ (evs1 ++ evs3)).
  { rewrite Hev3. unfold w2. cbn [events]. by rewrite app_assoc. }
  assert (Hsvc : Forall service_event (evs1 ++ evs3)) by (by apply Forall_app).
  destruct res3 as [english|e].
  2:{ by apply (Hearly' _ _ (evs1 ++ evs3)). }
  specialize (Hcase english eq_refl).
  assert (Hr3 : forall k, forallb (fun k' => negb (String.eqb k k')) ["text_en"; "warnings"] = true ->
                          result w3 !! k = r0 !! k).
  { intros k Hk. apply Hag3. by apply not_in_keys. }
  destruct (checkpoints_spec trace_id english w3)
    as (res & w' & evs & Hcp & Hev & Hchain & Hunfd & Hret).
  { exact Hok3. }
  { split; by rewrite Hr3. }
  { by rewrite Hr3. } { by rewrite Hr3. } { by rewrite Hr3. } { by rewrite Hr3. }
  rewrite Hcp. exists res, w', ((evs1 ++ evs3) ++ evs).
  split; [reflexivity|]. split; [by rewrite Hev, Hev3', <- !app_assoc|].
  fold path in Hchain, Hunfd, Hret.
  rewrite documents_written_app,
    (documents_written_quiet path (evs1 ++ evs3)) by (by apply service_not_write).
  cbn [app].
  split; [exact Hchain|]. split; [exact Hunfd|].
  intros r Hr.
  destruct (Hret r Hr) as (Hres & Hdocs & Hpres & Hunf & Hokr & Hagr & Hgrow & Ha1 & Ha2 & Ha3 &
                           Htf & Htexts & Hcalls).
  assert (Hr4 : forall k,
    forallb (fun k' => negb (String.eqb k k'))
      ["text_file"; "warnings"; "agent_raw"; "nlu"; "weather"] = true ->
    r !! k = result w3 !! k).
  { intros k Hk. apply Hagr. by apply not_in_keys. }
  assert (Htext : result w3 !! "text" = Some (JStr text)) by (by rewrite Hr3).
  assert (Hdet : result w3 !! "detected_language" = Some det) by (by rewrite Hr3).
  rewrite Hdocs.
  split; [exact Hres|]. split; [exact Hunf|]. split; [exact Hokr|].
  split; [constructor; [exact Hpres | constructor; [apply preserved_refl | constructor]]|].
  split; [reflexivity|].
  split; [exact Ha1|]. split; [exact Ha2|]. split; [exact Ha3|].
  change (default JNull (result w2 !! "text")) with (JStr text) in Hcase.
  change (default JNull (result w2 !! "detected_language")) with det in Hcase.
  split.
  { rewrite Hr4 by reflexivity.
    destruct (truthy (JStr text) && is_ja (py_or det (JStr ""))).
    - destruct (translation E (JStr text)); destruct Hcase as (_ & -> & _); eauto.
    - destruct Hcase as (_ & -> & _); eauto. }
  exists text, det.
  split; [by rewrite Hr4|]. split; [by rewrite Hr4|].
  destruct (truthy (JStr text) && is_ja (py_or det (JStr ""))) eqn:Hja.
  - destruct (translation E (JStr text)) as [tr|e].
    + destruct Hcase as (_ & Hen & _). by rewrite Hr4.
    + destruct Hcase as (-> & Hen & Hwarn).
      apply andb_true_iff in Hja as [Htruthy _].
      split; [by rewrite Hr4|].
      split.
      { destruct (Hgrow _ Hwarn) as [l' Hl']. exists l'. exact Hl'. }
      split.
      * rewrite texts_written_app.
        rewrite (texts_written_quiet (evs1 ++ evs3)) by (by apply service_not_write).
        apply Htexts. by rewrite Htruthy.
      * rewrite calls_to_app, (calls_to_service (evs1 ++ evs3) Hsvc).
        apply Hcalls. unfold text_for_agent, py_or.
        rewrite Hen, Htext. cbn in Htruthy |- *. by rewrite Htruthy.
  - destruct Hcase as (_ & Hen & _). by rewrite Hr4.
Qed.

End process_trace_runs.

(** ** The Background Completion Wrapper *)

Section wrapper_blocks.
Import stt_helpers.
Context (E : env).

Lemma grown_refl r : grown r r.
Proof. split; [apply agree_outside_refl | apply warnings_grow_refl]. Qed.

Lemma grown_trans r1 r2 r3 : grown r1 r2 -> grown r2 r3 -> grown r1 r3.
Proof.
  intros [H1 G1] [H2 G2]. split.
  - by eapply agree_outside_trans.
  - by eapply warnings_grow_trans.
Qed.

Lemma grown_insert r k v :
  k = "response" \/ k = "status" -> grown r (<[k := v]> r).
Proof.
  intros Hk. split.
  - apply agree_outside_insert. destruct Hk as [-> | ->]; repeat constructor.
  - apply warnings_grow_insert. destruct Hk as [-> | ->]; discriminate.
Qed.

Lemma grown_append r note :
  grown r (<["warnings" := JList (warnings_of r ++ [note])]> r).
Proof.
  split; [apply agree_outside_insert; repeat constructor | apply warnings_grow_append].
Qed.

Lemma preserved_grown d r r' :
  preserved d r -> unfinished d -> grown r r' -> preserved d r'.
Proof.
  intros Hp [Hst Hresp] [Hag Hgrow] k v Hk. specialize (Hp k v Hk).
  destruct (String.eqb_spec k "warnings") as [-> | Hne].
  - intros l ->. destruct (Hp l eq_refl) as [l1 H1]. destruct (Hgrow _ H1) as [l2 H2].
    exists (l1 ++ l2). by rewrite app_assoc.
  - rewrite Hag; [exact Hp|].
    intros Hin. repeat (apply elem_of_cons in Hin as [-> | Hin]); try congruence.
    by apply elem_of_nil in Hin.
Qed.

Lemma pipeline_failed_spec trace_id e w :
  exists res w' evs,
    pipeline_failed E trace_id e w = (res, w') /\
    events w' = events w ++ evs /\
    result w' = result w /\
    (documents_written (stt_sidecar_path E trace_id) evs = [] \/
     exists t, documents_written (stt_sidecar_path E trace_id) evs =
                 [failed_record trace_id e t]).
Proof.
  unfold pipeline_failed, bind, now. rewrite dump_json_run. cbn [opens].
  destruct (open_w E (opens w)).
  - eexists _, _, []. split; [reflexivity|]. cbn. rewrite app_nil_r. auto.
  - eexists _, _, [_]. split; [reflexivity|]. cbn [events result].
    split; [reflexivity|]. split; [reflexivity|].
    right. eexists. apply documents_written_doc.
Qed.

Lemma chatbot_failed_spec trace_id e w :
  warnings_ok (result w) ->
  exists res w' evs,
    chatbot_failed E trace_id e w = (res, w') /\
    events w' = events w ++ evs /\
    result w' = chatbot_failed_record (result w) e /\
    ((res = Return tt /\ open_w E (opens w) = None /\
      fs w' !! stt_sidecar_path E trace_id = Some (FJson (JDict (result w'))) /\
      documents_written (stt_sidecar_path E trace_id) evs = [result w']) \/
     (exists io, res = Raise io /\ open_w E (opens w) = Some io /\
                 documents_written (stt_sidecar_path E trace_id) evs = [])).
Proof.
  intros Hok. unfold chatbot_failed. unfold bind at 1.
  rewrite append_warning_ok by exact Hok.
  unfold bind at 1. unfold set_result at 1. unfold bind at 1. unfold the_result.
  rewrite dump_json_run. cbn [fs opens ticks events result].
  destruct (open_w E (opens w)) as [io|].
  - eexists _, _, []. split; [reflexivity|]. cbn. rewrite app_nil_r.
    split; [reflexivity|]. split; [reflexivity|]. right. eauto.
  - eexists _, _, [_]. split; [reflexivity|]. cbn [events result fs].
    split; [reflexivity|]. split; [reflexivity|]. left.
    split; [reflexivity|]. split; [reflexivity|].
    split; [apply lookup_insert_eq | apply documents_written_doc].
Qed.

Lemma grown_chatbot_failed_record r e : grown r (chatbot_failed_record r e).
Proof.
  unfold chatbot_failed_record.
  eapply grown_trans; [apply grown_append | apply grown_insert; by right].
Qed.

Lemma warnings_ok_chatbot_failed_record r e : warnings_ok (chatbot_failed_record r e).
Proof.
  unfold chatbot_failed_record. apply warnings_ok_insert; [discriminate|].
  apply warnings_ok_set.
Qed.

(** The response step: it changes [result] only by growing it, and writes
    one document, the record itself, when it returns. *)
Lemma respond_spec trace_id w :
  unfinished (result w) -> warnings_ok (result w) ->
  exists res w' evs,
    respond E trace_id w = (res, w') /\
    events w' = events w ++ evs /\
    grown (result w) (result w') /\ warnings_ok (result w') /\
    ((res = Return tt /\
      documents_written (stt_sidecar_path E trace_id) evs = [result w']) \/
     (exists e, res = Raise e /\
                documents_written (stt_sidecar_path E trace_id) evs = [])).
Proof.
  intros [Hst Hresp] Hok. unfold respond. unfold bind at 1.
  pose proof (only_adds_generate E trace_id (stt_sidecar_path E trace_id)
                (chatbot.or_str (OPENAI_API_KEY E) (GOOGLE_API_KEY E)) w) as Hgen.
  destruct (chatbot.generate_travel_response E _ _ _ w) as [[bot_out|e] w1]; cbn in Hgen;
    destruct (adds_world _ _ _ Hgen) as (t1 & evs1 & -> & Hevs1).
  2:{ eexists _, _, evs1. split; [reflexivity|]. cbn [events result].
      split; [reflexivity|]. split; [apply grown_refl|]. split; [exact Hok|].
      right. eexists. split; [reflexivity|].
      apply documents_written_quiet. by apply service_not_write. }
  assert (Hquiet : documents_written (stt_sidecar_path E trace_id) evs1 = []).
  { apply documents_written_quiet. by apply service_not_write. }
  unfold bind at 1. unfold setdefault_response at 1. cbn [result]. rewrite Hresp.
  unfold set_result at 1. cbn [fs opens ticks events result].
  assert (Hg1 : grown (result w) (<["response" := JDict ∅]> (result w)))
    by (apply grown_insert; by left).
  assert (Hok1 : warnings_ok (<["response" := JDict ∅]> (result w)))
    by (by apply warnings_ok_insert).
  destruct bot_out as [| | | | | |d];
    try (eexists _, _, evs1; split; [reflexivity|]; cbn [events result];
         split; [reflexivity|]; split; [exact Hg1|]; split; [exact Hok1|];
         right; eexists; split; [reflexivity | exact Hquiet]).
  unfold bind at 1. unfold lift at 1. cbn [get get_default].
  unfold bind at 1. unfold lift at 1.
  unfold bind at 1. unfold lift at 1.
  unfold bind at 1. unfold lift at 1.
  unfold bind at 1. unfold lift at 1.
  unfold bind at 1. unfold update_response at 1. cbn [result].
  rewrite lookup_insert_eq. unfold set_result at 1. cbn [fs opens ticks events result].
  unfold bind at 1. unfold set_result at 1. cbn [fs opens ticks events result].
  unfold bind at 1. unfold the_result at 1.
  rewrite dump_json_run. cbn [fs opens ticks events result].
  set (r3 := <["status" := JStr "done"]> (<["response" := _]> (<["response" := _]> (result w)))).
  assert (Hg3 : grown (result w) r3).
  { unfold r3. eapply grown_trans; [exact Hg1|].
    eapply grown_trans; apply grown_insert; auto. }
  assert (Hok3 : warnings_ok r3).
  { unfold r3. repeat (apply warnings_ok_insert; [discriminate|]). exact Hok. }
  destruct (open_w E (opens w)) as [io|].
  - eexists _, _, evs1. split; [reflexivity|]. cbn [events result].
    split; [reflexivity|]. split; [exact Hg3|]. split; [exact Hok3|].
    right. eexists. split; [reflexivity | exact Hquiet].
  - eexists _, _, (evs1 ++ [_]). split; [reflexivity|]. cbn [events result].
    split; [by rewrite <- app_assoc|]. split; [exact Hg3|]. split; [exact Hok3|].
    left. split; [reflexivity|].
    rewrite documents_written_app, Hquiet. apply documents_written_doc.
Qed.

End wrapper_blocks.

(** ** Requests to the translator *)

Section logs.
Context (E : env).

Lemma only_logs_adds {A} P (m : M A) : only_adds P m -> only_logs P m.
Proof. intros H w. destruct (H w) as (_ & _ & _ & evs & He & HP). eauto. Qed.

Lemma only_logs_same {A} P (m : M A) :
  (forall w, events (m w).2 = events w) -> only_logs P m.
Proof. intros H w. exists []. rewrite app_nil_r. split; [apply H | constructor]. Qed.

Lemma only_logs_bind {A B} P (m : M A) (k : A -> M B) :
  only_logs P m -> (forall a, only_logs P (k a)) -> only_logs P (bind m k).
Proof.
  intros Hm Hk w. unfold bind. destruct (Hm w) as (evs & He & HP).
  destruct (m w) as [[a|e] w1]; cbn in He; [|eauto].
  destruct (Hk a w1) as (evs' & He' & HP').
  exists (evs ++ evs'). split; [by rewrite He', He, app_assoc | by apply Forall_app].
Qed.

Lemma only_logs_try {A} P (m : M A) (h : exn -> M A) :
  only_logs P m -> (forall e, only_logs P (h e)) -> only_logs P (try_except m h).
Proof.
  intros Hm Hh w. unfold try_except. destruct (Hm w) as (evs & He & HP).
  destruct (m w) as [[a|e] w1]; cbn in He; [eauto|].
  destruct (Hh e w1) as (evs' & He' & HP').
  exists (evs ++ evs'). split; [by rewrite He', He, app_assoc | by apply Forall_app].
Qed.

Lemma only_logs_write_file (P : event -> Prop) path content :
  P (EvWrite path content) -> only_logs P (write_file E path content).
Proof.
  intros HP w. unfold write_file. destruct (open_w E (opens w)).
  - exists []. by rewrite app_nil_r.
  - exists [EvWrite path content]. split; [reflexivity | by constructor].
Qed.

Lemma only_logs_append_warning P note : only_logs P (append_warning note).
Proof.
  apply only_logs_same. intros w. unfold append_warning.
  by destruct (result w !! "warnings") as [[]|].
Qed.

Lemma no_post_filter evs : Forall no_post evs -> List.filter is_post evs = [].
Proof.
  induction 1 as [|e evs He _ IH]; [reflexivity|]. cbn. by rewrite He.
Qed.

End logs.

Ltac logging_with known :=
  repeat first
    [ known
    | apply only_logs_bind; [| intros ]
    | apply only_logs_try; [| intros ]
    | apply only_logs_append_warning
    | apply only_logs_write_file; reflexivity
    | apply only_logs_same; reflexivity ].

Ltac logging := logging_with fail.

Section translator_requests.
Import stt_helpers.
Context (E : env).

Lemma only_adds_agent_no_post query :
  only_adds no_post (weather_agent.travel_weather_agent E query).
Proof.
  unfold weather_agent.travel_weather_agent, weather_agent.nlu_parser_travel,
    weather_agent.extract_location, weather_agent.get_candidate_locations,
    weather_agent.fetch_weather.
  frame.
Qed.

Lemma only_logs_agent_step : only_logs no_post (agent_step E).
Proof.
  unfold agent_step. logging.
  - unfold call_agent. destruct (py_or _ _);
      try (apply only_logs_same; reflexivity).
    apply only_logs_adds, only_adds_agent_no_post.
  - unfold attach_agent_output. destruct a1; logging.
Qed.

Lemma only_logs_checkpoints trace_id english :
  only_logs no_post (checkpoints E trace_id english).
Proof.
  unfold checkpoints, dump_json. logging_with ltac:(apply only_logs_agent_step).
  unfold write_text. destruct (if truthy english then english else JStr ""); logging.
Qed.

(** The translation step sends nothing when the transcript is empty or the
    detected language is not Japanese. *)
Lemma translate_step_skips w english w' :
  translate_step E w = (Return english, w') ->
  truthy (default JNull (result w !! "text")) &&
    is_ja (py_or (default JNull (result w !! "detected_language")) (JStr "")) = false ->
  events w' = events w.
Proof.
  unfold translate_step. unfold bind at 1. unfold result_get at 1.
  unfold bind at 1. unfold result_get at 1.
  destruct (truthy (default JNull (result w !! "text"))); cbn [andb].
  2:{ unfold bind at 1. unfold ret at 1. by intros [= <- <-] _. }
  unfold bind at 1. unfold bind at 1. unfold lift at 1.
  destruct (py_or _ _) as [| | | |s| |]; cbn [str_lower is_ja]; try discriminate.
  unfold ret at 1. intros Hrun Hja. rewrite Hja in Hrun. by injection Hrun as <- <-.
Qed.

(** A run of the pipeline that returns sends nothing to the translator,
    unless the transcript is not empty and the detected language Japanese. *)
Lemma process_trace_posts trace_id languages w w' r :
  process_trace E trace_id languages w = (Return r, w') ->
  exists text det,
    r !! "text" = Some (JStr text) /\
    r !! "detected_language" = Some det /\
    (truthy (JStr text) && is_ja (py_or det (JStr "")) = false ->
     List.filter is_post (new_events w w') = []).
Proof.
  unfold process_trace. unfold bind at 1. unfold path_exists at 1.
  destruct (bool_decide _); cbn [negb]; [|discriminate].
  unfold bind at 1.
  assert (Hstt : only_adds no_post
            (transcribe_with_azure E (path_join (UPLOAD_DIR E) (trace_id +:+ ".wav"))
               languages))
    by (unfold transcribe_with_azure; frame).
  specialize (Hstt w).
  destruct (transcribe_with_azure E _ languages w) as [[stt|e] w1] eqn:Hrun;
    [|discriminate]. cbn in Hstt.
  destruct (adds_world _ _ _ Hstt) as (t1 & evs1 & -> & Hevs1).
  destruct (transcribe_dict E _ _ _ _ _ Hrun) as (text & conf & det & ->).
  unfold bind at 1. rewrite start_result_run. cbn [fs opens ticks events result].
  set (r0 := first_record trace_id (JStr text) conf (JStr "azure-speech") det _).
  set (w2 := World _ _ _ _ r0).
  destruct (translate_step_spec E w2 eq_refl)
    as (res3 & w3 & evs3 & Htr & Hf3 & Ho3 & Hev3 & Hevs3 & Hag3 & Hok3 & Hcase).
  unfold bind at 1. rewrite Htr.
  destruct res3 as [english|e]; [|discriminate].
  assert (Hr3 : forall k, forallb (fun k' => negb (String.eqb k k')) ["text_en"; "warnings"] = true ->
                          result w3 !! k = r0 !! k).
  { intros k Hk. apply Hag3. by apply not_in_keys. }
  destruct (checkpoints_spec E trace_id english w3)
    as (res & w4 & evs & Hcp & Hev & _ & _ & Hret).
  { exact Hok3. }
  { split; by rewrite Hr3. }
  { by rewrite Hr3. } { by rewrite Hr3. } { by rewrite Hr3. } { by rewrite Hr3. }
  rewrite Hcp. intros [= -> ->].
  destruct (Hret r eq_refl) as (_ & _ & _ & _ & _ & Hagr & _).
  assert (Hr4 : forall k,
    forallb (fun k' => negb (String.eqb k k'))
      ["text_file"; "warnings"; "agent_raw"; "nlu"; "weather"] = true ->
    r !! k = result w3 !! k).
  { intros k Hk. apply Hagr. by apply not_in_keys. }
  exists text, det.
  split; [by rewrite Hr4, Hr3|]. split; [by rewrite Hr4, Hr3|].
  intros Hskip.
  pose proof (translate_step_skips w2 english w3 Htr Hskip) as Hsame.
  destruct (only_logs_checkpoints trace_id english w3) as (evs4 & Hev4 & Hevs4).
  rewrite Hcp in Hev4. cbn in Hev4.
  assert (Hall : events w' = events w ++ (evs1 ++ evs4)).
  { rewrite Hev4, Hsame. unfold w2. cbn [events]. by rewrite app_assoc. }
  rewrite (new_events_app _ _ _ Hall).
  apply no_post_filter, Forall_app. by split.
Qed.

End translator_requests.

(** ** The handler of a failed response generation *)

Section wrapper_runs.
Import stt_helpers.
Context (E : env).


End wrapper_runs.

Section pipeline_claims.
Import stt_helpers.
Context (E : env).

(** C6, amended. When the pipeline returns its record: if the transcript is
    not empty and the detected language is Japanese, [text_en] is the
    translation; if the translation raises, [text_en] is null, the first
    warning is "translation_failed:" with the failure's text, and the stages
    downstream are run on the original transcript (it is the text written to
    the text file and the query the agent is called with). In every other
    case (the language is not Japanese, or the transcript is empty)
    [text_en] is the original transcript and the run has sent no request to
    the translator. *)
Theorem process_trace_translation (trace_id : string) (languages : list string)
    (w w' : world) (r : gmap string json) :
  process_trace E trace_id languages w = (Return r, w') ->
  exists text det,
    r !! "text" = Some (JStr text) /\
    r !! "detected_language" = Some det /\
    if negb (String.eqb text "") && is_ja (py_or det (JStr "")) then
      match translation E (JStr text) with
      | Return translated => r !! "text_en" = Some translated
      | Raise e =>
          r !! "text_en" = Some JNull /\
          (exists rest, r !! "warnings" =
             Some (JList (JStr ("translation_failed:" +:+ exn_msg e) :: rest))) /\
          texts_written (new_events w w') = [(text_path E trace_id, text)] /\
          calls_to "nlu_parser_travel" (new_events w w') = [JStr text]
      end
    else r !! "text_en" = Some (JStr text) /\
         List.filter is_post (new_events w w') = [].
Proof.
  intros Hrun.
  destruct (process_trace_spec E trace_id languages w)
    as (res & w1 & evs & Hp & Hev & _ & _ & Hret).
  rewrite Hrun in Hp. injection Hp as <- <-.
  destruct (Hret r eq_refl) as (_ & _ & _ & _ & _ & _ & _ & _ & _ & text & det & H1 & H2 & H3).
  destruct (process_trace_posts E trace_id languages w w' r Hrun)
    as (text' & det' & T1 & T2 & Hquiet).
  rewrite H1 in T1. injection T1 as <-. rewrite H2 in T2. injection T2 as <-.
  exists text, det. split; [exact H1|]. split; [exact H2|].
  change (negb (String.eqb text "")) with (truthy (JStr text)).
  destruct (truthy (JStr text) && is_ja (py_or det (JStr ""))).
  - rewrite (new_events_app _ _ _ Hev). exact H3.
  - split; [exact H3 | by apply Hquiet].
Qed.


(** The documents a run of the wrapper writes to the sidecar: a chain, with
    the record of a failed pipeline after it when that one is written. *)
Lemma background_documents (trace_id : string) (languages : list string) (w : world) :
  let w' := (background_process_trace E trace_id languages w).2 in
  let docs := documents_written (stt_sidecar_path E trace_id) (new_events w w') in
  exists kept, chain kept /\
    (docs = kept \/ exists e t, docs = kept ++ [failed_record trace_id e t]).
Proof.
  intros w' docs. subst docs w'.
  set (path := stt_sidecar_path E trace_id).
  assert (Hunfold : background_process_trace E trace_id languages w =
    match process_trace E trace_id languages w with
    | (Return _, w1) =>
        match try_except (respond E trace_id) (chatbot_failed E trace_id) w1 with
        | (Return a, w2) => (Return a, w2)
        | (Raise io, w2) => pipeline_failed E trace_id io w2
        end
    | (Raise e, w1) => pipeline_failed E trace_id e w1
    end).
  { unfold background_process_trace. unfold try_except at 1. unfold bind at 1.
    by destruct (process_trace E trace_id languages w) as [[] ?]. }
  rewrite Hunfold. clear Hunfold.
  destruct (process_trace_spec E trace_id languages w)
    as (res & w1 & evs1 & -> & Hev1 & Hchain & Hunfd & Hret).
  fold path in Hchain, Hunfd, Hret.
  (* the handler of a failed pipeline, run after the events [evs] *)
  assert (Hfailed : forall io w2 evs kept,
    events w2 = events w ++ evs -> documents_written path evs = kept -> chain kept ->
    exists kept', chain kept' /\
      (documents_written path (new_events w (pipeline_failed E trace_id io w2).2) = kept' \/
       exists e t, documents_written path (new_events w (pipeline_failed E trace_id io w2).2) =
                     kept' ++ [failed_record trace_id e t])).
  { intros io w2 evs kept Hev Hdocs Hkept.
    destruct (pipeline_failed_spec E trace_id io w2) as (res4 & w4 & evs4 & -> & Hev4 & _ & Hd4).
    fold path in Hd4. cbn [snd].
    assert (Hev' : events w4 = events w ++ evs ++ evs4) by (by rewrite Hev4, Hev, <- app_assoc).
    rewrite (new_events_app _ _ _ Hev'), documents_written_app, Hdocs.
    exists kept. split; [exact Hkept|].
    destruct Hd4 as [-> | [t ->]]; [left; apply app_nil_r | right; eauto]. }
  destruct res as [r|e].
  2:{ cbv beta iota. by apply (Hfailed e w1 evs1 _ Hev1 eq_refl). }
  destruct (Hret r eq_refl) as (Hr & Hunf & Hok & Hpres & _).
  destruct (respond_spec E trace_id w1) as (res2 & w2 & evs2 & Hresp & Hev2 & Hg2 & Hok2 & Hcase2).
  { by rewrite <- Hr. } { by rewrite <- Hr. }
  fold path in Hcase2. rewrite <- Hr in Hg2.
  assert (Hsnoc : forall r3, grown r r3 ->
            chain (documents_written path evs1 ++ [r3])).
  { intros r3 Hg. apply chain_snoc; [exact Hchain|].
    rewrite Forall_forall in Hpres, Hunfd. apply Forall_forall. intros d Hd.
    eapply preserved_grown; [by apply Hpres | by apply Hunfd | exact Hg]. }
  unfold try_except. rewrite Hresp.
  destruct Hcase2 as [(-> & Hd2) | (e & -> & Hd2)].
  - cbv beta iota. cbn [snd].
    assert (Hev : events w2 = events w ++ evs1 ++ evs2) by (by rewrite Hev2, Hev1, <- app_assoc).
    rewrite (new_events_app _ _ _ Hev), documents_written_app, Hd2.
    eexists. split; [by apply Hsnoc | by left].
  - destruct (chatbot_failed_spec E trace_id e w2 Hok2)
      as (res3 & w3 & evs3 & -> & Hev3 & Hres3 & Hcase3).
    fold path in Hcase3.
    assert (Hev : events w3 = events w ++ (evs1 ++ evs2) ++ evs3).
    { rewrite Hev3, Hev2, Hev1. by rewrite <- !app_assoc. }
    destruct Hcase3 as [(-> & _ & _ & Hd3) | (io & -> & _ & Hd3)].
    + cbv beta iota. cbn [snd].
      rewrite (new_events_app _ _ _ Hev), !documents_written_app, Hd2, Hd3, app_nil_r.
      eexists. split; [|by left]. apply Hsnoc.
      eapply grown_trans; [exact Hg2|]. rewrite Hres3. apply grown_chatbot_failed_record.
    + cbv beta iota. apply (Hfailed io w3 _ (documents_written path evs1) Hev); [|exact Hchain].
      by rewrite !documents_written_app, Hd2, Hd3, !app_nil_r.
Qed.

(** C1, amended. Among the documents a run of the background wrapper writes
    to the sidecar of its trace, every write keeps all the fields of the
    writes before it, each with its value, the list of warnings only growing
    at its end; the one exception is the record of a failed pipeline, which
    is the last write when there is one, and is the whole of
    [{trace_id, status: failed, error, processed_at}]. *)
Theorem sidecar_writes_keep_fields (trace_id : string) (languages : list string) (w : world) :
  let w' := (background_process_trace E trace_id languages w).2 in
  let docs := documents_written (stt_sidecar_path E trace_id) (new_events w w') in
  forall i j d1 d2,
    (i < j)%nat -> docs !! i = Some d1 -> docs !! j = Some d2 ->
    preserved d1 d2 \/
    (S j = length docs /\ exists e t, d2 = failed_record trace_id e t).
Proof.
  intros w' docs i j d1 d2 Hij H1 H2.
  destruct (background_documents trace_id languages w) as (kept & Hchain & Hdocs).
  fold w' in Hdocs. fold docs in Hdocs.
  destruct Hdocs as [Hd | (e & t & Hd)]; rewrite Hd in H1, H2 |- *.
  - left. exact (Hchain i j d1 d2 Hij H1 H2).
  - destruct (decide (j < length kept)%nat) as [Hj | Hj].
    + left. rewrite lookup_app_l in H1, H2 by lia. exact (Hchain i j d1 d2 Hij H1 H2).
    + right. pose proof (lookup_lt_Some _ _ _ H2) as Hlt.
      rewrite length_app in Hlt |- *. cbn [length] in Hlt |- *.
      assert (j = length kept) as -> by lia.
      split; [lia|]. rewrite lookup_app_r in H2 by lia.
      rewrite Nat.sub_diag in H2. cbn in H2. injection H2 as <-. eauto.
Qed.

End pipeline_claims.

(** ** Runs in concrete environments *)

(** C1, as the claim has it, fails on the failure write: the plain-text file
    cannot be opened after the first checkpoint, the pipeline raises, and the
    record the wrapper then writes has none of the fields of the first
    checkpoint but [trace_id] and [processed_at]. *)
Lemma failure_write_drops_fields :
  let w' := (stt_helpers.background_process_trace scenario.text_write_fails "t1"
               ["en-US"; "ja-JP"] scenario.uploaded).2 in
  let docs := documents_written
                (stt_helpers.stt_sidecar_path scenario.text_write_fails "t1")
                (new_events scenario.uploaded w') in
  (fun d : gmap string json => d !! "text") <$> docs =
    [Some (JStr "weather in Paris today"); None] /\
  (fun d : gmap string json => d !! "text_en") <$> docs =
    [Some (JStr "weather in Paris today"); None] /\
  (fun d : gmap string json => d !! "status") <$> docs = [None; Some (JStr "failed")].
Proof. cbv zeta. split; [|split]; vm_compute; reflexivity. Qed.

(** A run whose first two writes are the two checkpoints. *)
Lemma sidecar_writes_keep_fields_witness :
  let w' := (stt_helpers.background_process_trace scenario.happy "t1"
               ["en-US"; "ja-JP"] scenario.uploaded).2 in
  let docs := documents_written (stt_helpers.stt_sidecar_path scenario.happy "t1")
                (new_events scenario.uploaded w') in
  length docs = 3%nat /\
  preserved (default ∅ (docs !! 0%nat)) (default ∅ (docs !! 1%nat)).
Proof.
  cbv zeta.
  set (docs := documents_written _ _).
  assert (Hlen : length docs = 3%nat) by (vm_compute; reflexivity).
  assert (H1 : docs !! 0%nat = Some (default ∅ (docs !! 0%nat)))
    by (vm_compute; reflexivity).
  assert (H2 : docs !! 1%nat = Some (default ∅ (docs !! 1%nat)))
    by (vm_compute; reflexivity).
  split; [exact Hlen|].
  destruct (sidecar_writes_keep_fields scenario.happy "t1" ["en-US"; "ja-JP"]
              scenario.uploaded 0%nat 1%nat
              (default ∅ (docs !! 0%nat)) (default ∅ (docs !! 1%nat))
              (Nat.lt_0_succ 0) H1 H2)
    as [H | [Hlast _]]; [exact H|].
  fold docs in Hlast. rewrite Hlen in Hlast. discriminate Hlast.
Defined.



(** C6, as the claim has it, fails on an empty transcript: the recognizer
    detects Japanese, the translator would raise, and the pipeline neither
    calls it nor records a warning; [text_en] is the empty transcript, not
    null. *)
Lemma empty_japanese_transcript_not_translated :
  let run := stt_helpers.process_trace scenario.silent_japanese "t1"
               ["en-US"; "ja-JP"] scenario.uploaded in
  match run.1 with
  | Return r =>
      r !! "detected_language" = Some (JStr "ja-JP") /\
      r !! "text" = Some (JStr "") /\
      r !! "text_en" = Some (JStr "") /\
      r !! "warnings" = None
  | Raise _ => False
  end /\
  translation scenario.silent_japanese (JStr "") = Raise scenario.unauthorized /\
  List.filter (fun e => match e with EvPost _ _ _ => true | _ => false end)
              (events run.2) = [].
Proof.
  cbv zeta. split; [|split]; vm_compute; repeat split; reflexivity.
Qed.

(** A run on a Japanese transcript whose translation fails. *)
Lemma process_trace_translation_witness :
  let run := stt_helpers.process_trace scenario.translator_down "t1" ["en-US"; "ja-JP"]
               scenario.uploaded in
  run = (Return (returned ∅ run.1), run.2) /\
  returned ∅ run.1 !! "text_en" = Some JNull /\
  calls_to "nlu_parser_travel" (new_events scenario.uploaded run.2) =
    [JStr "pari no tenki"].
Proof.
  cbv zeta.
  set (run := stt_helpers.process_trace scenario.translator_down "t1" ["en-US"; "ja-JP"]
                scenario.uploaded).
  assert (Hp : run = (Return (returned ∅ run.1), run.2)) by (vm_compute; reflexivity).
  split; [exact Hp|].
  destruct (process_trace_translation scenario.translator_down "t1" ["en-US"; "ja-JP"]
              scenario.uploaded run.2 _ Hp) as (text & det & H1 & H2 & H3).
  vm_compute in H1. injection H1 as <-.
  vm_compute in H2. injection H2 as <-.
  change (negb ("pari no tenki" =? "")%string &&
          is_ja (py_or (JStr "ja-JP") (JStr ""))) with true in H3.
  change (translation scenario.translator_down (JStr "pari no tenki"))
    with (@Raise json scenario.unauthorized) in H3.
  destruct H3 as (H3 & _ & _ & H4).
  split; [exact H3 | exact H4].
Defined.

(** The two terminal conditions of the Weather Fetcher, on a null location
    and on a missing key. *)
Lemma fetch_weather_terminal_errors_witness :
  weather_agent.fetch_weather scenario.no_weather_key JNull scenario.uploaded =
    (Return (JDict {[ "error" := JStr "No location provided" ]}),
     entered "fetch_weather" JNull scenario.uploaded) /\
  weather_agent.fetch_weather scenario.no_weather_key (JStr "Paris") scenario.uploaded =
    (Return (JDict {[ "error" := JStr "OPENWEATHER_API_KEY not set" ]}),
     entered "fetch_weather" (JStr "Paris") scenario.uploaded).
Proof.
  split.
  - apply (proj1 (fetch_weather_terminal_errors scenario.no_weather_key JNull
                    scenario.uploaded)). by left.
  - apply (proj1 (proj2 (fetch_weather_terminal_errors scenario.no_weather_key
                           (JStr "Paris") scenario.uploaded)) "Paris");
      [reflexivity | discriminate | reflexivity].
Defined.

(** The context of a weather result for Paris, FR. *)
Lemma build_merged_context_location_witness :
  exists ctx,
    chatbot.build_merged_context (JDict ∅)
      (JDict {[ "location" := JStr " Paris"; "country" := JStr "FR" ]}) =
      Return (JDict ctx) /\
    ctx !! "location" = Some (JStr "Paris, FR").
Proof.
  destruct (build_merged_context_location ∅
              {[ "location" := JStr " Paris"; "country" := JStr "FR" ]} " Paris" "FR")
    as (ctx & Hrun & Hloc & _); try (vm_compute; reflexivity).
  exists ctx. split; [exact Hrun|]. rewrite Hloc. vm_compute. reflexivity.
Defined.

(** A query whose location the geocoding service confirms. *)
Lemma extract_location_validates_witness :
  weather_agent.extract_location scenario.happy "weather in Paris" scenario.uploaded =
    (Return (Some "Paris"),
     requested (EvGet weather_agent.geo_url
                  [("q", JStr "Paris"); ("limit", JInt 5); ("appid", JStr "weather-key")])
               scenario.uploaded).
Proof.
  destruct (extract_location_validates scenario.happy "weather in Paris" "Paris"
              scenario.uploaded eq_refl) as (r & Hrun & Hmatch & _);
    [discriminate|].
  vm_compute in Hmatch. destruct Hmatch as (_ & _ & _ & ->).
  exact Hrun.
Defined.

(** ** The stages of the Weather Fetcher *)

Section weather_fetcher_stages.
Import weather_agent.
Context (E : env).

Lemma fetch_weather_unfold (location : json) (w : world) :
  truthy location = true -> env_set (OPENWEATHER_API_KEY E) = true ->
  fetch_weather E location w =
    let asked := requested (EvGet geo_url (geo_params E location))
                   (entered "fetch_weather" location w) in
    match pbind (requests_get_json E geo_url (geo_params E location)) (fun geo_resp =>
            if negb (truthy geo_resp)
            then Return (inl (error_dict ("Location '" +:+ py_str E location +:+ "' not found")))
            else pbind (index0 geo_resp) (fun first =>
                 pbind (item first "lat") (fun lat =>
                 pbind (item first "lon") (fun lon => Return (inr (lat, lon))))))
    with
    | Raise e => (Return (error_dict ("geocoding_failed: " +:+ exn_msg e)), asked)
    | Return (inl result) => (Return result, asked)
    | Return (inr (lat, lon)) =>
        let asked2 := requested (EvGet weather_url (weather_params E lat lon)) asked in
        match requests_get_json E weather_url (weather_params E lat lon) with
        | Raise e => (Return (error_dict ("weather_fetch_failed: " +:+ exn_msg e)), asked2)
        | Return resp => (weather_report E resp, asked2)
        end
    end.
Proof.
  intros Hloc Hkey. unfold fetch_weather.
  unfold bind at 1. unfold emit at 1. rewrite Hloc, Hkey. cbn [negb].
  unfold bind at 1. unfold try_except at 1. unfold bind at 1.
  unfold requests_get at 1. unfold bind at 1. unfold emit at 1. unfold lift at 1.
  cbn [fs opens ticks events result].
  fold (geo_params E location).
  destruct (requests_get_json E geo_url (geo_params E location)) as [geo_resp|e];
    cbn [pbind]; [|reflexivity].
  destruct (truthy geo_resp); cbn [negb]; [|reflexivity].
  unfold bind at 1. unfold lift at 1.
  destruct (index0 geo_resp) as [first|e]; cbn [pbind]; [|reflexivity].
  unfold bind at 1. unfold lift at 1.
  destruct (item first "lat") as [lat|e]; cbn [pbind]; [|reflexivity].
  unfold bind at 1. unfold lift at 1.
  destruct (item first "lon") as [lon|e]; cbn [pbind]; [|reflexivity].
  unfold ret at 1. cbv beta iota.
  unfold bind at 1. unfold try_except at 1. unfold bind at 1.
  unfold requests_get at 1. unfold bind at 1. unfold emit at 1. unfold lift at 1.
  cbn [fs opens ticks events result].
  fold (weather_params E lat lon).
  destruct (requests_get_json E weather_url (weather_params E lat lon)) as [resp|e];
    reflexivity.
Qed.

(** X1. With a location and a key, a failure of the geocoding step is
    returned as an error dict, never raised, and only the geocoding request
    was sent: a request that raises gives "geocoding_failed:" with the
    failure's text, an empty answer gives "Location '<location>' not found",
    an answer that is a dict (the provider's error payload) gives
    "geocoding_failed: 0", and a first hit without [lat] or [lon] gives
    "geocoding_failed: '<key>'". *)
Theorem fetch_weather_geocoding_errors (location : json) (w : world) :
  truthy location = true -> env_set (OPENWEATHER_API_KEY E) = true ->
  let asked := requested (EvGet geo_url (geo_params E location))
                 (entered "fetch_weather" location w) in
  match requests_get_json E geo_url (geo_params E location) with
  | Raise e =>
      fetch_weather E location w =
        (Return (error_dict ("geocoding_failed: " +:+ exn_msg e)), asked)
  | Return geo_resp =>
      (truthy geo_resp = false ->
       fetch_weather E location w =
         (Return (error_dict ("Location '" +:+ py_str E location +:+ "' not found")),
          asked)) /\
      (forall d, geo_resp = JDict d -> truthy geo_resp = true ->
       fetch_weather E location w = (Return (error_dict "geocoding_failed: 0"), asked)) /\
      (forall g rest k, geo_resp = JList (JDict g :: rest) ->
       (k = "lat" \/ k = "lon" /\ is_Some (g !! "lat")) -> g !! k = None ->
       fetch_weather E location w =
         (Return (error_dict ("geocoding_failed: '" +:+ k +:+ "'")), asked))
  end.
Proof.
  intros Hloc Hkey asked. rewrite (fetch_weather_unfold location w Hloc Hkey).
  cbv zeta. fold asked.
  destruct (requests_get_json E geo_url (geo_params E location)) as [geo_resp|e];
    cbn [pbind]; [|reflexivity].
  split; [|split].
  - intros ->. reflexivity.
  - intros d -> ->. reflexivity.
  - intros g rest k -> Hk Hnone. cbn [truthy negb index0 pbind item].
    destruct Hk as [-> | [-> [lat Hlat]]].
    + rewrite Hnone. reflexivity.
    + rewrite Hlat, Hnone. reflexivity.
Qed.

(** X2. When the first geocoding hit has [lat] and [lon], the weather is
    asked for at these coordinates in metric units, after the geocoding
    request. A weather request that raises is returned as the error
    "weather_fetch_failed:" with the failure's text; an answer is turned into
    the report, and an answer that is not a dict makes [fetch_weather] raise:
    the report is built outside the [try]. *)
Theorem fetch_weather_weather_stage (location : json) (w : world)
    (g : gmap string json) (rest : list json) (lat lon : json) :
  truthy location = true -> env_set (OPENWEATHER_API_KEY E) = true ->
  requests_get_json E geo_url (geo_params E location) = Return (JList (JDict g :: rest)) ->
  g !! "lat" = Some lat -> g !! "lon" = Some lon ->
  let asked := requested (EvGet weather_url (weather_params E lat lon))
                 (requested (EvGet geo_url (geo_params E location))
                    (entered "fetch_weather" location w)) in
  fetch_weather E location w =
    (match requests_get_json E weather_url (weather_params E lat lon) with
     | Raise e => Return (error_dict ("weather_fetch_failed: " +:+ exn_msg e))
     | Return resp => weather_report E resp
     end, asked) /\
  (forall resp, requests_get_json E weather_url (weather_params E lat lon) = Return resp ->
     is_dict resp = false ->
     exists e, fetch_weather E location w = (Raise e, asked)).
Proof.
  intros Hloc Hkey Hgeo Hlat Hlon asked.
  rewrite (fetch_weather_unfold location w Hloc Hkey). cbv zeta.
  rewrite Hgeo. cbn [pbind truthy negb index0 item]. rewrite Hlat, Hlon. cbn [pbind].
  fold asked. split.
  - by destruct (requests_get_json E weather_url (weather_params E lat lon)).
  - intros resp -> Hnd. destruct resp; try discriminate; eexists; reflexivity.
Qed.

Lemma weather_report_dict (resp v : json) :
  weather_report E resp = Return v ->
  exists d, v = JDict d /\ d !! "raw" = Some resp /\ d !! "error" = None /\
            Forall (fun k => is_Some (d !! k)) report_fields.
Proof.
  unfold weather_report. intros H.
  repeat match type of H with
         | pbind ?r _ = Return _ => destruct r; cbn [pbind] in H; [|discriminate H]
         end.
  injection H as <-. unfold dict. cbn [foldr fst snd]. eexists. split; [reflexivity|].
  split; [by rewrite !lookup_insert_ne by discriminate; apply lookup_insert_eq|].
  split; [by rewrite !lookup_insert_ne by discriminate|].
  unfold report_fields, section_fields.
  repeat (constructor; [has_field|]). constructor.
Qed.

(** What [fetch_weather] returns is a dict. *)
Lemma fetch_weather_value (location v : json) (w w' : world) :
  fetch_weather E location w = (Return v, w') -> is_dict v = true.
Proof.
  destruct (truthy location) eqn:Hloc.
  2:{ unfold fetch_weather, bind, emit. rewrite Hloc. cbn. by intros [= <- _]. }
  destruct (env_set (OPENWEATHER_API_KEY E)) eqn:Hkey.
  2:{ unfold fetch_weather, bind, emit. rewrite Hloc, Hkey. cbn. by intros [= <- _]. }
  rewrite (fetch_weather_unfold location w Hloc Hkey). cbv zeta.
  destruct (pbind _ _) as [[err | [lat lon]] | e] eqn:Hgeo.
  - intros [= <- _]. revert Hgeo.
    destruct (requests_get_json E geo_url (geo_params E location)) as [geo_resp|];
      cbn [pbind]; [|discriminate].
    destruct (truthy geo_resp); cbn [negb]; [|by intros [= <-]].
    destruct (index0 geo_resp) as [first|]; cbn [pbind]; [|discriminate].
    destruct (item first "lat"); cbn [pbind]; [|discriminate].
    destruct (item first "lon"); cbn [pbind]; discriminate.
  - destruct (requests_get_json E weather_url (weather_params E lat lon)) as [resp|];
      [|by intros [= <- _]].
    intros [= Hrep _]. by destruct (weather_report_dict _ _ Hrep) as (d & -> & _).
  - by intros [= <- _].
Qed.

(** X3. Whatever [fetch_weather] returns is a dict: either an error dict,
    with the one key [error], or a report without [error] that has all
    fourteen fields and whose [raw] is the answer of the weather request. *)
Theorem fetch_weather_returns_dict (location v : json) (w w' : world) :
  fetch_weather E location w = (Return v, w') ->
  exists d, v = JDict d /\
    ((exists msg, d = {[ "error" := JStr msg ]}) \/
     (d !! "error" = None /\ Forall (fun k => is_Some (d !! k)) report_fields /\
      exists lat lon, requests_get_json E weather_url (weather_params E lat lon) =
                        Return (default JNull (d !! "raw")))).
Proof.
  destruct (truthy location) eqn:Hloc.
  2:{ unfold fetch_weather, bind, emit. rewrite Hloc. cbn. intros [= <- _].
      eexists. split; [reflexivity|]. left. eauto. }
  destruct (env_set (OPENWEATHER_API_KEY E)) eqn:Hkey.
  2:{ unfold fetch_weather, bind, emit. rewrite Hloc, Hkey. cbn. intros [= <- _].
      eexists. split; [reflexivity|]. left. eauto. }
  rewrite (fetch_weather_unfold location w Hloc Hkey). cbv zeta.
  destruct (requests_get_json E geo_url (geo_params E location)) as [geo_resp|e];
    cbn [pbind].
  2:{ intros [= <- _]. eexists. split; [reflexivity|]. left. eauto. }
  destruct (truthy geo_resp); cbn [negb].
  2:{ intros [= <- _]. eexists. split; [reflexivity|]. left. eauto. }
  destruct (index0 geo_resp) as [first|e]; cbn [pbind].
  2:{ intros [= <- _]. eexists. split; [reflexivity|]. left. eauto. }
  destruct (item first "lat") as [lat|e]; cbn [pbind].
  2:{ intros [= <- _]. eexists. split; [reflexivity|]. left. eauto. }
  destruct (item first "lon") as [lon|e]; cbn [pbind].
  2:{ intros [= <- _]. eexists. split; [reflexivity|]. left. eauto. }
  destruct (requests_get_json E weather_url (weather_params E lat lon)) as [resp|e] eqn:Hw.
  2:{ intros [= <- _]. eexists. split; [reflexivity|]. left. eauto. }
  intros [= Hrep _]. destruct (weather_report_dict _ _ Hrep) as (d & -> & Hraw & Herr & Hall).
  exists d. split; [reflexivity|]. right. split; [exact Herr|]. split; [exact Hall|].
  exists lat, lon. by rewrite Hraw.
Qed.


(** [fetch_weather] raises only from the report it builds of the provider's
    payload. *)
Lemma fetch_weather_raises (location : json) (w w' : world) (e : exn) :
  fetch_weather E location w = (Raise e, w') ->
  exists lat lon resp,
    requests_get_json E weather_url (weather_params E lat lon) = Return resp /\
    weather_report E resp = Raise e.
Proof.
  destruct (truthy location) eqn:Hloc.
  2:{ unfold fetch_weather, bind, emit. rewrite Hloc. cbn. discriminate. }
  destruct (env_set (OPENWEATHER_API_KEY E)) eqn:Hkey.
  2:{ unfold fetch_weather, bind, emit. rewrite Hloc, Hkey. cbn. discriminate. }
  rewrite (fetch_weather_unfold location w Hloc Hkey). cbv zeta.
  destruct (requests_get_json E geo_url (geo_params E location)) as [geo_resp|];
    cbn [pbind]; [|discriminate].
  destruct (truthy geo_resp); cbn [negb]; [|discriminate].
  destruct (index0 geo_resp) as [first|]; cbn [pbind]; [|discriminate].
  destruct (item first "lat") as [lat|]; cbn [pbind]; [|discriminate].
  destruct (item first "lon") as [lon|]; cbn [pbind]; [|discriminate].
  destruct (requests_get_json E weather_url (weather_params E lat lon)) as [resp|] eqn:Hw;
    [|discriminate].
  intros [= Hrep _]. by exists lat, lon, resp.
Qed.

(** X4. A payload that has none of the optional parts ([sys], [weather],
    [main], [wind], [rain], [clouds], [dt]) gives a report and does not
    raise: [location] is the payload's [name] (null when absent), [rain_1h]
    is 0, [timestamp] is null, every field read from a section is null, and
    [raw] is the payload. *)
Theorem weather_report_missing_sections (d : gmap string json) :
  Forall (fun k => d !! k = None) ["sys"; "weather"; "main"; "wind"; "rain"; "clouds"; "dt"] ->
  exists rep,
    weather_report E (JDict d) = Return (JDict rep) /\
    rep !! "location" = Some (default JNull (d !! "name")) /\
    rep !! "rain_1h" = Some (JInt 0) /\
    rep !! "timestamp" = Some JNull /\
    rep !! "raw" = Some (JDict d) /\
    Forall (fun k => rep !! k = Some JNull) section_fields.
Proof.
  intros H.
  apply Forall_cons in H as [Hsys H]. apply Forall_cons in H as [Hweather H].
  apply Forall_cons in H as [Hmain H]. apply Forall_cons in H as [Hwind H].
  apply Forall_cons in H as [Hrain H]. apply Forall_cons in H as [Hclouds H].
  apply Forall_cons in H as [Hdt _].
  unfold weather_report, get2, weather0, get, get_default.
  rewrite Hsys, Hweather, Hmain, Hwind, Hrain, Hclouds, Hdt.
  cbn [pbind default py_or truthy index0 get_default]. rewrite !lookup_empty.
  cbn [pbind default truthy]. unfold dict. cbn [foldr fst snd].
  eexists. split; [reflexivity|].
  split; [apply lookup_insert_eq|].
  split; [by rewrite !lookup_insert_ne by discriminate; apply lookup_insert_eq|].
  split; [by rewrite !lookup_insert_ne by discriminate; apply lookup_insert_eq|].
  split; [by rewrite !lookup_insert_ne by discriminate; apply lookup_insert_eq|].
  unfold section_fields.
  repeat (constructor;
          [by rewrite ?lookup_insert_ne by discriminate; apply lookup_insert_eq|]).
  constructor.
Qed.

Lemma get2_not_dict (d : gmap string json) (k k2 : string) (v : json) :
  d !! k = Some v -> is_dict v = false -> is_raise (get2 (JDict d) k k2) = true.
Proof.
  intros Hk Hv. unfold get2, get, get_default. rewrite Hk. cbn [default pbind].
  by destruct v.
Qed.

(** X5. A payload in which one of the sections [sys], [main], [wind],
    [clouds] is present but not a dict (null, for one) makes the report
    raise: the default of [resp.get(k, {})] only covers an absent key. *)
Theorem weather_report_section_not_dict (d : gmap string json) (k : string) (v : json) :
  k ∈ payload_sections -> d !! k = Some v -> is_dict v = false ->
  is_raise (weather_report E (JDict d)) = true.
Proof.
  intros Hk Hd Hv.
  assert (Hget : forall k2, is_raise (get2 (JDict d) k k2) = true)
    by (intros k2; by eapply get2_not_dict).
  unfold payload_sections in Hk. unfold weather_report.
  repeat match goal with
         | |- is_raise (pbind ?r _) = true =>
             let Heq := fresh "Heq" in
             destruct r eqn:Heq; cbn [pbind is_raise]; [|reflexivity]
         end.
  repeat (apply elem_of_cons in Hk as [-> | Hk]);
    try (by apply elem_of_nil in Hk);
    match goal with
    | Heq : get2 (JDict d) ?k ?k2 = Return _ |- _ =>
        specialize (Hget k2); rewrite Heq in Hget; discriminate Hget
    end.
Qed.

End weather_fetcher_stages.

(** ** Runs of the Entity Extractor and of the Travel Agent *)

Section entity_extractor_runs.
Import weather_agent.
Context (E : env).

(** X6. [extract_location] never raises. It returns [None] exactly when
    the recognizer and the pattern gave no location or an empty one, and then
    it sends no request; otherwise it sends exactly one request, the geocoding
    request for the raw location, and touches nothing else. *)
Theorem extract_location_requests (query : string) (w : world) :
  exists r evs,
    extract_location E query w =
      (Return r, World (fs w) (opens w) (ticks w) (events w ++ evs) (result w)) /\
    (r = None <-> nonempty (raw_location E query) = false) /\
    (nonempty (raw_location E query) = false -> evs = []) /\
    (forall loc, raw_location E query = Some loc -> loc <> "" ->
       evs = [EvGet geo_url (geocode_params E loc)]).
Proof.
  unfold extract_location.
  destruct (raw_location E query) as [loc|].
  2:{ exists None, []. rewrite app_nil_r. split; [by destruct w|].
      split; [done|]. split; [done|]. intros loc [=]. }
  destruct (nonempty (Some loc)) eqn:Hne.
  2:{ exists None, []. rewrite app_nil_r. split; [by destruct w|].
      split; [done|]. split; [done|]. intros loc' [= <-] Hloc.
      unfold nonempty in Hne. cbn in Hne.
      destruct (String.eqb_spec loc ""); [contradiction | discriminate]. }
  unfold bind. rewrite get_candidate_locations_run.
  assert (Hev : forall loc', Some loc = Some loc' -> loc' <> "" ->
            [EvGet geo_url (geocode_params E loc)] = [EvGet geo_url (geocode_params E loc')])
    by (by intros loc' [= <-]).
  destruct (candidates E loc) as [|c cs].
  - exists (Some loc), [EvGet geo_url (geocode_params E loc)]. split; [reflexivity|].
    split; [split; discriminate|]. split; [discriminate | exact Hev].
  - destruct (extractOne E loc (c :: cs) 70) as [best|]; eexists (Some _), [_];
      (split; [reflexivity|]); (split; [split; discriminate|]);
      (split; [discriminate | exact Hev]).
Qed.

(** X7. [nlu_parser_travel] never raises, whatever the services answer.
    Its result has the intent [get_weather_travel_advice], the theme
    [travel], the query as [original_query], the language [en] and, as
    [timestamp], the UTC time of the last clock reading of the call; it leaves
    the files and the record alone and writes nothing. *)
Theorem nlu_parser_travel_shape (query : string) (w : world) :
  exists nlu w' n,
    nlu_parser_travel E query w = (Return (JDict nlu), w') /\
    nlu !! "intent" = Some (JStr "get_weather_travel_advice") /\
    nlu !! "slots" = Some (JDict {[ "theme" := JStr "travel" ]}) /\
    nlu !! "dialog_metadata" =
      Some (JDict {[ "original_query" := JStr query;
                     "language" := JStr "en";
                     "timestamp" := JStr (isoformat_utc (clock E n)) ]}) /\
    ticks w' = S n /\ (ticks w <= n)%nat /\
    fs w' = fs w /\ opens w' = opens w /\ result w' = result w /\
    List.filter is_write (new_events w w') = [].
Proof.
  unfold nlu_parser_travel.
  unfold bind at 1. unfold emit at 1. unfold bind at 1.
  destruct (extract_location_run E query
              (World (fs w) (opens w) (ticks w)
                 (events w ++ [EvCall "nlu_parser_travel" (JStr query)]) (result w)))
    as (loc & evs & -> & Hevs).
  cbn [fs opens ticks events result].
  assert (Hquiet : List.filter is_write (EvCall "nlu_parser_travel" (JStr query) :: evs) = []).
  { cbn. clear -Hevs. induction Hevs as [|e evs He _ IH]; [reflexivity|].
    cbn. destruct e; try contradiction. exact IH. }
  destruct (_ && _); [|destruct (_ && _)];
    (eexists _, _, _; split; [reflexivity|]; cbn [fs opens ticks events result];
     split; [reflexivity|]; split; [reflexivity|]; split; [reflexivity|];
     split; [reflexivity|]; split; [lia|]; split; [reflexivity|];
     split; [reflexivity|]; split; [reflexivity|];
     erewrite new_events_app; [exact Hquiet | cbn; by rewrite <- app_assoc]).
Qed.

End entity_extractor_runs.

(** The pattern reads characters, not bytes: a capital I with a dot above
    (U+0130) is a letter of the group when case is ignored, and a no-break
    space (U+00A0) is white space. *)
Lemma re_search_place_beyond_ascii (E : env) :
  weather_agent.re_search_place E ("weather in " +:+ utf8 [304%N] +:+ "stanbul") =
    Some (utf8 [304%N] +:+ "stanbul") /\
  weather_agent.re_search_place E ("in New" +:+ utf8 [160%N] +:+ "York") =
    Some ("New" +:+ utf8 [160%N] +:+ "York") /\
  weather_agent.re_search_place E "within Paris" = None.
Proof. split_and!; vm_compute; reflexivity. Qed.

(** Without a recognizer, the place of such a query is found by the pattern
    and sent to the geocoding service. *)
Lemma extract_location_beyond_ascii :
  let place := utf8 [304%N] +:+ "stanbul" in
  weather_agent.extract_location scenario.happy ("weather in " +:+ place) scenario.uploaded =
    (Return (Some place),
     requested (EvGet weather_agent.geo_url
                  [("q", JStr place); ("limit", JInt 5); ("appid", JStr "weather-key")])
               scenario.uploaded).
Proof. vm_compute. reflexivity. Qed.

(** ** Strings *)

Section string_facts.

Lemma before_comma_no_comma (s : string) : mem_char "," (before_comma s) = false.
Proof.
  induction s as [|c s IH]; [reflexivity|]. cbn [before_comma].
  destruct (Ascii.eqb c ",") eqn:Hc; [reflexivity|].
  cbn [mem_char]. rewrite IH, orb_false_r.
  rewrite Ascii.eqb_sym. exact Hc.
Qed.

Lemma string_app_cons (x : ascii) (a b : string) : String x a +:+ b = String x (a +:+ b).
Proof. reflexivity. Qed.

Lemma string_app_assoc (a b c : string) : (a +:+ b) +:+ c = a +:+ b +:+ c.
Proof. induction a as [|x a IH]; [reflexivity|]. by rewrite !string_app_cons, IH. Qed.

Lemma string_app_nil_r (a : string) : a +:+ "" = a.
Proof. induction a as [|x a IH]; [reflexivity|]. by rewrite string_app_cons, IH. Qed.

Lemma string_length_app (a b : string) :
  String.length (a +:+ b) = (String.length a + String.length b)%nat.
Proof.
  induction a as [|x a IH]; [reflexivity|]. rewrite string_app_cons. cbn. by rewrite IH.
Qed.

Lemma substring_app (a b : string) :
  String.substring 0 (String.length a) (a +:+ b) = a.
Proof.
  induction a as [|x a IH]; [by destruct b|]. rewrite string_app_cons. cbn. by rewrite IH.
Qed.

Lemma mem_char_app (c : ascii) (a b : string) :
  mem_char c (a +:+ b) = mem_char c a || mem_char c b.
Proof.
  induction a as [|x a IH]; [reflexivity|]. rewrite string_app_cons. cbn [mem_char].
  by rewrite IH, orb_assoc.
Qed.

Lemma lstrip_step (s : string) :
  lstrip s = match space_prefix s with Some r => lstrip r | None => s end.
Proof.
  destruct s as [|a [|b [|c s]]]; cbn [lstrip space_prefix]; try reflexivity.
  - by destruct (space1 a).
  - destruct (space1 a); [reflexivity|]. by destruct (space2 a b).
  - destruct (space1 a); [reflexivity|]. destruct (space2 a b); [reflexivity|].
    by destruct (space3 a b c).
Qed.

(** A string starts with white space in one way: as its front and the rest. *)
Lemma space_prefix_split (s r : string) :
  space_prefix s = Some r ->
  exists p, s = p +:+ r /\ p <> EmptyString /\
            forall t, space_prefix (p +:+ t) = Some t.
Proof.
  destruct s as [|a [|b [|c s]]]; cbn [space_prefix]; try discriminate.
  - destruct (space1 a) eqn:H1; [|discriminate]. intros [= <-].
    exists (String a EmptyString). split; [reflexivity|]. split; [discriminate|].
    intros t. rewrite !string_app_cons. change (EmptyString +:+ t) with t.
    cbn [space_prefix]. by rewrite H1.
  - destruct (space1 a) eqn:H1.
    + intros [= <-]. exists (String a EmptyString). split; [reflexivity|].
      split; [discriminate|]. intros t. rewrite !string_app_cons. change (EmptyString +:+ t) with t.
    cbn [space_prefix]. by rewrite H1.
    + destruct (space2 a b) eqn:H2; [|discriminate]. intros [= <-].
      exists (String a (String b EmptyString)). split; [reflexivity|].
      split; [discriminate|]. intros t. rewrite !string_app_cons. change (EmptyString +:+ t) with t.
      cbn [space_prefix]. by rewrite H1, H2.
  - destruct (space1 a) eqn:H1.
    + intros [= <-]. exists (String a EmptyString). split; [reflexivity|].
      split; [discriminate|]. intros t. rewrite !string_app_cons. change (EmptyString +:+ t) with t.
    cbn [space_prefix]. by rewrite H1.
    + destruct (space2 a b) eqn:H2.
      * intros [= <-]. exists (String a (String b EmptyString)). split; [reflexivity|].
        split; [discriminate|]. intros t. rewrite !string_app_cons. change (EmptyString +:+ t) with t.
      cbn [space_prefix]. by rewrite H1, H2.
      * destruct (space3 a b c) eqn:H3; [|discriminate]. intros [= <-].
        exists (String a (String b (String c EmptyString))). split; [reflexivity|].
        split; [discriminate|]. intros t. rewrite !string_app_cons. change (EmptyString +:+ t) with t.
        cbn [space_prefix]. by rewrite H1, H2, H3.
Qed.

Lemma space_prefix_shorter (s r : string) :
  space_prefix s = Some r -> (String.length r < String.length s)%nat.
Proof.
  intros (p & -> & Hp & _)%space_prefix_split. rewrite string_length_app.
  destruct p; [done | cbn; lia].
Qed.

(** What [lstrip] leaves starts with no white space, and ends [s]. *)
Lemma lstrip_spec (s : string) :
  space_prefix (lstrip s) = None /\ exists p, s = p +:+ lstrip s.
Proof.
  remember (String.length s) as n eqn:Hn. revert s Hn.
  induction n as [n IH] using lt_wf_ind. intros s ->.
  rewrite lstrip_step. destruct (space_prefix s) as [r|] eqn:Hs.
  - destruct (IH _ (space_prefix_shorter _ _ Hs) r eq_refl) as [Hhead [p Hp]].
    split; [exact Hhead|].
    destruct (space_prefix_split _ _ Hs) as (q & -> & _).
    exists (q +:+ p). rewrite Hp at 1. by rewrite string_app_assoc.
  - split; [exact Hs | by exists EmptyString].
Qed.

Lemma lstrip_kept (s : string) : space_prefix s = None -> lstrip s = s.
Proof. intros H. by rewrite lstrip_step, H. Qed.

(** White space in front of [t] is stripped from it. *)
Lemma lstrip_app (s t : string) : all_space s = true -> lstrip (s +:+ t) = lstrip t.
Proof.
  remember (String.length s) as n eqn:Hn. revert s Hn.
  induction n as [n IH] using lt_wf_ind. intros s -> Hall.
  unfold all_space in Hall. rewrite lstrip_step in Hall.
  destruct (space_prefix s) as [r|] eqn:Hs.
  - destruct (space_prefix_split _ _ Hs) as (q & -> & _ & Hq).
    rewrite string_app_assoc, (lstrip_step (q +:+ r +:+ t)), Hq.
    apply (IH _ (space_prefix_shorter _ _ Hs) r eq_refl). exact Hall.
  - destruct s; [reflexivity | discriminate].
Qed.

Lemma all_space_app (s t : string) :
  all_space s = true -> all_space t = true -> all_space (s +:+ t) = true.
Proof. intros Hs Ht. unfold all_space. by rewrite lstrip_app. Qed.

(** What [rstrip] leaves starts [s], and white space follows it. *)
Lemma rstrip_spec (s : string) : exists t, s = rstrip s +:+ t /\ all_space t = true.
Proof.
  induction s as [|a s IH]; [by exists EmptyString|].
  cbn [rstrip]. destruct (all_space (String a s)) eqn:Hall.
  - by exists (String a s).
  - destruct IH as (t & Ht & Hsp). exists t. split; [|exact Hsp].
    rewrite string_app_cons. by rewrite <- Ht.
Qed.

Lemma rstrip_idem (s : string) : rstrip (rstrip s) = rstrip s.
Proof.
  induction s as [|a s IH]; [reflexivity|].
  cbn [rstrip]. destruct (all_space (String a s)) eqn:Hall; [reflexivity|].
  cbn [rstrip]. destruct (all_space (String a (rstrip s))) eqn:Hall'.
  - destruct (rstrip_spec s) as (t & Ht & Hsp).
    pose proof (all_space_app _ t Hall' Hsp) as H.
    rewrite string_app_cons, <- Ht, Hall in H. discriminate.
  - by rewrite IH.
Qed.

Lemma rstrip_head (s : string) : space_prefix s = None -> space_prefix (rstrip s) = None.
Proof.
  intros Hs. destruct (space_prefix (rstrip s)) as [r|] eqn:Hr; [|reflexivity].
  destruct (space_prefix_split _ _ Hr) as (q & Hq & _ & Hpre).
  destruct (rstrip_spec s) as (t & Ht & _).
  rewrite Ht, Hq, string_app_assoc, Hpre in Hs. discriminate.
Qed.

(** [s.strip().strip()] is [s.strip()]. *)
Lemma strip_idem (s : string) : strip (strip s) = strip s.
Proof.
  unfold strip.
  rewrite (lstrip_kept (rstrip (lstrip s))) by apply rstrip_head, lstrip_spec.
  apply rstrip_idem.
Qed.

Lemma strip_mem (c : ascii) (s : string) :
  mem_char c s = false -> mem_char c (strip s) = false.
Proof.
  intros H. unfold strip.
  destruct (lstrip_spec s) as [_ [p Hp]].
  destruct (rstrip_spec (lstrip s)) as (t & Ht & _).
  rewrite Hp, Ht, !mem_char_app in H.
  by destruct (mem_char c p), (mem_char c (rstrip (lstrip s))).
Qed.

(** White space outside ASCII is stripped as well, here a no-break space
    and an ideographic space; white space inside is kept. *)
Lemma strip_beyond_ascii :
  strip (utf8 [160%N] +:+ " New York" +:+ utf8 [12288%N; 10%N]) = "New York".
Proof. vm_compute. reflexivity. Qed.

Lemma prefix_slash_ext (t e1 e2 : string) :
  String.prefix "/" (t +:+ String "." e1) = String.prefix "/" (t +:+ String "." e2).
Proof.
  destruct t as [|c t]; [reflexivity|]. rewrite !string_app_cons.
  change (String.prefix "/" (String c (t +:+ String "." e1)))
    with (if ascii_dec "/" c then String.prefix "" (t +:+ String "." e1) else false).
  change (String.prefix "/" (String c (t +:+ String "." e2)))
    with (if ascii_dec "/" c then String.prefix "" (t +:+ String "." e2) else false).
  destruct (ascii_dec "/" c); [|reflexivity].
  by destruct (t +:+ String "." e1), (t +:+ String "." e2).
Qed.

(** Two files of a trace with different extensions have different paths. *)
Lemma path_join_ext (dir t e1 e2 : string) :
  path_join dir (t +:+ String "." e1) = path_join dir (t +:+ String "." e2) -> e1 = e2.
Proof.
  unfold path_join. rewrite (prefix_slash_ext t e1 e2).
  assert (Hinj : forall a, a +:+ t +:+ String "." e1 = a +:+ t +:+ String "." e2 -> e1 = e2).
  { intros a H. apply (inj (String.append a)) in H. apply (inj (String.append t)) in H.
    by injection H. }
  destruct (String.prefix "/" (t +:+ String "." e2)); [apply (Hinj "")|].
  destruct (_ || _); [apply Hinj|].
  intros H. apply (inj (String.append dir)) in H. by apply (Hinj "/").
Qed.

End string_facts.

(** ** The Response Generator's inputs and outputs *)

Section response_generator_values.
Import chatbot.
Context (E : env).

(** X8. What [extract_nlu_weather] returns for a record: each of [nlu] and
    [weather] is the record's own field when that is truthy and the field of
    its [agent_raw] otherwise, and both are truthy. When [agent_raw] is absent
    or a dict the function is decided by these two values: a falsy [nlu]
    raises "No NLU found in JSON", else a falsy [weather] raises "No weather
    found in JSON", else the pair is returned. *)
Theorem extract_nlu_weather_fallback (r : gmap string json) :
  (forall nlu weather,
     extract_nlu_weather (JDict r) = Return (nlu, weather) ->
     nlu = field_of r "nlu" /\ weather = field_of r "weather" /\
     truthy nlu = true /\ truthy weather = true) /\
  (agent_raw_ok r = true ->
   extract_nlu_weather (JDict r) =
     if negb (truthy (field_of r "nlu"))
     then Raise (Exn ValueError "No NLU found in JSON")
     else if negb (truthy (field_of r "weather"))
          then Raise (Exn ValueError "No weather found in JSON")
          else Return (field_of r "nlu", field_of r "weather")).
Proof.
  assert (Hown : forall k,
    own_or_agent_raw (JDict r) k =
      if truthy (default JNull (r !! k)) then Return (default JNull (r !! k))
      else match r !! "agent_raw" with
           | None => Return JNull
           | Some (JDict a) => Return (default JNull (a !! k))
           | Some _ => Raise (Exn AttributeError "object has no attribute 'get'")
           end).
  { intros k. unfold own_or_agent_raw, get, get_default. cbn [pbind].
    destruct (truthy (default JNull (r !! k))); [reflexivity|].
    destruct (r !! "agent_raw") as [[]|]; cbn; reflexivity. }
  assert (Hfield : forall k v, own_or_agent_raw (JDict r) k = Return v -> v = field_of r k).
  { intros k v. rewrite Hown. unfold field_of, py_or.
    destruct (truthy (default JNull (r !! k))); [by intros [= <-]|].
    destruct (r !! "agent_raw") as [[]|]; try discriminate; by intros [= <-]. }
  split.
  - intros nlu weather. unfold extract_nlu_weather.
    destruct (own_or_agent_raw (JDict r) "nlu") as [n|] eqn:Hn; [|discriminate].
    destruct (own_or_agent_raw (JDict r) "weather") as [wd|] eqn:Hw; [|discriminate].
    cbn [pbind]. destruct (truthy n) eqn:Htn; [|discriminate].
    destruct (truthy wd) eqn:Htw; [|discriminate].
    cbn [negb]. intros [= <- <-].
    split; [by apply Hfield|]. split; [by apply Hfield|]. by split.
  - intros Hok. unfold agent_raw_ok in Hok.
    assert (Hown' : forall k, own_or_agent_raw (JDict r) k = Return (field_of r k)).
    { intros k. rewrite Hown. unfold field_of, py_or.
      destruct (truthy (default JNull (r !! k))); [reflexivity|].
      destruct (r !! "agent_raw") as [[]|]; try discriminate; reflexivity. }
    unfold extract_nlu_weather. rewrite !Hown'. reflexivity.
Qed.

(** X27. A merged context, whenever one is built, has exactly the six keys
    [user_query], [intent], [location], [date], [theme], [weather_data];
    [weather_data] is the weather object as given, [location] is a string
    without white space around it, and [user_query] is a truthy value or the
    empty string, never null. *)
Theorem build_merged_context_fields (nlu weather ctx : json) :
  build_merged_context nlu weather = Return ctx ->
  exists d location user_query,
    ctx = JDict d /\
    d !! "weather_data" = Some weather /\
    d !! "location" = Some (JStr location) /\ strip location = location /\
    d !! "user_query" = Some user_query /\
    (truthy user_query = true \/ user_query = JStr "") /\
    (forall k, is_Some (d !! k) <->
               k ∈ ["user_query"; "intent"; "location"; "date"; "theme"; "weather_data"]).
Proof.
  unfold build_merged_context. intros H.
  repeat match type of H with
         | pbind ?r _ = Return _ => destruct r; cbn [pbind] in H; [|discriminate H]
         end.
  injection H as <-. eexists _, _, _. split; [reflexivity|].
  split; [by rewrite !lookup_insert_ne by discriminate; apply lookup_singleton_eq|].
  split; [by rewrite !lookup_insert_ne by discriminate; apply lookup_insert_eq|].
  split; [apply strip_idem|].
  split; [apply lookup_insert_eq|].
  split.
  { unfold py_or.
    match goal with
    | |- context [if truthy ?v then _ else _] => destruct (truthy v) eqn:Ht
    end; [by left | by right]. }
  intros k. rewrite !lookup_insert_is_Some', lookup_singleton_is_Some.
  rewrite !elem_of_cons, elem_of_nil. split.
  - intros Hk. repeat (destruct Hk as [<- | Hk]; [auto 10|]). subst k. auto 10.
  - intros Hk. repeat (destruct Hk as [-> | Hk]; [auto 10|]). destruct Hk.
Qed.

Lemma city_of_clean (nlu weather : json) (city : string) :
  city_of nlu weather = Return city -> mem_char "," city = false /\ strip city = city.
Proof.
  unfold city_of. destruct (get weather "location") as [wloc|]; [|discriminate].
  cbn [pbind]. destruct (if truthy wloc then _ else _) as [v|]; [|discriminate].
  cbn [pbind]. destruct v; try discriminate. cbn [str_split_comma_0 pbind].
  intros [= <-]. split.
  - apply strip_mem, before_comma_no_comma.
  - apply strip_idem.
Qed.

Lemma whole_seconds (t : Z) : (t - t mod micros_per_second) mod micros_per_second = 0.
Proof.
  unfold micros_per_second. rewrite Zminus_mod, Zmod_mod, Z.sub_diag. reflexivity.
Qed.


(** X9. Whenever [generate_travel_response] returns, its result is a dict
    with the trace id it was given, a [city] that has no comma and no white
    space around it, [response_language] "en", a null [tts] and a
    [generated_at] that is a whole second followed by "Z"; the call sent
    exactly one request, to the model [gemini-2.5-pro] with the system prompt,
    and left the files and the record alone. *)
Theorem generate_travel_response_fields (trace_id sidecar_path : string)
    (api_key : option string) (w w' : world) (out : json) :
  generate_travel_response E trace_id sidecar_path api_key w = (Return out, w') ->
  exists o city t prompt,
    out = JDict o /\
    o !! "trace_id" = Some (JStr trace_id) /\
    o !! "city" = Some (JStr city) /\ mem_char "," city = false /\ strip city = city /\
    o !! "response_language" = Some (JStr "en") /\
    o !! "tts" = Some JNull /\
    o !! "generated_at" = Some (JStr (isoformat_naive t +:+ "Z")) /\
    t mod micros_per_second = 0 /\
    new_events w w' =
      [EvGenerate (default "" (or_str api_key (or_str (OPENAI_API_KEY E) (GOOGLE_API_KEY E))))
                  "gemini-2.5-pro" system_prompt prompt] /\
    fs w' = fs w /\ result w' = result w.
Proof.
  unfold generate_travel_response.
  set (key := or_str api_key _).
  destruct (env_set key); cbn [negb]; [|discriminate].
  unfold bind at 1. unfold load_json.
  destruct (fs w !! sidecar_path) as [[root| |]|]; try discriminate.
  unfold bind at 1. unfold lift at 1.
  destruct (extract_nlu_weather root) as [[nlu weather]|]; [|discriminate].
  unfold bind at 1. unfold lift at 1.
  destruct (build_merged_context nlu weather) as [ctx|]; [|discriminate].
  unfold bind at 1. unfold lift at 1.
  destruct (city_of nlu weather) as [city|] eqn:Hcity; [|discriminate].
  destruct (city_of_clean _ _ _ Hcity) as [Hcomma Hstrip].
  unfold bind at 1. unfold lift at 1.
  destruct (user_prompt_of E ctx) as [prompt|]; [|discriminate].
  unfold bind at 1. unfold try_except, call_model_generate.
  unfold bind at 1. unfold emit at 1. unfold bind at 1. unfold lift at 1.
  destruct (generate_content E (default "" key) "gemini-2.5-pro" system_prompt prompt);
    (unfold bind, now, ret; cbn [fs opens ticks events result];
     intros [= <- <-]; eexists _, city, _, prompt; split; [reflexivity|];
     split; [reflexivity|]; split; [reflexivity|]; split; [exact Hcomma|];
     split; [exact Hstrip|]; split; [reflexivity|]; split; [reflexivity|];
     split; [reflexivity|]; split; [apply whole_seconds|];
     split; [by apply new_events_app | by split]).
Qed.


End response_generator_values.

(** ** The trace id of a sidecar path *)

Section trace_ids.
Import chatbot_paths.

Lemma basename_plain (b : string) : mem_char "/" b = false -> basename b = b.
Proof. destruct b as [|c b]; [done|]. intros H. cbn [basename]. by rewrite H. Qed.

Lemma basename_after_slash (a b : string) :
  basename (a +:+ "/" +:+ b) = basename b.
Proof.
  induction a as [|c a IH]; [reflexivity|].
  change (String c a +:+ "/" +:+ b) with (String c (a +:+ "/" +:+ b)).
  cbn [basename].
  assert (H : mem_char "/" (String c (a +:+ "/" +:+ b)) = true).
  { cbn [mem_char]. rewrite mem_char_app. cbn. by rewrite !orb_true_r. }
  by rewrite H.
Qed.

(** A path is what comes before its last component, then that component. *)
Lemma basename_suffix (path : string) : exists dir, path = dir +:+ basename path.
Proof.
  induction path as [|c path [dir IH]]; [by exists ""|]. cbn [basename].
  destruct (mem_char "/" (String c path)).
  - exists (String c dir). by rewrite string_app_cons, <- IH.
  - by exists "".
Qed.

Lemma rev_app_last (s1 s2 x : string) (c : ascii) :
  String.rev_app s1 s2 = String c x ->
  (s1 = "" /\ s2 = String c x) \/ exists a, s1 = a +:+ String c "".
Proof.
  revert s2. induction s1 as [|d s1 IH]; intros s2 H; [by left|].
  right. cbn in H. destruct (IH _ H) as [[-> [= -> _]] | [a ->]].
  - by exists "".
  - by exists (String d a).
Qed.

Lemma ends_with_slash_inv (a : string) :
  ends_with_slash a = true -> exists a', a = a' +:+ "/".
Proof.
  unfold ends_with_slash. destruct (String.rev a) as [|c x] eqn:Hrev; [discriminate|].
  destruct (Ascii.eqb_spec c "/") as [-> | Hne].
  2:{ destruct c as [[] [] [] [] [] [] [] []]; try discriminate. by destruct Hne. }
  intros _. destruct (rev_app_last _ _ _ _ Hrev) as [[_ [=]] | [a' ->]]. by exists a'.
Qed.

Lemma basename_path_join (dir name : string) :
  mem_char "/" name = false -> basename (path_join dir name) = name.
Proof.
  intros Hname. unfold path_join.
  assert (Hprefix : String.prefix "/" name = false).
  { destruct name as [|c name]; [reflexivity|]. cbn [mem_char] in Hname.
    apply orb_false_iff in Hname as [Hc _].
    destruct (String.prefix "/" (String c name)) eqn:Hp; [|reflexivity].
    apply String.prefix_correct in Hp. cbn in Hp. injection Hp as -> _.
    discriminate Hc. }
  rewrite Hprefix.
  destruct (String.eqb_spec dir "") as [-> | _]; cbn [orb].
  { by apply basename_plain. }
  destruct (ends_with_slash dir) eqn:Hs.
  - destruct (ends_with_slash_inv _ Hs) as [a ->].
    rewrite string_app_assoc. rewrite basename_after_slash. by apply basename_plain.
  - rewrite basename_after_slash. by apply basename_plain.
Qed.

Lemma is_hex_not_slash (c : ascii) : is_hex c = true -> Ascii.eqb "/" c = false.
Proof. destruct c as [[] [] [] [] [] [] [] []]; cbn; intros; try discriminate; reflexivity. Qed.

Lemma hex_digits_spec (n : nat) (s s' : string) :
  hex_digits n s = Some s' ->
  exists h, s = h +:+ s' /\ String.length h = n /\ mem_char "/" h = false /\
            forall x, hex_digits n (h +:+ x) = Some x.
Proof.
  revert s. induction n as [|n IH]; intros s H.
  - injection H as <-. by exists "".
  - destruct s as [|c s]; [discriminate|]. cbn [hex_digits] in H.
    destruct (is_hex c) eqn:Hc; [|discriminate].
    destruct (IH _ H) as (h & -> & Hlen & Hmem & Hrun).
    exists (String c h). split; [reflexivity|]. split; [by cbn; rewrite Hlen|].
    split; [by cbn [mem_char]; rewrite is_hex_not_slash, Hmem|].
    intros x. rewrite string_app_cons. cbn [hex_digits]. by rewrite Hc.
Qed.

Lemma hex_groups_spec (lengths : list nat) (s s' : string) :
  hex_groups lengths s = Some s' ->
  exists u, s = u +:+ s' /\ String.length u = groups_length lengths /\
            mem_char "/" u = false /\
            forall x, hex_groups lengths (u +:+ x) = Some x.
Proof.
  revert s. induction lengths as [|n lengths IH]; intros s H.
  - injection H as <-. by exists "".
  - cbn [hex_groups] in H.
    destruct (hex_digits n s) as [s1|] eqn:Hd; [|discriminate].
    destruct (hex_digits_spec _ _ _ Hd) as (h & -> & Hlen & Hmem & Hrun).
    destruct lengths as [|m lengths].
    + injection H as <-. exists h. split; [reflexivity|]. split; [exact Hlen|].
      split; [exact Hmem|]. intros x. cbn [hex_groups]. by rewrite Hrun.
    + destruct s1 as [|c s1]; [discriminate|]. cbn [hyphen] in H.
      destruct (Ascii.eqb_spec c "-") as [-> | _]; [|discriminate].
      destruct (IH _ H) as (u & -> & Hlen' & Hmem' & Hrun').
      exists (h +:+ "-" +:+ u).
      split; [by rewrite !string_app_assoc|].
      split.
      { rewrite string_length_app. change ("-" +:+ u) with (String "-" u).
        change (groups_length (n :: m :: lengths))
          with (n + 1 + groups_length (m :: lengths))%nat.
        cbn [String.length]. rewrite Hlen, Hlen'. lia. }
      split.
      { rewrite mem_char_app, Hmem. change ("-" +:+ u) with (String "-" u).
        cbn [mem_char]. by rewrite Hmem'. }
      intros x. rewrite !string_app_assoc.
      change (hex_groups (n :: m :: lengths) (h +:+ "-" +:+ u +:+ x))
        with (match hex_digits n (h +:+ "-" +:+ u +:+ x) with
              | Some s1 => match hyphen s1 with
                           | Some s2 => hex_groups (m :: lengths) s2
                           | None => None
                           end
              | None => None
              end).
      rewrite Hrun. change ("-" +:+ u +:+ x) with (String "-" (u +:+ x)).
      cbn [hyphen]. rewrite Ascii.eqb_refl. apply Hrun'.
Qed.

(** What a match covers: a UUID of 36 characters at the start of [s]. *)
Lemma UUID_RE_match_spec (s : string) :
  UUID_RE_match s = true ->
  exists u rest, s = u +:+ rest /\ String.substring 0 36 s = u /\
                 String.length u = 36%nat /\ mem_char "/" u = false /\
                 forall x, UUID_RE_match (u +:+ x) = true.
Proof.
  unfold UUID_RE_match.
  destruct (hex_groups [8; 4; 4; 4; 12]%nat s) as [rest|] eqn:Hg; [|discriminate].
  intros _. destruct (hex_groups_spec _ _ _ Hg) as (u & -> & Hlen & Hmem & Hrun).
  exists u, rest. split; [reflexivity|].
  change (groups_length [8; 4; 4; 4; 12]%nat) with 36%nat in Hlen.
  split; [by rewrite <- Hlen, substring_app|]. split; [exact Hlen|].
  split; [exact Hmem|]. intros x. by rewrite Hrun.
Qed.

Lemma is_uuid_spec (u : string) :
  is_uuid u = true ->
  String.length u = 36%nat /\ mem_char "/" u = false /\
  forall x, UUID_RE_match (u +:+ x) = true.
Proof.
  unfold is_uuid. intros [Hm Hlen]%andb_true_iff. apply Nat.eqb_eq in Hlen.
  destruct (UUID_RE_match_spec _ Hm) as (u' & rest & -> & _ & Hlen' & Hmem & Hrun).
  rewrite string_length_app, Hlen' in Hlen.
  destruct rest; [|cbn in Hlen; lia]. rewrite string_app_nil_r.
  by split_and!.
Qed.

(** X10. Round trip of the trace id: from the path of the sidecar of a
    trace whose id is a UUID, [extract_trace_id_from_path] gives back the id,
    whatever the upload directory is. *)
Theorem extract_trace_id_of_sidecar (E : env) (trace_id : string) :
  is_uuid trace_id = true ->
  extract_trace_id_from_path (stt_helpers.stt_sidecar_path E trace_id) = Some trace_id.
Proof.
  intros Hu. destruct (is_uuid_spec _ Hu) as (Hlen & Hmem & Hrun).
  unfold extract_trace_id_from_path, stt_helpers.stt_sidecar_path.
  rewrite basename_path_join by (by rewrite mem_char_app, Hmem).
  destruct trace_id as [|c u]; [discriminate|].
  change (String c u +:+ ".json") with (String c (u +:+ ".json")).
  cbn [UUID_RE_search].
  change (String c (u +:+ ".json")) with (String c u +:+ ".json").
  rewrite Hrun. by rewrite <- Hlen, substring_app.
Qed.

(** X11. Whatever [extract_trace_id_from_path] returns is a UUID (36
    characters, groups of 8, 4, 4, 4 and 12 hexadecimal digits) that occurs in
    the path. *)
Theorem extract_trace_id_is_uuid (path u : string) :
  extract_trace_id_from_path path = Some u ->
  is_uuid u = true /\ exists before after, path = before +:+ u +:+ after.
Proof.
  unfold extract_trace_id_from_path.
  destruct (basename_suffix path) as [dir Hdir].
  assert (Hsearch : forall s, UUID_RE_search s = Some u ->
            is_uuid u = true /\ exists before after, s = before +:+ u +:+ after).
  { induction s as [|c s IH].
    - intros H. vm_compute in H. discriminate H.
    - cbn [UUID_RE_search]. destruct (UUID_RE_match (String c s)) eqn:Hm.
      + destruct (UUID_RE_match_spec _ Hm) as (u' & rest & Hs & Hsub & Hlen & _ & Hrun).
        rewrite Hsub. intros [= <-]. split.
        * unfold is_uuid. rewrite <- (string_app_nil_r u') at 1.
          by rewrite Hrun, Hlen.
        * exists "", rest. exact Hs.
      + intros H. destruct (IH H) as (Hu & before & after & ->). split; [exact Hu|].
        by exists (String c before), after. }
  intros H. destruct (Hsearch _ H) as (Hu & before & after & Hb). split; [exact Hu|].
  exists (dir +:+ before), after. by rewrite Hdir, Hb, string_app_assoc.
Qed.

End trace_ids.

(** ** The files and the record of a pipeline that returns *)

Section pipeline_returns.
Import stt_helpers.
Context (E : env).

Lemma checkpoints_returns trace_id english w r w' :
  warnings_ok (result w) ->
  checkpoints E trace_id english w = (Return r, w') ->
  exists s,
    (if truthy english then english else JStr "") = JStr s /\
    r = result w' /\
    opens w' = S (S (S (opens w))) /\
    open_w E (opens w) = None /\ open_w E (S (opens w)) = None /\
    open_w E (S (S (opens w))) = None /\
    fs w' = <[stt_sidecar_path E trace_id := FJson (JDict r)]>
              (<[text_path E trace_id := FText s]>
                 (<[stt_sidecar_path E trace_id := FJson (JDict (result w))]> (fs w))).
Proof.
  intros Hok Hrun. unfold checkpoints in Hrun.
  unfold bind at 1 in Hrun. unfold the_result at 1 in Hrun.
  unfold bind at 1 in Hrun. rewrite dump_json_run in Hrun.
  destruct (open_w E (opens w)) as [e1|] eqn:Hopen1; [discriminate Hrun|].
  unfold bind at 1 in Hrun. unfold write_text in Hrun.
  destruct (if truthy english then english else JStr "") as [| | | |s| |] eqn:Hcontent;
    try (unfold bind at 1 in Hrun; unfold write_file at 1 in Hrun; cbn [opens] in Hrun;
         destruct (open_w E (S (opens w))); discriminate Hrun).
  unfold write_file at 1 in Hrun. cbn [opens] in Hrun.
  destruct (open_w E (S (opens w))) as [e2|] eqn:Hopen2; [discriminate Hrun|].
  unfold bind at 1 in Hrun. unfold set_result at 1 in Hrun. unfold bind at 1 in Hrun.
  cbn [fs opens ticks events result] in Hrun.
  match type of Hrun with
  | context [agent_step E ?w0] => set (w3 := w0) in Hrun
  end.
  destruct (agent_step_spec E w3) as (w4 & evs_a & Hagent & Hf4 & Ho4 & _).
  { apply warnings_ok_insert; [discriminate | exact Hok]. }
  rewrite Hagent in Hrun.
  unfold bind at 1 in Hrun. unfold the_result at 1 in Hrun.
  unfold bind at 1 in Hrun. rewrite dump_json_run in Hrun.
  rewrite Ho4 in Hrun. unfold w3 in Hrun at 1. cbn [opens] in Hrun.
  destruct (open_w E (S (S (opens w)))) as [e3|] eqn:Hopen3; [discriminate Hrun|].
  unfold the_result in Hrun. cbn [result] in Hrun.
  injection Hrun as <- <-. exists s. cbn [fs opens result].
  split_and!; try reflexivity. by rewrite Hf4.
Qed.

Lemma sidecar_not_text trace_id : stt_sidecar_path E trace_id <> text_path E trace_id.
Proof. intros H. apply path_join_ext in H. discriminate H. Qed.

Lemma wav_not_sidecar trace_id :
  path_join (UPLOAD_DIR E) (trace_id +:+ ".wav") <> stt_sidecar_path E trace_id.
Proof. intros H. apply path_join_ext in H. discriminate H. Qed.

Lemma wav_not_text trace_id :
  path_join (UPLOAD_DIR E) (trace_id +:+ ".wav") <> text_path E trace_id.
Proof. intros H. apply path_join_ext in H. discriminate H. Qed.

(** A run of [process_trace] that returns: the recognizer's result, the
    record, and the files. *)
Lemma process_trace_returns trace_id languages w r w' :
  process_trace E trace_id languages w = (Return r, w') ->
  exists text conf det w1 s r0,
    is_Some (fs w !! path_join (UPLOAD_DIR E) (trace_id +:+ ".wav")) /\
    transcribe_with_azure E (path_join (UPLOAD_DIR E) (trace_id +:+ ".wav")) languages w =
      (Return (JDict {[ "text" := JStr text; "confidence" := conf;
                        "provider" := JStr "azure-speech"; "detected_language" := det ]}),
       w1) /\
    r = result w' /\
    agree_outside ["text_en"; "warnings"; "text_file"; "agent_raw"; "nlu"; "weather"]
      (first_record trace_id (JStr text) conf (JStr "azure-speech") det (clock E (ticks w1)))
      r /\
    r !! "text_file" = Some (JStr (text_path E trace_id)) /\
    unfinished r /\ warnings_ok r /\
    opens w' = S (S (S (opens w))) /\
    fs w' = <[stt_sidecar_path E trace_id := FJson (JDict r)]>
              (<[text_path E trace_id := FText s]>
                 (<[stt_sidecar_path E trace_id := FJson (JDict r0)]> (fs w))).
Proof.
  intros Hrun. unfold process_trace in Hrun.
  set (wav := path_join (UPLOAD_DIR E) (trace_id +:+ ".wav")) in *.
  unfold bind at 1 in Hrun. unfold path_exists at 1 in Hrun.
  destruct (bool_decide (is_Some (fs w !! wav))) eqn:Hfound; cbn [negb] in Hrun;
    [|discriminate Hrun].
  apply bool_decide_eq_true in Hfound.
  unfold bind at 1 in Hrun.
  pose proof (only_adds_transcribe E wav languages w) as Hstt.
  destruct (transcribe_with_azure E wav languages w) as [[stt|e] w1] eqn:Htr;
    [|discriminate Hrun].
  cbn in Hstt. destruct (adds_world _ _ _ Hstt) as (t1 & evs1 & Hw1 & _).
  destruct (transcribe_dict E _ _ _ _ _ Htr) as (text & conf & det & ->).
  unfold bind at 1 in Hrun. rewrite start_result_run in Hrun.
  set (r1 := first_record trace_id (JStr text) conf (JStr "azure-speech") det _) in Hrun.
  set (w2 := World _ _ _ _ r1) in Hrun.
  destruct (translate_step_spec E w2 eq_refl)
    as (res3 & w3 & evs3 & Htrl & Hf3 & Ho3 & _ & _ & Hag3 & Hok3 & _).
  unfold bind at 1 in Hrun. rewrite Htrl in Hrun.
  destruct res3 as [english|]; [|discriminate Hrun].
  assert (Hr3 : forall k, forallb (fun k' => negb (String.eqb k k')) ["text_en"; "warnings"] = true ->
                          result w3 !! k = r1 !! k).
  { intros k Hk. apply Hag3. by apply not_in_keys. }
  destruct (checkpoints_spec E trace_id english w3)
    as (res & w'' & evs & Hcp & _ & _ & _ & Hret).
  { exact Hok3. }
  { split; by rewrite Hr3. }
  { by rewrite Hr3. } { by rewrite Hr3. } { by rewrite Hr3. } { by rewrite Hr3. }
  rewrite Hcp in Hrun. injection Hrun as -> ->.
  destruct (Hret r eq_refl) as (Hr & _ & _ & Hunf & Hokr & Hagr & _ & _ & _ & _ & Htf & _).
  destruct (checkpoints_returns trace_id english w3 r w' Hok3 Hcp)
    as (s & _ & _ & Hopens & _ & _ & _ & Hfs).
  exists text, conf, det, w1, s, (result w3).
  split; [exact Hfound|]. split; [reflexivity|]. split; [exact Hr|].
  split.
  { intros k Hk. rewrite Hagr.
    - apply Hag3. intros Hin. apply Hk.
      repeat (apply elem_of_cons in Hin as [-> | Hin]); [repeat constructor ..|].
      by apply elem_of_nil in Hin.
    - intros Hin. apply Hk.
      repeat (apply elem_of_cons in Hin as [-> | Hin]); [repeat constructor ..|].
      by apply elem_of_nil in Hin. }
  split; [exact Htf|]. split; [exact Hunf|]. split; [exact Hokr|].
  assert (Hw2 : fs w2 = fs w /\ opens w2 = opens w).
  { unfold w2. cbn [fs opens]. rewrite Hw1. by split. }
  destruct Hw2 as [Hf2 Ho2].
  split; [by rewrite Hopens, Ho3, Ho2|].
  by rewrite Hfs, Hf3, Hf2.
Qed.

(** X12. The record [process_trace] returns carries the trace id, the
    recognizer's [text], [confidence] and [detected_language] unchanged, the
    provider "azure-speech", [processed_at] in whole seconds of the clock
    reading after the recognition, and the path of the text file as
    [text_file]; it has no [status] and no [response] yet. *)
Theorem process_trace_record (trace_id : string) (languages : list string)
    (w w' : world) (r : gmap string json) :
  process_trace E trace_id languages w = (Return r, w') ->
  exists stt w1,
    transcribe_with_azure E (path_join (UPLOAD_DIR E) (trace_id +:+ ".wav")) languages w =
      (Return (JDict stt), w1) /\
    r !! "trace_id" = Some (JStr trace_id) /\
    r !! "text" = stt !! "text" /\
    r !! "confidence" = stt !! "confidence" /\
    r !! "provider" = Some (JStr "azure-speech") /\
    r !! "detected_language" = stt !! "detected_language" /\
    r !! "processed_at" = Some (JInt (Z.quot (clock E (ticks w1)) micros_per_second)) /\
    r !! "text_file" = Some (JStr (text_path E trace_id)) /\
    r !! "status" = None /\ r !! "response" = None.
Proof.
  intros Hrun.
  destruct (process_trace_returns _ _ _ _ _ Hrun)
    as (text & conf & det & w1 & s & r0 & _ & Htr & _ & Hag & Htf & [Hst Hresp] & _).
  eexists _, w1. split; [exact Htr|].
  assert (Hk : forall k,
    forallb (fun k' => negb (String.eqb k k'))
      ["text_en"; "warnings"; "text_file"; "agent_raw"; "nlu"; "weather"] = true ->
    r !! k = first_record trace_id (JStr text) conf (JStr "azure-speech") det
               (clock E (ticks w1)) !! k).
  { intros k Hk. apply Hag. by apply not_in_keys. }
  rewrite !Hk by reflexivity.
  split_and!; try reflexivity; assumption.
Qed.

(** X13. A run of [process_trace] that returns found the audio file and
    left it as it was; the sidecar holds exactly the record returned, the
    text file exists, no other file was touched, and three files were opened
    for writing (the two checkpoints and the text file). *)
Theorem process_trace_files (trace_id : string) (languages : list string)
    (w w' : world) (r : gmap string json) :
  process_trace E trace_id languages w = (Return r, w') ->
  let wav := path_join (UPLOAD_DIR E) (trace_id +:+ ".wav") in
  is_Some (fs w !! wav) /\
  fs w' !! wav = fs w !! wav /\
  fs w' !! stt_sidecar_path E trace_id = Some (FJson (JDict r)) /\
  (exists s, fs w' !! text_path E trace_id = Some (FText s)) /\
  (forall p, p <> stt_sidecar_path E trace_id -> p <> text_path E trace_id ->
             fs w' !! p = fs w !! p) /\
  opens w' = S (S (S (opens w))).
Proof.
  intros Hrun wav.
  destruct (process_trace_returns _ _ _ _ _ Hrun)
    as (text & conf & det & w1 & s & r0 & Hwav & _ & _ & _ & _ & _ & _ & Hopens & Hfs).
  assert (Hother : forall p, p <> stt_sidecar_path E trace_id -> p <> text_path E trace_id ->
                             fs w' !! p = fs w !! p).
  { intros p H1 H2. rewrite Hfs. by rewrite !lookup_insert_ne. }
  split; [exact Hwav|].
  split; [apply Hother; [apply wav_not_sidecar | apply wav_not_text]|].
  split; [rewrite Hfs; apply lookup_insert_eq|].
  split.
  { exists s. rewrite Hfs.
    rewrite lookup_insert_ne by apply sidecar_not_text. apply lookup_insert_eq. }
  split; [exact Hother | exact Hopens].
Qed.

End pipeline_returns.

(** ** What the agent leaves in the record *)

Section agent_outcomes.
Import stt_helpers.
Context (E : env).

Lemma truthy_dict_lookup (d : gmap string json) (k : string) (v : json) :
  d !! k = Some v -> truthy (JDict d) = true.
Proof.
  intros Hk. destruct (truthy (JDict d)) eqn:Ht; [reflexivity|].
  apply truthy_dict_false in Ht. subst d. by rewrite lookup_empty in Hk.
Qed.

(** What the Travel Agent returns: a dict with a non-empty [nlu] dict and a
    [weather] dict. *)
Lemma travel_weather_agent_value (q : string) (w w' : world) (out : json) :
  weather_agent.travel_weather_agent E q w = (Return out, w') ->
  exists nlu weather,
    out = JDict {[ "nlu" := JDict nlu; "weather" := JDict weather ]} /\
    truthy (JDict nlu) = true.
Proof.
  unfold weather_agent.travel_weather_agent. unfold bind at 1.
  destruct (nlu_parser_travel_run E q w)
    as (nlu & ents & loc & w1 & evs1 & -> & Hents & Hloc & _).
  cbv beta iota.
  unfold bind at 1. unfold lift at 1. cbn [get_default]. rewrite Hents.
  cbn [default from_option id]. cbv beta iota.
  unfold bind at 1. unfold lift at 1. unfold get, get_default. rewrite Hloc.
  cbn [default from_option id]. cbv beta iota. unfold bind at 1.
  destruct (truthy loc).
  - destruct (weather_agent.fetch_weather E loc w1) as [[v|e] w2] eqn:Hfetch;
      [|discriminate].
    pose proof (fetch_weather_value E _ _ _ _ Hfetch) as Hdict.
    destruct v as [| | | | | |d]; try discriminate Hdict.
    intros [= <- _]. exists nlu, d. split; [reflexivity|]. by eapply truthy_dict_lookup.
  - intros [= <- _]. eexists nlu, _. split; [reflexivity|]. by eapply truthy_dict_lookup.
Qed.

(** X28. What the Travel Agent returns is a dict with exactly a non-empty
    [nlu] dict and a [weather] dict. It raises only in one way: the weather
    request was answered, and the report of that answer raised. *)
Theorem travel_weather_agent_outcomes (q : string) (w : world) :
  match (weather_agent.travel_weather_agent E q w).1 with
  | Return out =>
      exists nlu weather,
        out = JDict {[ "nlu" := JDict nlu; "weather" := JDict weather ]} /\
        truthy (JDict nlu) = true
  | Raise e =>
      exists lat lon resp,
        requests_get_json E weather_agent.weather_url (weather_params E lat lon) =
          Return resp /\
        weather_agent.weather_report E resp = Raise e
  end.
Proof.
  destruct (weather_agent.travel_weather_agent E q w) as [[out|e] w'] eqn:Hrun; cbn [fst].
  { by eapply travel_weather_agent_value. }
  revert Hrun. unfold weather_agent.travel_weather_agent. unfold bind at 1.
  destruct (nlu_parser_travel_run E q w)
    as (nlu & ents & loc & w1 & evs1 & -> & Hents & Hloc & _).
  cbv beta iota.
  unfold bind at 1. unfold lift at 1. cbn [get_default]. rewrite Hents.
  cbn [default from_option id]. cbv beta iota.
  unfold bind at 1. unfold lift at 1. unfold get, get_default. rewrite Hloc.
  cbn [default from_option id]. cbv beta iota. unfold bind at 1.
  destruct (truthy loc); [|discriminate].
  destruct (weather_agent.fetch_weather E loc w1) as [[v|e'] w2] eqn:Hfetch;
    [discriminate|].
  intros [= <- _]. by eapply fetch_weather_raises.
Qed.

(** X14. The agent step of the pipeline never raises. When the agent
    returns, its output is stored as [agent_raw], its [nlu] and [weather] as
    the record's, and no warning is added; when the agent raises [e], the
    record gets [agent_raw] [{error: e}], [nlu] and [weather]
    [{error: "agent_failed:e"}], and the warning "agent_failed:e" at the end
    of its warnings. *)
Theorem agent_step_outcomes (w : world) (q : string) :
  warnings_ok (result w) -> text_for_agent (result w) = JStr q ->
  exists w',
    agent_step E w = (Return tt, w') /\
    match (weather_agent.travel_weather_agent E q w).1 with
    | Return out =>
        result w' !! "agent_raw" = Some out /\
        result w' !! "nlu" = dig out ["nlu"] /\
        result w' !! "weather" = dig out ["weather"] /\
        result w' !! "warnings" = result w !! "warnings"
    | Raise e =>
        result w' !! "agent_raw" = Some (JDict {[ "error" := JStr (exn_msg e) ]}) /\
        result w' !! "nlu" =
          Some (JDict {[ "error" := JStr ("agent_failed:" +:+ exn_msg e) ]}) /\
        result w' !! "weather" =
          Some (JDict {[ "error" := JStr ("agent_failed:" +:+ exn_msg e) ]}) /\
        result w' !! "warnings" =
          Some (JList (warnings_of (result w) ++ [JStr ("agent_failed:" +:+ exn_msg e)]))
    end.
Proof.
  intros Hok Hq. unfold agent_step.
  unfold bind at 1. unfold result_get at 1.
  unfold bind at 1. unfold result_get at 1.
  fold (text_for_agent (result w)). rewrite Hq. cbn [call_agent].
  unfold try_except, bind at 1.
  destruct (travel_weather_agent_events E q w) as (res & t & evs & Hrun & _).
  pose proof Hrun as Hrun'. rewrite Hrun. cbn [fst].
  destruct res as [out|e].
  - destruct (travel_weather_agent_value _ _ _ _ Hrun') as (nlu & weather & -> & _).
    unfold attach_agent_output. eexists. split; [reflexivity|].
    cbn [result fs opens ticks events set_result bind snd fst dig pick].
    split; [by rewrite !lookup_insert_ne by discriminate; apply lookup_insert_eq|].
    split; [by rewrite !lookup_insert_ne by discriminate; apply lookup_insert_eq|].
    split; [apply lookup_insert_eq|].
    by rewrite !lookup_insert_ne by discriminate.
  - unfold bind at 1. rewrite append_warning_ok by exact Hok.
    eexists. split; [reflexivity|].
    cbn [result fs opens ticks events set_result bind snd fst].
    split; [by rewrite !lookup_insert_ne by discriminate; apply lookup_insert_eq|].
    split; [by rewrite !lookup_insert_ne by discriminate; apply lookup_insert_eq|].
    split; [apply lookup_insert_eq|].
    by rewrite !lookup_insert_ne by discriminate; apply lookup_insert_eq.
Qed.

End agent_outcomes.

(** ** The outcomes of the Background Completion Wrapper *)

Section wrapper_outcomes.
Import stt_helpers.
Context (E : env).

Lemma background_process_trace_unfold trace_id languages w :
  background_process_trace E trace_id languages w =
    match process_trace E trace_id languages w with
    | (Return _, w1) =>
        match try_except (respond E trace_id) (chatbot_failed E trace_id) w1 with
        | (Return a, w2) => (Return a, w2)
        | (Raise io, w2) => pipeline_failed E trace_id io w2
        end
    | (Raise e, w1) => pipeline_failed E trace_id e w1
    end.
Proof.
  unfold background_process_trace. unfold try_except at 1. unfold bind at 1.
  by destruct (process_trace E trace_id languages w) as [[] ?].
Qed.

Lemma pipeline_failed_run trace_id e w :
  pipeline_failed E trace_id e w =
    match open_w E (opens w) with
    | Some io =>
        (Raise io, World (fs w) (S (opens w)) (S (ticks w)) (events w) (result w))
    | None =>
        let doc := FJson (JDict (failed_record trace_id e (clock E (ticks w)))) in
        (Return tt,
         World (<[stt_sidecar_path E trace_id := doc]> (fs w)) (S (opens w)) (S (ticks w))
               (events w ++ [EvWrite (stt_sidecar_path E trace_id) doc]) (result w))
    end.
Proof.
  unfold pipeline_failed, bind, now. rewrite dump_json_run. cbn [opens].
  by destruct (open_w E (opens w)).
Qed.







End wrapper_outcomes.

(** ** The endpoints *)

Section endpoints.
Import stt_helpers.
Context (E : env) (json_dumps_ascii : json -> string) (render_error : json -> option exn).

(** X18. The manual processing endpoint changes the world as
    [process_trace] does. When the pipeline returns a record, the endpoint
    answers with it, and it is what the sidecar holds; when the pipeline
    raises, the endpoint raises HTTP 404 "trace_id audio not found" for a
    [FileNotFoundError] and HTTP 500 "processing_failed:" with the failure's
    text for anything else. A missing audio file gives the 404 and leaves
    the world as it was. *)
Theorem stt_process_endpoint_outcomes (trace_id : string) (w : world) :
  let run := api.stt_process_endpoint E trace_id w in
  let done := process_trace E trace_id ["en-US"; "ja-JP"] w in
  run.2 = done.2 /\
  match done.1 with
  | Return r =>
      run.1 = Return (JDict r) /\
      fs run.2 !! stt_sidecar_path E trace_id = Some (FJson (JDict r))
  | Raise e => run.1 = Raise (processing_error e)
  end /\
  (fs w !! path_join (UPLOAD_DIR E) (trace_id +:+ ".wav") = None ->
   run = (Raise (Exn (HTTPException 404) "trace_id audio not found"), w)).
Proof.
  cbv zeta.
  assert (Hrun : api.stt_process_endpoint E trace_id w =
            match process_trace E trace_id ["en-US"; "ja-JP"] w with
            | (Return r, w1) => (Return (JDict r), w1)
            | (Raise e, w1) => (Raise (processing_error e), w1)
            end).
  { unfold api.stt_process_endpoint, try_except, bind.
    destruct (process_trace E trace_id ["en-US"; "ja-JP"] w) as [[r|e] w1]; [reflexivity|].
    by destruct e as [[] ?]. }
  rewrite Hrun.
  destruct (process_trace E trace_id ["en-US"; "ja-JP"] w) as [[r|e] w1] eqn:Hp;
    cbn [fst snd].
  - split; [reflexivity|]. split.
    + split; [reflexivity|].
      destruct (process_trace_returns E _ _ _ _ _ Hp)
        as (text & conf & det & w0 & s & r0 & _ & _ & _ & _ & _ & _ & _ & _ & Hfs).
      rewrite Hfs. apply lookup_insert_eq.
    + intros Hwav. unfold process_trace in Hp. unfold bind at 1 in Hp.
      unfold path_exists at 1 in Hp. rewrite Hwav in Hp.
      rewrite bool_decide_eq_false_2 in Hp by (by intros [? ?]). discriminate Hp.
  - split; [reflexivity|]. split; [reflexivity|].
    intros Hwav. unfold process_trace in Hp. unfold bind at 1 in Hp.
    unfold path_exists at 1 in Hp. rewrite Hwav in Hp.
    rewrite bool_decide_eq_false_2 in Hp by (by intros [? ?]).
    injection Hp as <- <-. reflexivity.
Qed.

(** X19. After [process_trace] has returned a record, the status endpoint
    answers with that record, and the agent endpoint with its [nlu] and
    [weather] and the status "done" (the record has no status yet: "done" is
    the endpoint's default). Neither changes the world. *)
Theorem results_after_pipeline (trace_id : string) (languages : list string)
    (w w' : world) (r : gmap string json) :
  process_trace E trace_id languages w = (Return r, w') ->
  api.get_stt_result E trace_id w' = (Return (JDict r), w') /\
  (exists nlu weather,
     r !! "nlu" = Some nlu /\ r !! "weather" = Some weather /\
     api.get_agent_result E trace_id w' =
       (Return (JDict {[ "trace_id" := JStr trace_id;
                         "nlu" := nlu;
                         "weather" := weather;
                         "status" := JStr "done" ]}), w')).
Proof.
  intros Hp.
  destruct (process_trace_returns E _ _ _ _ _ Hp)
    as (text & conf & det & w0 & s & r0 & _ & _ & _ & _ & _ & [Hst _] & _ & _ & Hfs).
  assert (Hfile : fs w' !! stt_sidecar_path E trace_id = Some (FJson (JDict r)))
    by (rewrite Hfs; apply lookup_insert_eq).
  destruct (process_trace_spec E trace_id languages w) as (res & w1 & evs & Hp' & _ & _ & _ & Hret).
  rewrite Hp in Hp'. injection Hp' as <- <-.
  destruct (Hret r eq_refl) as (_ & _ & _ & _ & _ & _ & [nlu Hnlu] & [weather Hweather] & _).
  split.
  - unfold api.get_stt_result, bind, path_exists.
    rewrite bool_decide_eq_true_2 by (rewrite Hfile; eauto).
    cbn [negb]. unfold load_json. by rewrite Hfile.
  - exists nlu, weather. split; [exact Hnlu|]. split; [exact Hweather|].
    unfold api.get_agent_result. unfold bind at 1. unfold path_exists at 1.
    rewrite bool_decide_eq_true_2 by (rewrite Hfile; eauto). cbn [negb].
    unfold bind, load_json, lift, ret, get, get_default. rewrite Hfile.
    by rewrite Hnlu, Hweather, Hst.
Qed.

(** X20. After a run of the wrapper whose pipeline raised (the sidecar
    could be written), the status endpoint answers with the failed record,
    and the agent endpoint with null [nlu], null [weather] and the status
    "failed". *)
Theorem results_after_failed_pipeline (trace_id : string) (languages : list string)
    (w w1 : world) (e : exn) :
  process_trace E trace_id languages w = (Raise e, w1) ->
  open_w E (opens w1) = None ->
  let w' := (background_process_trace E trace_id languages w).2 in
  api.get_stt_result E trace_id w' =
    (Return (JDict (failed_record trace_id e (clock E (ticks w1)))), w') /\
  api.get_agent_result E trace_id w' =
    (Return (JDict {[ "trace_id" := JStr trace_id;
                      "nlu" := JNull;
                      "weather" := JNull;
                      "status" := JStr "failed" ]}), w').
Proof.
  intros Hp Hopen. cbv zeta.
  rewrite background_process_trace_unfold, Hp, pipeline_failed_run, Hopen. cbn [snd].
  set (w' := World _ _ _ _ _).
  assert (Hfile : fs w' !! stt_sidecar_path E trace_id =
                  Some (FJson (JDict (failed_record trace_id e (clock E (ticks w1))))))
    by apply lookup_insert_eq.
  split.
  - unfold api.get_stt_result, bind, path_exists.
    rewrite bool_decide_eq_true_2 by (rewrite Hfile; eauto).
    cbn [negb]. unfold load_json. by rewrite Hfile.
  - unfold api.get_agent_result. unfold bind at 1. unfold path_exists at 1.
    rewrite bool_decide_eq_true_2 by (rewrite Hfile; eauto). cbn [negb].
    unfold bind, load_json, lift, ret, get, get_default. rewrite Hfile. reflexivity.
Qed.

(** X21. While a trace has no sidecar, the three status endpoints answer
    [{trace_id, status: "pending"}] and change nothing; the response endpoint
    does not call the LLM. *)
Theorem status_endpoints_pending (trace_id : string) (w : world) :
  fs w !! stt_sidecar_path E trace_id = None ->
  api.get_stt_result E trace_id w = (Return (pending trace_id), w) /\
  api.get_agent_result E trace_id w = (Return (pending trace_id), w) /\
  main.get_chatbot_response E trace_id w = (Return (pending trace_id), w).
Proof.
  intros Hnone.
  unfold api.get_stt_result, api.get_agent_result, main.get_chatbot_response.
  unfold bind, path_exists. rewrite Hnone.
  rewrite bool_decide_eq_false_2 by (by intros [? ?]). by split_and!.
Qed.

(** The text endpoint, once the agent has returned. *)
Lemma process_text_query_unfold (query : string) (w w1 : world)
    (nlu weather : gmap string json) :
  weather_agent.travel_weather_agent E query w =
    (Return (JDict {[ "nlu" := JDict nlu; "weather" := JDict weather ]}), w1) ->
  truthy (JDict nlu) = true ->
  api.process_text_query E json_dumps_ascii render_error query w =
    if api.eq_str (default JNull (weather !! "error")) "no_location_extracted"
    then (Return no_location_answer, w1)
    else
      match chatbot.build_merged_context (JDict nlu) (JDict weather) with
      | Raise e => (Raise (Exn (HTTPException 500) ("context_error: " +:+ exn_msg e)), w1)
      | Return merged_context =>
          let api_key := chatbot.or_str (OPENAI_API_KEY E) (GOOGLE_API_KEY E) in
          if negb (env_set api_key)
          then (Raise (Exn (HTTPException 500)
                         "context_error: No API key provided for chatbot"), w1)
          else
            let prompt := api.text_user_prompt json_dumps_ascii query merged_context in
            let asked := requested (EvGenerate (default "" api_key) "gemini-2.5-pro"
                                      api.text_system_prompt prompt) w1 in
            match generate_content E (default "" api_key) "gemini-2.5-pro"
                    api.text_system_prompt prompt with
            | Raise e =>
                (Raise (Exn (HTTPException 500) ("chatbot_failed: " +:+ exn_msg e)), asked)
            | Return resp =>
                let t := clock E (ticks w1) in
                let content :=
                  JDict {[
                    "status" := JStr "done";
                    "response_text" :=
                      JStr match resp_text resp with
                           | Some text => if String.eqb text "" then resp_str resp else text
                           | None => resp_str resp
                           end;
                    "generated_at" :=
                      JStr (isoformat_naive (t - t mod micros_per_second) +:+ "Z");
                    "nlu" := JDict nlu;
                    "weather" := JDict weather ]} in
                (match render_error content with
                 | Some e =>
                     Raise (Exn (HTTPException 500) ("chatbot_failed: " +:+ exn_msg e))
                 | None => Return content
                 end,
                 World (fs w1) (opens w1) (S (ticks w1)) (events asked) (result w1))
            end
      end.
Proof.
  intros Hagent Hnlu. unfold api.process_text_query.
  unfold bind at 1. unfold try_except at 1. rewrite Hagent.
  unfold bind at 1. unfold lift at 1. unfold get at 1. unfold get_default at 1.
  rewrite lookup_insert_eq. cbn [default from_option id].
  unfold bind at 1. unfold lift at 1. unfold get at 1. unfold get_default at 1.
  rewrite lookup_insert_ne by discriminate. rewrite lookup_singleton_eq.
  cbn [default from_option id].
  unfold bind at 1. rewrite Hnlu. cbn [negb].
  unfold bind at 1. unfold lift at 1. unfold get at 1. unfold get_default at 1.
  unfold ret at 1.
  destruct (api.eq_str (default JNull (weather !! "error")) "no_location_extracted");
    [reflexivity|].
  unfold bind at 1. unfold try_except at 1. unfold bind at 1. unfold lift at 1.
  destruct (chatbot.build_merged_context (JDict nlu) (JDict weather)) as [ctx|e];
    [|reflexivity].
  cbv zeta.
  destruct (env_set (chatbot.or_str (OPENAI_API_KEY E) (GOOGLE_API_KEY E))); cbn [negb];
    [|reflexivity].
  unfold ret at 1. cbv beta iota.
  unfold try_except, chatbot.call_model_generate.
  unfold bind at 1. unfold bind at 1. unfold emit at 1. unfold bind at 1. unfold lift at 1.
  destruct (generate_content E _ _ _ _) as [resp|e]; [|reflexivity].
  unfold ret at 1. unfold bind at 1. unfold now at 1. unfold api.JSONResponse.
  cbn [fs opens ticks events result]. cbv zeta.
  by destruct (render_error _).
Qed.

(** X22. The text endpoint never touches the files or the record. Its
    answer is either the one for a query without location, or a dict with the
    status "done" and the [nlu] and [weather] the agent returned; what it
    raises is always an HTTP 500 whose detail starts with "agent_failed: ",
    "context_error: " or "chatbot_failed: ". *)
Theorem process_text_query_outcomes (query : string) (w : world) :
  let run := api.process_text_query E json_dumps_ascii render_error query w in
  fs run.2 = fs w /\ opens run.2 = opens w /\ result run.2 = result w /\
  match run.1 with
  | Return answer =>
      answer = no_location_answer \/
      exists d nlu weather,
        answer = JDict d /\ d !! "status" = Some (JStr "done") /\
        d !! "nlu" = Some nlu /\ d !! "weather" = Some weather /\
        (weather_agent.travel_weather_agent E query w).1 =
          Return (JDict {[ "nlu" := nlu; "weather" := weather ]})
  | Raise e =>
      server_error "agent_failed: " e \/ server_error "context_error: " e \/
      server_error "chatbot_failed: " e
  end.
Proof.
  cbv zeta.
  destruct (travel_weather_agent_events E query w) as (res & t & evs & Hagent & _).
  destruct res as [out|e].
  2:{ assert (Hrun : api.process_text_query E json_dumps_ascii render_error query w =
                (Raise (Exn (HTTPException 500) ("agent_failed: " +:+ exn_msg e)),
                 World (fs w) (opens w) t
                   (events w ++ EvCall "nlu_parser_travel" (JStr query) :: evs) (result w))).
      { unfold api.process_text_query. unfold bind at 1. unfold try_except at 1.
        by rewrite Hagent. }
      rewrite Hrun. cbn [fst snd fs opens result].
      split_and!; try reflexivity. left. split; [reflexivity|]. by eexists. }
  destruct (travel_weather_agent_value E _ _ _ _ Hagent) as (nlu & weather & -> & Hnlu).
  rewrite (process_text_query_unfold query w _ nlu weather Hagent Hnlu).
  destruct (api.eq_str _ _).
  { cbn [fst snd fs opens result]. split_and!; try reflexivity. by left. }
  destruct (chatbot.build_merged_context (JDict nlu) (JDict weather)) as [ctx|e].
  2:{ cbn [fst snd fs opens result]. split_and!; try reflexivity.
      right. left. split; [reflexivity|]. by eexists. }
  cbv zeta.
  destruct (env_set (chatbot.or_str (OPENAI_API_KEY E) (GOOGLE_API_KEY E))); cbn [negb].
  2:{ cbn [fst snd fs opens result]. split_and!; try reflexivity.
      right. left. split; [reflexivity|]. by eexists. }
  destruct (generate_content E _ _ _ _) as [resp|e].
  - cbv zeta. destruct (render_error _) as [e|].
    + cbn [fst snd fs opens result]. split_and!; try reflexivity.
      right. right. split; [reflexivity|]. by eexists.
    + cbn [fst snd fs opens result]. split_and!; try reflexivity.
      right. eexists _, (JDict nlu), (JDict weather). split; [reflexivity|].
      rewrite Hagent. split_and!; try reflexivity;
        try (by rewrite !lookup_insert_ne by discriminate; apply lookup_insert_eq);
        rewrite !lookup_insert_ne by discriminate; apply lookup_singleton_eq.
  - cbn [fst snd fs opens result]. split_and!; try reflexivity.
    right. right. split; [reflexivity|]. by eexists.
Qed.

(** X23. When the agent returns the weather error
    "no_location_extracted", the text endpoint answers that it could not
    identify the location, in the world the agent left: the LLM is not
    called. For a query in which neither the recognizer nor the pattern
    finds a location, the whole run sends no request at all. *)
Theorem process_text_query_no_location (query : string) (w : world) :
  (forall out w1,
     weather_agent.travel_weather_agent E query w = (Return out, w1) ->
     dig out ["weather"; "error"] = Some (JStr "no_location_extracted") ->
     api.process_text_query E json_dumps_ascii render_error query w =
       (Return no_location_answer, w1)) /\
  (weather_agent.nonempty (weather_agent.raw_location E query) = false ->
   exists w1,
     api.process_text_query E json_dumps_ascii render_error query w =
       (Return no_location_answer, w1) /\
     new_events w w1 = [EvCall "nlu_parser_travel" (JStr query)]).
Proof.
  assert (Hfirst : forall out w1,
     weather_agent.travel_weather_agent E query w = (Return out, w1) ->
     dig out ["weather"; "error"] = Some (JStr "no_location_extracted") ->
     api.process_text_query E json_dumps_ascii render_error query w =
       (Return no_location_answer, w1)).
  { intros out w1 Hagent Herr.
    destruct (travel_weather_agent_value E _ _ _ _ Hagent) as (nlu & weather & -> & Hnlu).
    rewrite (process_text_query_unfold query w _ nlu weather Hagent Hnlu).
    cbn [dig] in Herr. rewrite lookup_insert_ne in Herr by discriminate.
    rewrite lookup_singleton_eq in Herr.
    destruct (weather !! "error") as [v|]; [|discriminate Herr].
    injection Herr as ->. reflexivity. }
  split; [exact Hfirst|].
  intros Hraw.
  assert (Hloc : forall w0, weather_agent.extract_location E query w0 = (Return None, w0)).
  { intros w0. unfold weather_agent.extract_location.
    destruct (weather_agent.raw_location E query) as [loc|]; [|reflexivity].
    by rewrite Hraw. }
  assert (Hagent : exists nlu t,
    weather_agent.travel_weather_agent E query w =
      (Return (JDict {[ "nlu" := JDict nlu;
                        "weather" := weather_agent.error_dict "no_location_extracted" ]}),
       World (fs w) (opens w) t (events w ++ [EvCall "nlu_parser_travel" (JStr query)])
             (result w))).
  { unfold weather_agent.travel_weather_agent, weather_agent.nlu_parser_travel.
    unfold bind at 1. unfold bind at 1. unfold emit at 1. unfold bind at 1.
    rewrite Hloc.
    destruct (_ && _); [|destruct (_ && _)]; eexists _, _; reflexivity. }
  destruct Hagent as (nlu & t & Hagent).
  eexists. split.
  - eapply Hfirst; [exact Hagent|]. reflexivity.
  - by apply new_events_app.
Qed.

End endpoints.

(** ** The speech recognizer and the translator *)

Section speech_services.
Import stt_helpers.
Context (E : env).

(** X24. With the audio in place: without the speech key or region,
    [process_trace] raises "Azure credentials not set ..." before anything is
    sent or written; with them, a recognizer call that raises, or whose
    result is neither speech nor a no-match, makes [process_trace] raise
    ("Azure STT failed:" with the error details) after the one recognizer
    call, with nothing written. *)
Theorem speech_recognition_failures (trace_id : string) (languages : list string)
    (w : world) :
  let wav := path_join (UPLOAD_DIR E) (trace_id +:+ ".wav") in
  is_Some (fs w !! wav) ->
  (env_set (AZURE_KEY E) = false \/ env_set (AZURE_REGION E) = false ->
   process_trace E trace_id languages w =
     (Raise (Exn RuntimeError
               "Azure credentials not set in AZURE_SPEECH_KEY / AZURE_SPEECH_REGION"), w)) /\
  (env_set (AZURE_KEY E) = true -> env_set (AZURE_REGION E) = true ->
   match recognize_once E wav languages with
   | Raise e =>
       process_trace E trace_id languages w =
         (Raise e, requested (EvRecognize wav languages) w)
   | Return res =>
       reason res = Canceled ->
       process_trace E trace_id languages w =
         (Raise (Exn RuntimeError
                   ("Azure STT failed: " +:+ py_str E (of_opt_str (error_details res)))),
          requested (EvRecognize wav languages) w)
   end).
Proof.
  intros wav Hwav.
  assert (Hstart : process_trace E trace_id languages w =
            match transcribe_with_azure E wav languages w with
            | (Return stt_result, w1) =>
                (start_result E trace_id stt_result ;;;
                 english_text <- translate_step E ;;
                 checkpoints E trace_id english_text) w1
            | (Raise e, w1) => (Raise e, w1)
            end).
  { unfold process_trace. fold wav. unfold bind at 1. unfold path_exists at 1.
    rewrite bool_decide_eq_true_2 by exact Hwav. reflexivity. }
  rewrite Hstart. unfold transcribe_with_azure. split.
  - intros [-> | ->]; [reflexivity|]. by rewrite orb_true_r.
  - intros -> ->. cbn [negb orb]. unfold bind at 1. unfold emit at 1.
    unfold bind at 1. unfold lift at 1.
    destruct (recognize_once E wav languages) as [res|e]; [|reflexivity].
    by intros ->.
Qed.

(** X25. When the recognizer hears nothing ([NoMatch]), a pipeline that
    returns gives a record with the empty [text], the empty [text_en], the
    confidence 0.0 and a null [detected_language]: silence is a result, not
    a failure. *)
Theorem no_match_record (trace_id : string) (languages : list string)
    (w w' : world) (r : gmap string json) (res : recognition) :
  env_set (AZURE_KEY E) = true -> env_set (AZURE_REGION E) = true ->
  recognize_once E (path_join (UPLOAD_DIR E) (trace_id +:+ ".wav")) languages = Return res ->
  reason res = NoMatch ->
  process_trace E trace_id languages w = (Return r, w') ->
  r !! "text" = Some (JStr "") /\
  r !! "text_en" = Some (JStr "") /\
  r !! "confidence" = Some (JFloat 0) /\
  r !! "detected_language" = Some JNull.
Proof.
  intros Hkey Hregion Hrec Hreason Hp.
  destruct (process_trace_returns E _ _ _ _ _ Hp)
    as (text & conf & det & w1 & s & r0 & _ & Htr & _ & Hag & _).
  assert (Hstt : transcribe_with_azure E (path_join (UPLOAD_DIR E) (trace_id +:+ ".wav"))
                   languages w =
                 (Return (JDict {[ "text" := JStr ""; "confidence" := JFloat 0;
                                   "provider" := JStr "azure-speech";
                                   "detected_language" := JNull ]}),
                  requested (EvRecognize (path_join (UPLOAD_DIR E) (trace_id +:+ ".wav"))
                               languages) w)).
  { unfold transcribe_with_azure. rewrite Hkey, Hregion. cbn [negb orb].
    unfold bind at 1. unfold emit at 1. unfold bind at 1. unfold lift at 1.
    rewrite Hrec, Hreason. reflexivity. }
  rewrite Hstt in Htr.
  assert (Hfield : forall k,
    dig_result (Return (JDict {[ "text" := JStr ""; "confidence" := JFloat 0;
                                 "provider" := JStr "azure-speech";
                                 "detected_language" := JNull ]})) [k] =
    dig_result (Return (JDict {[ "text" := JStr text; "confidence" := conf;
                                 "provider" := JStr "azure-speech";
                                 "detected_language" := det ]})) [k])
    by (intros k; exact (f_equal (fun p : pyres json * world => dig_result p.1 [k]) Htr)).
  cbn [dig_result dig] in Hfield.
  assert (Htext : text = "").
  { specialize (Hfield "text"). rewrite !lookup_insert_eq in Hfield. by injection Hfield. }
  assert (Hconf : conf = JFloat 0).
  { specialize (Hfield "confidence").
    rewrite !lookup_insert_ne in Hfield by discriminate.
    rewrite !lookup_insert_eq in Hfield. by injection Hfield. }
  assert (Hdet : det = JNull).
  { specialize (Hfield "detected_language").
    rewrite !lookup_insert_ne in Hfield by discriminate.
    rewrite !lookup_singleton_eq in Hfield. by injection Hfield. }
  clear Hfield Htr.
  subst text conf det.
  assert (Hk : forall k,
    forallb (fun k' => negb (String.eqb k k'))
      ["text_en"; "warnings"; "text_file"; "agent_raw"; "nlu"; "weather"] = true ->
    r !! k = first_record trace_id (JStr "") (JFloat 0) (JStr "azure-speech") JNull
               (clock E (ticks w1)) !! k).
  { intros k Hk. apply Hag. by apply not_in_keys. }
  destruct (process_trace_spec E trace_id languages w)
    as (res' & w1' & evs & Hp' & _ & _ & _ & Hret).
  rewrite Hp in Hp'. injection Hp' as <- <-.
  destruct (Hret r eq_refl)
    as (_ & _ & _ & _ & _ & _ & _ & _ & _ & text' & det' & Htext' & _ & Hen).
  rewrite Hk in Htext' by reflexivity.
  assert (text' = "") as -> by (by injection Htext').
  cbn [truthy String.eqb negb andb] in Hen.
  rewrite (Hk "text"), (Hk "confidence"), (Hk "detected_language") by reflexivity.
  split_and!; try reflexivity. exact Hen.
Qed.

(** X26. Without the translator's key or region [translate_to_english]
    raises before any request. With them it sends exactly one POST to the
    translator, with [api-version] 3.0, [to] en, [from] when a source
    language is given, and the text as body; a request that raises is
    raised on, the answer's [[0].translations[0].text] is returned, and an
    empty answer raises [IndexError]. *)
Theorem translate_to_english_reply (text : json) (from_lang : option string) (w : world) :
  (env_set (TRANSLATOR_KEY E) = false \/ env_set (TRANSLATOR_REGION E) = false ->
   translate_to_english E text from_lang w =
     (Raise (Exn RuntimeError
               "Azure Translator credentials not set (AZURE_TRANSLATOR_KEY / AZURE_TRANSLATOR_REGION)"),
      w)) /\
  (env_set (TRANSLATOR_KEY E) = true -> env_set (TRANSLATOR_REGION E) = true ->
   let params := [("api-version", JStr "3.0"); ("to", JStr "en")] ++
                 (if env_set from_lang then [("from", of_opt_str from_lang)] else []) in
   let body := JList [JDict {[ "text" := text ]}] in
   let asked := requested (EvPost TRANSLATOR_ENDPOINT params body) w in
   match requests_post_json E TRANSLATOR_ENDPOINT params body with
   | Raise e => translate_to_english E text from_lang w = (Raise e, asked)
   | Return data =>
       (forall first rest tr more translated,
          data = JList (JDict first :: rest) ->
          first !! "translations" = Some (JList (JDict tr :: more)) ->
          tr !! "text" = Some translated ->
          translate_to_english E text from_lang w = (Return translated, asked)) /\
       (data = JList [] ->
        translate_to_english E text from_lang w =
          (Raise (Exn IndexError "list index out of range"), asked))
   end).
Proof.
  unfold translate_to_english. split.
  - intros [-> | ->]; [reflexivity|]. by rewrite orb_true_r.
  - intros -> ->. cbn [negb orb]. cbv zeta.
    set (params := _ ++ _). set (body := JList _).
    assert (Hrun : (data <- requests_post E TRANSLATOR_ENDPOINT params body ;;
                    d0 <- lift (index0 data) ;;
                    translations <- lift (item d0 "translations") ;;
                    t0 <- lift (index0 translations) ;;
                    lift (item t0 "text")) w =
              (pbind (requests_post_json E TRANSLATOR_ENDPOINT params body) (fun data =>
               pbind (index0 data) (fun d0 =>
               pbind (item d0 "translations") (fun translations =>
               pbind (index0 translations) (fun t0 => item t0 "text")))),
               requested (EvPost TRANSLATOR_ENDPOINT params body) w)).
    { unfold bind at 1. unfold requests_post at 1. unfold bind at 1. unfold emit at 1.
      unfold lift at 1. cbn [fs opens ticks events result].
      destruct (requests_post_json E TRANSLATOR_ENDPOINT params body) as [data|e];
        [|reflexivity].
      unfold bind, lift. cbn [pbind].
      destruct (index0 data) as [d0|]; [|reflexivity]. cbn [pbind].
      destruct (item d0 "translations") as [tr|]; [|reflexivity]. cbn [pbind].
      by destruct (index0 tr) as [t0|]. }
    rewrite Hrun.
    destruct (requests_post_json E TRANSLATOR_ENDPOINT params body) as [data|e];
      [|reflexivity].
    split.
    + intros first rest tr more translated -> Hfirst Htr.
      cbn [pbind index0 item]. rewrite Hfirst. cbn [pbind index0 item]. by rewrite Htr.
    + intros ->. reflexivity.
Qed.

End speech_services.

(** ** More runs in concrete environments *)

(** A computation that does not raise returns the value [returned] gives. *)
Lemma returned_eq {A} (d : A) (r : pyres A) : is_raise r = false -> r = Return (returned d r).
Proof. by destruct r. Qed.

Lemma run_eq {A} (d : A) (run : pyres A * world) :
  is_raise run.1 = false -> run = (Return (returned d run.1), run.2).
Proof. destruct run as [[] ?]; [reflexivity | discriminate]. Qed.

(** The geocoding service cannot be reached: the error is returned, after
    the one request. *)
Lemma fetch_weather_geocoding_errors_witness :
  weather_agent.fetch_weather cases.geo_down (JStr "Paris") scenario.uploaded =
    (Return (JDict {[ "error" := JStr "geocoding_failed: Read timed out." ]}),
     requested (EvGet weather_agent.geo_url (geo_params cases.geo_down (JStr "Paris")))
       (entered "fetch_weather" (JStr "Paris") scenario.uploaded)).
Proof.
  exact (fetch_weather_geocoding_errors cases.geo_down (JStr "Paris") scenario.uploaded
           eq_refl eq_refl).
Defined.

(** The weather of Paris, asked for at the coordinates of the first hit. *)
Lemma fetch_weather_weather_stage_witness :
  weather_agent.fetch_weather scenario.happy (JStr "Paris") scenario.uploaded =
    (weather_agent.weather_report scenario.happy scenario.paris_weather,
     requested (EvGet weather_agent.weather_url
                  (weather_params scenario.happy (JInt 48) (JInt 2)))
       (requested (EvGet weather_agent.geo_url (geo_params scenario.happy (JStr "Paris")))
          (entered "fetch_weather" (JStr "Paris") scenario.uploaded))).
Proof.
  assert (Hlat : ({[ "name" := JStr "Paris"; "country" := JStr "FR";
                     "lat" := JInt 48; "lon" := JInt 2 ]} : gmap string json) !! "lat" =
                 Some (JInt 48)) by (vm_compute; reflexivity).
  assert (Hlon : ({[ "name" := JStr "Paris"; "country" := JStr "FR";
                     "lat" := JInt 48; "lon" := JInt 2 ]} : gmap string json) !! "lon" =
                 Some (JInt 2)) by (vm_compute; reflexivity).
  exact (proj1 (fetch_weather_weather_stage scenario.happy (JStr "Paris") scenario.uploaded
                  _ [] (JInt 48) (JInt 2) eq_refl eq_refl eq_refl Hlat Hlon)).
Defined.

(** The report for Paris is a dict. *)
Lemma fetch_weather_returns_dict_witness :
  let run := weather_agent.fetch_weather scenario.happy (JStr "Paris") scenario.uploaded in
  exists d, returned JNull run.1 = JDict d /\ d !! "error" = None.
Proof.
  cbv zeta.
  set (run := weather_agent.fetch_weather scenario.happy (JStr "Paris") scenario.uploaded).
  assert (Hp : run = (Return (returned JNull run.1), run.2))
    by (apply run_eq; vm_compute; reflexivity).
  destruct (fetch_weather_returns_dict scenario.happy _ _ _ _ Hp)
    as (d & Hd & [[msg Hmsg] | (Herr & _)]).
  - exists d. split; [exact Hd|]. exfalso.
    assert (Hraw : dig (returned JNull run.1) ["raw"] = None) by (by rewrite Hd, Hmsg).
    vm_compute in Hraw. discriminate Hraw.
  - exists d. by split.
Defined.

(** A payload with a name and nothing else. *)
Lemma weather_report_missing_sections_witness :
  exists rep,
    weather_agent.weather_report scenario.happy (JDict {[ "name" := JStr "Paris" ]}) =
      Return (JDict rep) /\
    rep !! "location" = Some (JStr "Paris") /\
    rep !! "rain_1h" = Some (JInt 0) /\
    rep !! "timestamp" = Some JNull.
Proof.
  destruct (weather_report_missing_sections scenario.happy {[ "name" := JStr "Paris" ]})
    as (rep & Hrun & Hloc & Hrain & Htime & _).
  { repeat (constructor; [vm_compute; reflexivity|]). constructor. }
  exists rep. split; [exact Hrun|]. split; [|by split].
  rewrite Hloc. vm_compute. reflexivity.
Defined.

(** A payload whose [sys] is null. *)
Lemma weather_report_section_not_dict_witness :
  is_raise (weather_agent.weather_report scenario.happy (JDict {[ "sys" := JNull ]})) = true.
Proof.
  apply (weather_report_section_not_dict scenario.happy {[ "sys" := JNull ]} "sys" JNull).
  - constructor.
  - vm_compute. reflexivity.
  - reflexivity.
Defined.

(** The response generated from the sidecar of a processed trace. *)
Lemma generate_travel_response_fields_witness :
  let run := chatbot.generate_travel_response scenario.happy "t1" "uploads/t1.json" None
               scenario.processed in
  exists o, returned JNull run.1 = JDict o /\ o !! "city" = Some (JStr "Paris").
Proof.
  cbv zeta.
  set (run := chatbot.generate_travel_response scenario.happy "t1" "uploads/t1.json" None
                scenario.processed).
  assert (Hp : run = (Return (returned JNull run.1), run.2))
    by (apply run_eq; vm_compute; reflexivity).
  destruct (generate_travel_response_fields scenario.happy _ _ _ _ _ _ Hp)
    as (o & city & t & prompt & Ho & _ & Hcity & _).
  exists o. split; [exact Ho|].
  assert (Hc : dig (returned JNull run.1) ["city"] = Some (JStr city))
    by (rewrite Ho; cbn [dig]; by rewrite Hcity).
  vm_compute in Hc. injection Hc as <-. exact Hcity.
Defined.

(** The trace id of a sidecar in the upload directory. *)
Lemma extract_trace_id_of_sidecar_witness :
  chatbot_paths.extract_trace_id_from_path cases.trace_sidecar = Some cases.trace.
Proof.
  exact (extract_trace_id_of_sidecar scenario.happy cases.trace eq_refl).
Defined.

Lemma extract_trace_id_is_uuid_witness :
  is_uuid cases.trace = true /\
  exists before after, cases.trace_sidecar = before +:+ cases.trace +:+ after.
Proof.
  exact (extract_trace_id_is_uuid cases.trace_sidecar cases.trace eq_refl).
Defined.

(** The context of a weather result for Paris, FR, without an NLU. *)
Lemma build_merged_context_fields_witness :
  exists d,
    chatbot.build_merged_context (JDict ∅)
      (JDict {[ "location" := JStr " Paris"; "country" := JStr "FR" ]}) = Return (JDict d) /\
    d !! "user_query" = Some (JStr "") /\
    d !! "weather_data" =
      Some (JDict {[ "location" := JStr " Paris"; "country" := JStr "FR" ]}).
Proof.
  set (run := chatbot.build_merged_context (JDict ∅)
                (JDict {[ "location" := JStr " Paris"; "country" := JStr "FR" ]})).
  assert (Hp : run = Return (returned JNull run))
    by (apply returned_eq; vm_compute; reflexivity).
  destruct (build_merged_context_fields _ _ _ Hp)
    as (d & location & user_query & Hd & Hweather & _ & _ & Hquery & _ & _).
  exists d. rewrite Hp, Hd. split; [reflexivity|]. split; [|exact Hweather].
  assert (Hq : dig (returned JNull run) ["user_query"] = Some user_query)
    by (rewrite Hd; cbn [dig]; by rewrite Hquery).
  vm_compute in Hq. injection Hq as <-. exact Hquery.
Defined.

(** The record and the files of a run of the pipeline on English speech. *)
Lemma process_trace_record_witness :
  let run := stt_helpers.process_trace scenario.happy "t1" ["en-US"; "ja-JP"]
               scenario.uploaded in
  returned ∅ run.1 !! "trace_id" = Some (JStr "t1") /\
  returned ∅ run.1 !! "provider" = Some (JStr "azure-speech") /\
  returned ∅ run.1 !! "text_file" = Some (JStr "uploads/t1.txt").
Proof.
  cbv zeta.
  set (run := stt_helpers.process_trace scenario.happy "t1" ["en-US"; "ja-JP"]
                scenario.uploaded).
  assert (Hp : run = (Return (returned ∅ run.1), run.2))
    by (apply run_eq; vm_compute; reflexivity).
  destruct (process_trace_record scenario.happy "t1" ["en-US"; "ja-JP"] scenario.uploaded
              run.2 _ Hp) as (stt & w1 & _ & Hid & _ & _ & Hprov & _ & _ & Hfile & _).
  split; [exact Hid|]. split; [exact Hprov | exact Hfile].
Defined.

Lemma process_trace_files_witness :
  let run := stt_helpers.process_trace scenario.happy "t1" ["en-US"; "ja-JP"]
               scenario.uploaded in
  fs run.2 !! "uploads/t1.json" = Some (FJson (JDict (returned ∅ run.1))) /\
  opens run.2 = 3%nat.
Proof.
  cbv zeta.
  set (run := stt_helpers.process_trace scenario.happy "t1" ["en-US"; "ja-JP"]
                scenario.uploaded).
  assert (Hp : run = (Return (returned ∅ run.1), run.2))
    by (apply run_eq; vm_compute; reflexivity).
  destruct (process_trace_files scenario.happy "t1" ["en-US"; "ja-JP"] scenario.uploaded
              run.2 _ Hp) as (_ & _ & Hside & _ & _ & Hopens).
  split; [exact Hside | exact Hopens].
Defined.

(** The agent on the query of a transcribed trace. *)
Lemma agent_step_outcomes_witness :
  exists w',
    stt_helpers.agent_step scenario.happy cases.transcribed = (Return tt, w') /\
    is_Some (result w' !! "agent_raw") /\
    result w' !! "warnings" = None.
Proof.
  destruct (agent_step_outcomes scenario.happy cases.transcribed "weather in Paris")
    as (w' & Hrun & Hcase).
  { left. vm_compute. reflexivity. }
  { vm_compute. reflexivity. }
  exists w'. split; [exact Hrun|].
  set (agent := weather_agent.travel_weather_agent scenario.happy "weather in Paris"
                  cases.transcribed) in Hcase.
  assert (Hp : agent.1 = Return (returned JNull agent.1))
    by (apply returned_eq; vm_compute; reflexivity).
  rewrite Hp in Hcase. destruct Hcase as (Hraw & _ & _ & Hwarn).
  split; [by eexists|]. rewrite Hwarn. vm_compute. reflexivity.
Defined.



(** The status endpoints after the pipeline has returned. *)
Lemma results_after_pipeline_witness :
  let run := stt_helpers.process_trace scenario.happy "t1" ["en-US"; "ja-JP"]
               scenario.uploaded in
  api.get_stt_result scenario.happy "t1" run.2 = (Return (JDict (returned ∅ run.1)), run.2).
Proof.
  cbv zeta.
  set (run := stt_helpers.process_trace scenario.happy "t1" ["en-US"; "ja-JP"]
                scenario.uploaded).
  assert (Hp : run = (Return (returned ∅ run.1), run.2))
    by (apply run_eq; vm_compute; reflexivity).
  exact (proj1 (results_after_pipeline scenario.happy "t1" ["en-US"; "ja-JP"]
                  scenario.uploaded run.2 _ Hp)).
Defined.

(** The status endpoints after a pipeline that could not write the text
    file. *)
Lemma results_after_failed_pipeline_witness :
  let w' := (stt_helpers.background_process_trace scenario.text_write_fails "t1"
               ["en-US"; "ja-JP"] scenario.uploaded).2 in
  api.get_agent_result scenario.text_write_fails "t1" w' =
    (Return (JDict {[ "trace_id" := JStr "t1"; "nlu" := JNull; "weather" := JNull;
                      "status" := JStr "failed" ]}), w').
Proof.
  cbv zeta.
  set (p := stt_helpers.process_trace scenario.text_write_fails "t1" ["en-US"; "ja-JP"]
              scenario.uploaded).
  assert (Hp : p = (Raise (Exn OSError "[Errno 28] No space left on device"), p.2))
    by (vm_compute; reflexivity).
  assert (Hopen : open_w scenario.text_write_fails (opens p.2) = None)
    by (vm_compute; reflexivity).
  exact (proj2 (results_after_failed_pipeline scenario.text_write_fails "t1"
                  ["en-US"; "ja-JP"] scenario.uploaded p.2 _ Hp Hopen)).
Defined.

(** A trace that has no sidecar yet. *)
Lemma status_endpoints_pending_witness :
  api.get_agent_result scenario.happy "t1" scenario.uploaded =
    (Return (pending "t1"), scenario.uploaded).
Proof.
  destruct (status_endpoints_pending scenario.happy "t1" scenario.uploaded)
    as (_ & H & _); [vm_compute; reflexivity | exact H].
Defined.

(** The recognizer gives up: the pipeline raises after the one request. *)
Lemma speech_recognition_failures_witness :
  stt_helpers.process_trace cases.speech_canceled "t1" ["en-US"; "ja-JP"] scenario.uploaded =
    (Raise (Exn RuntimeError
              "Azure STT failed: Connection was closed by the remote host."),
     requested (EvRecognize "uploads/t1.wav" ["en-US"; "ja-JP"]) scenario.uploaded).
Proof.
  destruct (speech_recognition_failures cases.speech_canceled "t1" ["en-US"; "ja-JP"]
              scenario.uploaded) as (_ & H).
  { vm_compute. eauto. }
  exact (H eq_refl eq_refl eq_refl).
Defined.

(** The recognizer hears nothing: the record has an empty transcript. *)
Lemma no_match_record_witness :
  let run := stt_helpers.process_trace cases.silence "t1" ["en-US"; "ja-JP"]
               scenario.uploaded in
  returned ∅ run.1 !! "text" = Some (JStr "") /\
  returned ∅ run.1 !! "text_en" = Some (JStr "").
Proof.
  cbv zeta.
  set (run := stt_helpers.process_trace cases.silence "t1" ["en-US"; "ja-JP"]
                scenario.uploaded).
  assert (Hp : run = (Return (returned ∅ run.1), run.2))
    by (apply run_eq; vm_compute; reflexivity).
  destruct (no_match_record cases.silence "t1" ["en-US"; "ja-JP"] scenario.uploaded
              run.2 _ cases.no_match eq_refl eq_refl eq_refl eq_refl Hp)
    as (Htext & Hen & _).
  split; [exact Htext | exact Hen].
Defined.

(** A Japanese transcript and the translator's answer to it. *)
Lemma translate_to_english_reply_witness :
  (stt_helpers.translate_to_english cases.translating (JStr "pari no tenki") (Some "ja")
     scenario.uploaded).1 = Return (JStr "weather in Paris").
Proof.
  destruct (translate_to_english_reply cases.translating (JStr "pari no tenki") (Some "ja")
              scenario.uploaded) as (_ & H).
  specialize (H eq_refl eq_refl). cbv zeta in H.
  change (requests_post_json cases.translating stt_helpers.TRANSLATOR_ENDPOINT
            ([("api-version", JStr "3.0"); ("to", JStr "en")] ++
             (if env_set (Some "ja") then [("from", of_opt_str (Some "ja"))] else []))
            (JList [JDict {[ "text" := JStr "pari no tenki" ]}]))
    with (@Return json cases.translated_reply) in H.
  destruct H as (H & _).
  rewrite (H _ [] {[ "text" := JStr "weather in Paris"; "to" := JStr "en" ]} []
             (JStr "weather in Paris") eq_refl);
    [reflexivity | vm_compute; reflexivity | vm_compute; reflexivity].
Defined.
